(** * UIDAI-STATS: region resolver, date parser and merge store of parser.py

    A shallow embedding of [src/parser.py] and the properties of its three
    core components: [canonicalize_region] (the region resolver),
    [parse_dates_strong] (the date parser) and [merge_write_dataset] (the
    merge store), together with the [main] loop that drives them.

    Conventions of the embedding.
    - Text is [string]; a character is its code point.  The character
      functions ([lower], [strip], [title], the regular-expression classes)
      are those of Python on ASCII text ([Py.ascii_text]); the properties
      that Python does not have outside ASCII are stated for ASCII text.
    - A Python [dict] literal is an association list in insertion order.
    - An exception is a value of [exn]; code that can raise returns a
      [result].
    - A date is a [Timestamp], with its time of day; the numbers of a row
      are kept by the name of their column.
    - pandas and difflib are libraries, not part of the repository.  difflib
      is modelled by the documented contract of [SequenceMatcher]; the pandas
      parsers ([to_datetime] on a series, [read_csv], [to_numeric]) are
      parameters of the development, with one concrete instance in
      [Module PandasModel]. *)

From Stdlib Require Import ZArith Lia String Ascii List Bool Sorted.
From stdpp Require Import base list strings gmap pretty.

Open Scope string_scope.
Open Scope list_scope.

(** ** Exceptions *)

Inductive exn :=
  | KeyError (key : string)
  | ValueError (msg : string)
  | PandasError (msg : string).

Inductive result (A : Type) :=
  | Ok (a : A)
  | Raise (e : exn).
Arguments Ok {A} a.
Arguments Raise {A} e.

Definition result_bind {A B} (f : A -> result B) (m : result A) : result B :=
  match m with
  | Ok a => f a
  | Raise e => Raise e
  end.

#[global] Instance result_ret : MRet result := fun _ a => Ok a.
#[global] Instance result_mbind : MBind result := fun _ _ f m => result_bind f m.

Ltac simpl_bind := cbn [mbind result_mbind result_bind mret result_ret].

(** ** Characters and strings, as Python treats them *)

Module Py.

Definition ord (c : ascii) : nat := nat_of_ascii c.

Definition in_range (lo hi : nat) (c : ascii) : bool :=
  (lo <=? ord c)%nat && (ord c <=? hi)%nat.

Definition is_digit (c : ascii) : bool := in_range 48 57 c.
Definition is_lower (c : ascii) : bool := in_range 97 122 c.
Definition is_upper (c : ascii) : bool := in_range 65 90 c.
Definition is_alpha (c : ascii) : bool := is_lower c || is_upper c.

(** [str.isspace] and the class [\s]: tab, line feed, vertical tab, form
    feed, carriage return, the four separators 28..31 and the space. *)
Definition is_space (c : ascii) : bool :=
  in_range 9 13 c || in_range 28 31 c || (ord c =? 32)%nat.

(** The characters of ASCII, and the texts made of them.  On these the
    functions of this module are those of Python; a text with other
    characters is outside what they describe ([str.title], [str.lower],
    [str.strip] and the classes [\s] and [\d] follow the Unicode database
    there). *)
Definition is_ascii (c : ascii) : bool := (ord c <? 128)%nat.

Definition lower_char (c : ascii) : ascii :=
  if is_upper c then ascii_of_nat (ord c + 32) else c.
Definition upper_char (c : ascii) : ascii :=
  if is_lower c then ascii_of_nat (ord c - 32) else c.

Definition chars (s : string) : list ascii := list_ascii_of_string s.
Definition str (l : list ascii) : string := string_of_list_ascii l.

Definition ascii_text (s : string) : bool := forallb is_ascii (chars s).

(** [s.lower()] *)
Definition lower (s : string) : string := str (map lower_char (chars s)).

(** [s.strip()] *)
Fixpoint lstrip_chars (l : list ascii) : list ascii :=
  match l with
  | c :: l' => if is_space c then lstrip_chars l' else l
  | [] => []
  end.
Definition strip_chars (l : list ascii) : list ascii :=
  rev (lstrip_chars (rev (lstrip_chars l))).
Definition strip (s : string) : string := str (strip_chars (chars s)).

(** [s.replace(c, t)] for a one-character pattern [c] *)
Definition replace_char (c : ascii) (t : string) (s : string) : string :=
  str (flat_map (fun x => if Ascii.eqb x c then chars t else [x]) (chars s)).

(** [re.sub("[class]+", empty, s)]: every character of the class is removed *)
Definition remove_class (cls : ascii -> bool) (s : string) : string :=
  str (List.filter (fun c => negb (cls c)) (chars s)).

(** [re.sub("[class]+", t, s)]: every maximal run of the class becomes [t] *)
Fixpoint sub_runs_chars (cls : ascii -> bool) (t : list ascii) (inrun : bool)
    (l : list ascii) : list ascii :=
  match l with
  | [] => []
  | c :: l' =>
      if cls c then (if inrun then [] else t) ++ sub_runs_chars cls t true l'
      else c :: sub_runs_chars cls t false l'
  end.
Definition sub_runs (cls : ascii -> bool) (t : string) (s : string) : string :=
  str (sub_runs_chars cls (chars t) false (chars s)).

(** [sub in s] *)
Fixpoint is_prefix (p l : list ascii) : bool :=
  match p, l with
  | [], _ => true
  | _ :: _, [] => false
  | x :: p', y :: l' => Ascii.eqb x y && is_prefix p' l'
  end.
Fixpoint contains_chars (p l : list ascii) : bool :=
  is_prefix p l ||
  match l with
  | [] => false
  | _ :: l' => contains_chars p l'
  end.
Definition contains (sub s : string) : bool := contains_chars (chars sub) (chars s).

(** [s.title()]: the first letter of every run of letters in upper case, the
    others in lower case. *)
Fixpoint title_chars (prev_cased : bool) (l : list ascii) : list ascii :=
  match l with
  | [] => []
  | c :: l' =>
      (if is_alpha c then (if prev_cased then lower_char c else upper_char c) else c)
        :: title_chars (is_alpha c) l'
  end.
Definition title (s : string) : string := str (title_chars false (chars s)).

(** [re.fullmatch("\d{n,}", s)] *)
Definition all_digits (s : string) : bool := forallb is_digit (chars s).
Definition digits_at_least (n : nat) (s : string) : bool :=
  all_digits s && (n <=? String.length s)%nat.

(** [x in xs] for a list or set of strings *)
Definition mem (x : string) (xs : list string) : bool :=
  existsb (String.eqb x) xs.

End Py.

(** ** Dictionaries with string keys *)

Definition dict (V : Type) := list (string * V).

Section Dict.
Context {V : Type}.

Fixpoint dict_find (d : dict V) (k : string) : option V :=
  match d with
  | [] => None
  | (k', v) :: d' => if String.eqb k k' then Some v else dict_find d' k
  end.

(** [k in d] *)
Definition dict_in (k : string) (d : dict V) : bool :=
  match dict_find d k with Some _ => true | None => false end.

(** [d[k]], which raises [KeyError] on a missing key *)
Definition dict_get (d : dict V) (k : string) : result V :=
  match dict_find d k with Some v => Ok v | None => Raise (KeyError k) end.

(** [list(d.keys())] *)
Definition dict_keys (d : dict V) : list string := map fst d.
Definition dict_values (d : dict V) : list V := map snd d.
End Dict.

(** ** Constants of the module (lines 10-21, 27-49) *)

Definition INPUT_DIR : string := "input_csv".
Definition OUTPUT_DIR : string := "state_csv".
Definition DATE_COL : string := "date".

Definition STATES_28 : list string :=
  [ "Andhra Pradesh"; "Arunachal Pradesh"; "Assam"; "Bihar"; "Chhattisgarh";
    "Goa"; "Gujarat"; "Haryana"; "Himachal Pradesh"; "Jharkhand"; "Karnataka";
    "Kerala"; "Madhya Pradesh"; "Maharashtra"; "Manipur"; "Meghalaya"; "Mizoram";
    "Nagaland"; "Odisha"; "Punjab"; "Rajasthan"; "Sikkim"; "Tamil Nadu";
    "Telangana"; "Tripura"; "Uttar Pradesh"; "Uttarakhand"; "West Bengal" ].
Definition STATES_28_SET : list string := STATES_28.

Definition UTS_8 : list string :=
  [ "Andaman And Nicobar Islands";
    "Chandigarh";
    "Dadra And Nagar Haveli And Daman And Diu";
    "Delhi";
    "Jammu And Kashmir";
    "Ladakh";
    "Lakshadweep";
    "Puducherry" ].
Definition UTS_8_SET : list string := UTS_8.

(** [_key] (lines 52-57) *)
Definition key_sep (c : ascii) : bool :=
  Py.is_space c || Ascii.eqb c "_" || Ascii.eqb c "-".
Definition key_junk (c : ascii) : bool :=
  negb (Py.is_lower c || Py.is_digit c).

Definition _key (s : string) : string :=
  let s := Py.strip (Py.lower s) in
  let s := Py.replace_char "&" "and" s in
  let s := Py.remove_class key_sep s in
  let s := Py.remove_class key_junk s in
  s.

Definition STATE_KEY_TO_NAME : dict string := map (fun x => (_key x, x)) STATES_28.
Definition UT_KEY_TO_NAME : dict string := map (fun x => (_key x, x)) UTS_8.

Definition REGION_ALIASES : dict string :=
  [ ("tamilnadu", "Tamil Nadu");
    ("westbengal", "West Bengal");
    ("chattisgarh", "Chhattisgarh");
    ("chhatishgarh", "Chhattisgarh");
    ("uttaranchal", "Uttarakhand");
    ("orissa", "Odisha");
    ("telengana", "Telangana");
    ("nctofdelhi", "Delhi");
    ("delhinct", "Delhi");
    ("newdelhi", "Delhi");
    ("andamannicobarislands", "Andaman And Nicobar Islands");
    ("dadraandnagarhaveli", "Dadra And Nagar Haveli And Daman And Diu");
    ("damananddiu", "Dadra And Nagar Haveli And Daman And Diu");
    ("dadraandnagarhavelianddamananddiu", "Dadra And Nagar Haveli And Daman And Diu");
    ("pondicherry", "Puducherry") ].

Definition UT_DISTRICT_MAP : dict string :=
  [ ("eastdelhi", "Delhi");
    ("westdelhi", "Delhi");
    ("northdelhi", "Delhi");
    ("southdelhi", "Delhi");
    ("southwestdelhi", "Delhi");
    ("south_east_delhi", "Delhi");
    ("northeastdelhi", "Delhi");
    ("northwestdelhi", "Delhi");
    ("centraldelhi", "Delhi");
    ("newdelhi", "Delhi");
    ("srinagar", "Jammu And Kashmir");
    ("jammu", "Jammu And Kashmir");
    ("anantnag", "Jammu And Kashmir");
    ("baramulla", "Jammu And Kashmir");
    ("kupwara", "Jammu And Kashmir");
    ("pulwama", "Jammu And Kashmir");
    ("budgam", "Jammu And Kashmir");
    ("ganderbal", "Jammu And Kashmir");
    ("kulgam", "Jammu And Kashmir");
    ("shopian", "Jammu And Kashmir");
    ("bandipora", "Jammu And Kashmir");
    ("punch", "Jammu And Kashmir");
    ("poonch", "Jammu And Kashmir");
    ("rajouri", "Jammu And Kashmir");
    ("udhampur", "Jammu And Kashmir");
    ("reasi", "Jammu And Kashmir");
    ("ramban", "Jammu And Kashmir");
    ("kathua", "Jammu And Kashmir");
    ("samba", "Jammu And Kashmir");
    ("doda", "Jammu And Kashmir");
    ("kishtwar", "Jammu And Kashmir");
    ("leh", "Ladakh");
    ("kargil", "Ladakh");
    ("puducherry", "Puducherry");
    ("pondicherry", "Puducherry");
    ("karaikal", "Puducherry");
    ("mahe", "Puducherry");
    ("yanam", "Puducherry");
    ("chandigarh", "Chandigarh");
    ("southandaman", "Andaman And Nicobar Islands");
    ("northandmiddleandaman", "Andaman And Nicobar Islands");
    ("nicobars", "Andaman And Nicobar Islands");
    ("lakshadweep", "Lakshadweep");
    ("dadraandnagarhaveli", "Dadra And Nagar Haveli And Daman And Diu");
    ("daman", "Dadra And Nagar Haveli And Daman And Diu");
    ("diu", "Dadra And Nagar Haveli And Daman And Diu") ].

(** ** difflib: [SequenceMatcher] and [get_close_matches]

    [SequenceMatcher.find_longest_match] is modelled by its documented
    contract: of all the longest blocks [a[i:i+k] == b[j:j+k]] it returns the
    one that starts earliest in [a] and, of those, earliest in [b].  No
    element is junk: there is no [isjunk] function, and the automatic junk
    heuristic needs a second sequence of 200 elements or more, for which the
    ratio to a key of at most 33 characters stays below one third.
    [real_quick_ratio] and [quick_ratio] are upper bounds of [ratio] that
    difflib tests first to save time; they do not change the result (see
    [score_needs_similar_lengths] for the first of them). *)

Module Difflib.

Fixpoint common_prefix (a b : list ascii) : nat :=
  match a, b with
  | x :: a', y :: b' => if Ascii.eqb x y then S (common_prefix a' b') else 0
  | _, _ => 0
  end.

(** The block starting at [i] in [a]: scan the starts [j] of [b], keep the
    first strictly longer block. *)
Fixpoint scan_b (a b : list ascii) (i j : nat) (best : nat * nat * nat)
    : nat * nat * nat :=
  match b with
  | [] => best
  | _ :: b' =>
      let k := common_prefix a b in
      scan_b a b' i (S j) (if (snd best <? k)%nat then (i, j, k) else best)
  end.

Fixpoint scan_a (a b : list ascii) (i : nat) (best : nat * nat * nat)
    : nat * nat * nat :=
  match a with
  | [] => best
  | _ :: a' => scan_a a' b (S i) (scan_b a b i 0 best)
  end.

(** [find_longest_match(0, len(a), 0, len(b))], as [(i, j, k)] *)
Definition find_longest_match (a b : list ascii) : nat * nat * nat :=
  scan_a a b 0 (0, 0, 0)%nat.

(** The sum of the sizes of [get_matching_blocks()]: the longest block, then
    the blocks to its left and to its right. *)
Fixpoint matching_size (fuel : nat) (a b : list ascii) : nat :=
  match fuel with
  | O => 0
  | S fuel' =>
      match find_longest_match a b with
      | (i, j, k) =>
          if (k =? 0)%nat then 0
          else (matching_size fuel' (firstn i a) (firstn j b)
                + k
                + matching_size fuel' (skipn (i + k) a) (skipn (j + k) b))%nat
      end
  end.

Definition matches (a b : string) : nat :=
  matching_size (String.length a) (Py.chars a) (Py.chars b).

(** [ratio()] is [2.0 * matches / (len(a) + len(b))], and [1.0] when both
    are empty; a score is kept as the fraction [(numerator, denominator)]. *)
Definition ratio (a b : string) : nat * nat :=
  let t := (String.length a + String.length b)%nat in
  if (t =? 0)%nat then (1, 1)%nat else ((2 * matches a b)%nat, t).

(** [score >= num/den] and [score1 < score2], by cross multiplication.  The
    floating-point comparison of the source agrees with it: two distinct
    fractions with denominators below 10^7 differ by more than a rounding
    error. *)
Definition score_ge (sc : nat * nat) (num den : nat) : bool :=
  (num * snd sc <=? den * fst sc)%nat.
Definition score_compare (s1 s2 : nat * nat) : comparison :=
  Nat.compare (fst s1 * snd s2) (fst s2 * snd s1).

Definition scored_lt (x y : (nat * nat) * string) : bool :=
  match score_compare (fst x) (fst y) with
  | Lt => true
  | Gt => false
  | Eq => match String.compare (snd x) (snd y) with Lt => true | _ => false end
  end.

(** [max(result)]: the first greatest pair [(score, x)] *)
Fixpoint best_scored (best : option ((nat * nat) * string))
    (l : list ((nat * nat) * string)) : option ((nat * nat) * string) :=
  match l with
  | [] => best
  | x :: l' =>
      best_scored (match best with
                   | None => Some x
                   | Some b => if scored_lt b x then Some x else Some b
                   end) l'
  end.

(** [get_close_matches(word, possibilities, n=1, cutoff=num/den)] *)
Definition get_close_matches (word : string) (possibilities : list string)
    (num den : nat) : list string :=
  let result :=
    List.filter (fun sx => score_ge (fst sx) num den)
      (map (fun x => (ratio x word, x)) possibilities) in
  match best_scored None result with
  | None => []
  | Some (_, x) => [x]
  end.

End Difflib.

(** A block [(i, j, k)] lies inside sequences of lengths [la] and [lb] *)
Definition block_inside (la lb : nat) (m : nat * nat * nat) : Prop :=
  (fst (fst m) + snd m <= la /\ snd (fst m) + snd m <= lb)%nat.

(** ** [canonicalize_region] (lines 250-300) *)

Inductive region_type := STATE | UT | UNKNOWN.

#[global] Instance region_type_eq_dec : EqDecision region_type.
Proof. solve_decision. Defined.

Definition region : Type := region_type * string.

(** The fuzzy cutoff [0.92], as the fraction 92/100 *)
Definition CUTOFF_NUM : nat := 92.
Definition CUTOFF_DEN : nat := 100.

(** Lines 260-265 and 278-283: the alias test on a key; control falls
    through to [next] when the key is no alias, and also when the alias
    names no member of either enumeration. *)
Definition alias_step (k : string) (next : result region) : result region :=
  if dict_in k REGION_ALIASES then
    name ← dict_get REGION_ALIASES k;
    if Py.mem name STATES_28_SET then Ok (STATE, name)
    else if Py.mem name UTS_8_SET then Ok (UT, name)
    else next
  else next.

(** Lines 267-270 and 285-288: the canonical keys of both enumerations *)
Definition exact_step (k : string) (next : result region) : result region :=
  if dict_in k STATE_KEY_TO_NAME then
    name ← dict_get STATE_KEY_TO_NAME k; Ok (STATE, name)
  else if dict_in k UT_KEY_TO_NAME then
    name ← dict_get UT_KEY_TO_NAME k; Ok (UT, name)
  else next.

(** Lines 290-298: one fuzzy lookup against the keys of a table *)
Definition fuzzy_step (t : region_type) (table : dict string) (sk : string)
    (next : result region) : result region :=
  let choices := dict_keys table in
  match Difflib.get_close_matches sk choices CUTOFF_NUM CUTOFF_DEN with
  | k :: _ => name ← dict_get table k; Ok (t, name)
  | [] => next
  end.

Definition canonicalize_region (state_raw district_raw : string) : result region :=
  let s := Py.strip state_raw in
  let d := Py.strip district_raw in
  let s := if Py.digits_at_least 3 s then EmptyString else s in
  let sk := _key s in
  let dk := _key d in
  alias_step sk (
  exact_step sk (
  if dict_in dk UT_DISTRICT_MAP then
    name ← dict_get UT_DISTRICT_MAP dk; Ok (UT, name)
  else if Py.contains "delhi" dk then Ok (UT, "Delhi")
  else
  alias_step dk (
  exact_step dk (
  fuzzy_step STATE STATE_KEY_TO_NAME sk (
  fuzzy_step UT UT_KEY_TO_NAME sk (
  Ok (UNKNOWN, EmptyString))))))).

(** ** Small helpers (lines 163-201) *)

(** [os.path.join] of a directory and a relative name *)
Definition path_join (a b : string) : string := a +:+ "/" +:+ b.

Definition bad_filename_char (c : ascii) : bool :=
  negb (Py.is_alpha c || Py.is_digit c
        || Ascii.eqb c " " || Ascii.eqb c "_" || Ascii.eqb c "-").
Definition is_underscore (c : ascii) : bool := Ascii.eqb c "_".

Definition safe_folder_name (name : string) : string :=
  let s := Py.replace_char "&" "and" (Py.strip name) in
  let s := Py.remove_class bad_filename_char s in
  let s := Py.replace_char " " "_" s in
  let s := Py.sub_runs is_underscore "_" s in
  if String.eqb s EmptyString then "Unknown" else s.

Definition clean_col (c : string) : string :=
  let c := Py.lower (Py.strip c) in
  let c := Py.replace_char " " "_" c in
  Py.sub_runs is_underscore "_" c.

Definition infer_dataset (filename : string) : string :=
  let f := Py.lower filename in
  if Py.contains "demo" f || Py.contains "demographic" f then "demographic"
  else if Py.contains "bio" f || Py.contains "biometric" f then "biometric"
  else if Py.contains "enrol" f || Py.contains "enroll" f then "enrolment"
  else "dataset".

Definition get_output_folder (region_type : region_type) (region_name : string)
    : string :=
  match region_type with
  | STATE => path_join OUTPUT_DIR (safe_folder_name region_name)
  | UT => path_join (path_join OUTPUT_DIR "UT") (safe_folder_name region_name)
  | UNKNOWN => path_join OUTPUT_DIR "_UNKNOWN"
  end.

(** ** Values of a data frame *)

(** A calendar date *)
Record Date := mkDate { year : nat; month : nat; day : nat }.

#[global] Instance Date_eq_dec : EqDecision Date.
Proof. solve_decision. Defined.

(** A pandas [Timestamp]: a calendar date and the time of day, in
    nanoseconds after midnight.  The cells of a [datetime64] column are
    [Timestamp]s or missing ([NaT]). *)
Record Timestamp := mkTimestamp { ts_date : Date; ts_time : N }.

#[global] Instance Timestamp_eq_dec : EqDecision Timestamp.
Proof. solve_decision. Defined.

Definition midnight (d : Date) : Timestamp := mkTimestamp d 0%N.

(** A cell of a frame read from a file: missing ([NaN]), text, an integer,
    or a float with an integral value.  A file read with [dtype=str] has
    [NaN] and [Str] cells only. *)
Inductive value :=
  | NaN
  | Str (s : string)
  | Int (z : Z)
  | Float (z : Z).

(** [pd.isna(x)] and [str(x)] *)
Definition pd_isna (x : value) : bool :=
  match x with NaN => true | _ => false end.
Definition py_str (x : value) : string :=
  match x with
  | NaN => "nan"
  | Str s => s
  | Int z => pretty z
  | Float z => pretty z +:+ ".0"
  end.

Definition of_raw (c : option string) : value :=
  match c with None => NaN | Some s => Str s end.

Definition isna {A} (x : option A) : bool :=
  match x with None => true | Some _ => false end.
Definition notna {A} (x : option A) : bool := negb (isna x).

(** [norm_title] and [norm_pincode] (lines 178-190) *)
Definition norm_title (x : value) : string :=
  if pd_isna x then EmptyString
  else Py.title (Py.sub_runs Py.is_space " " (Py.strip (py_str x))).

Definition non_digit (c : ascii) : bool := negb (Py.is_digit c).

Definition norm_pincode (x : value) : string :=
  if pd_isna x then EmptyString
  else Py.remove_class non_digit (Py.strip (py_str x)).

(** ** Orders given by a comparison *)

(** The lexicographic comparison of pairs *)
Definition lex {A B} (c1 : A -> A -> comparison) (c2 : B -> B -> comparison)
    (x y : A * B) : comparison :=
  match c1 (fst x) (fst y) with
  | Eq => c2 (snd x) (snd y)
  | c => c
  end.

(** A missing value after every value *)
Definition none_last {A} (cmp : A -> A -> comparison) (a b : option A) : comparison :=
  match a, b with
  | None, None => Eq
  | None, Some _ => Gt
  | Some _, None => Lt
  | Some x, Some y => cmp x y
  end.

Definition ymd (d : Date) : nat * nat * nat := (year d, month d, day d).
Definition ymd_compare (x y : Date) : comparison :=
  lex (lex Nat.compare Nat.compare) Nat.compare (ymd x) (ymd y).
Definition ts_compare (x y : Timestamp) : comparison :=
  lex ymd_compare N.compare (ts_date x, ts_time x) (ts_date y, ts_time y).
Definition date_compare : option Timestamp -> option Timestamp -> comparison :=
  none_last ts_compare.

(** A comparison that is a strict total order *)
Class CmpOrder {A} (cmp : A -> A -> comparison) := {
  cmp_eq : forall x y, cmp x y = Eq <-> x = y;
  cmp_antisym : forall x y, cmp y x = CompOpp (cmp x y);
  cmp_lt_trans : forall x y z, cmp x y = Lt -> cmp y z = Lt -> cmp x z = Lt
}.

(** ** The pandas interface

    The parts of pandas that the module calls and whose behaviour is not
    written in the repository.  Every definition below is generic in them. *)

(** One line of a table file: the text of each cell.  A table file has the
    four key columns, as every file that [merge_write_dataset] writes has;
    the cells of the columns of numbers are kept by the name of their
    column, an empty cell (a missing number) being left out. *)
Record CsvRow := mkCsvRow {
  csv_state : string;
  csv_district : string;
  csv_pincode : string;
  csv_date : string;
  csv_metrics : gmap string string
}.

#[global] Instance CsvRow_eq_dec : EqDecision CsvRow.
Proof. solve_decision. Defined.

(** One row of a frame as [pd.read_csv(path)] returns it: the key columns
    with the types pandas inferred, the other columns as numbers. *)
Record LoadedRow (metric : Type) := mkLoadedRow {
  ld_state : value;
  ld_district : value;
  ld_pincode : value;
  ld_date : value;
  ld_metrics : gmap string metric
}.
Arguments mkLoadedRow {metric}.
Arguments ld_state {metric}.
Arguments ld_district {metric}.
Arguments ld_pincode {metric}.
Arguments ld_date {metric}.
Arguments ld_metrics {metric}.

Class Pandas := {
  (** the numbers of a numeric column, the missing number ([NaN]) apart *)
  metric : Type;
  metric_eq_dec :: EqDecision metric;
  (** [pd.to_datetime(s, errors="coerce", dayfirst=b)] on the values of a
      series of texts, missing values among them: pandas looks at the whole
      series (from version 2 on it takes one format from the first value
      and reads every value with it) *)
  to_datetime : bool -> list (option string) -> list (option Timestamp);
  (** [pd.to_datetime(x, format=fmt, errors="coerce")] on one text *)
  to_datetime_format : string -> string -> option Timestamp;
  (** [pd.to_numeric(x, errors="coerce")] on one cell of a [dtype=str] frame;
      [None] is [NaN] *)
  to_numeric : option string -> option metric;
  (** the text [to_csv] writes for a number *)
  metric_to_csv : metric -> string;
  (** [pd.read_csv(path)] on the lines of a table file *)
  read_csv : list CsvRow -> list (LoadedRow metric)
}.

(** A series that keeps its index after a Boolean selection *)
Definition indexed (A : Type) := list (nat * A).

Fixpoint select_from {A} (i : nat) (mask : list bool) (s : list A) : indexed A :=
  match mask, s with
  | b :: mask', x :: s' =>
      (if b then [(i, x)] else []) ++ select_from (S i) mask' s'
  | _, _ => []
  end.
(** [s[mask]] *)
Definition select {A} (mask : list bool) (s : list A) : indexed A :=
  select_from 0 mask s.

Fixpoint index_find {A} (upd : indexed A) (i : nat) : option A :=
  match upd with
  | [] => None
  | (j, y) :: upd' => if (i =? j)%nat then Some y else index_find upd' i
  end.
Fixpoint assign_from {A} (i : nat) (d : list A) (upd : indexed A) : list A :=
  match d with
  | [] => []
  | x :: d' =>
      match index_find upd i with Some y => y | None => x end
        :: assign_from (S i) d' upd
  end.
(** [d.loc[mask] = upd], where [upd] carries the index of [d[mask]] *)
Definition loc_assign {A} (d : list A) (upd : indexed A) : list A :=
  assign_from 0 d upd.

Definition imap_values {A B} (f : A -> B) (s : indexed A) : indexed B :=
  map (fun ix => (fst ix, f (snd ix))) s.

(** ** The pipeline, generic in pandas *)

Section Pipeline.
Context `{P : Pandas}.

(** *** [parse_dates_strong] (lines 207-244) *)

Definition NA_TOKENS : list string :=
  [ EmptyString; "na"; "NA"; "nan"; "null"; "None"; "-"; "--" ].
Definition DATE_FORMATS : list string :=
  [ "%Y-%m-%d"; "%d-%m-%Y"; "%m-%d-%Y"; "%Y%m%d"; "%d%m%Y"; "%m%d%Y" ].

Definition dot_or_slash (c : ascii) : bool := Ascii.eqb c "." || Ascii.eqb c "/".

(** [s.str.replace("[./]", "-")]: one dash for every dot or slash *)
Definition dash_separators (s : string) : string :=
  Py.str (map (fun c => if dot_or_slash c then "-"%char else c) (Py.chars s)).

(** [pd.to_datetime] returns a series with the index of its argument, and
    a missing value stays missing ([NaT]). *)
Definition series_to_datetime (dayfirst : bool) (s : list (option string))
    : list (option Timestamp) :=
  let d := to_datetime dayfirst s in
  imap (fun i x => match x with
                   | Some _ => default None (d !! i)
                   | None => None
                   end) s.

(** The same on a selection [s[mask]], which keeps the index of [s] *)
Definition selection_to_datetime (dayfirst : bool) (sub : indexed (option string))
    : indexed (option Timestamp) :=
  combine (map fst sub) (series_to_datetime dayfirst (map snd sub)).

Definition both_masks (d : list (option Timestamp)) (s : list (option string)) : list bool :=
  map (fun ds => isna (fst ds) && notna (snd ds)) (combine d s).

(** One turn of the loop of lines 238-241 *)
Definition fill_format (candidates : indexed (option string))
    (fixed : indexed (option Timestamp)) (fmt : string) : indexed (option Timestamp) :=
  let parsed :=
    imap_values (fun x => match x with
                          | Some v => to_datetime_format fmt v
                          | None => None
                          end) candidates in
  map (fun fp => (fst (fst fp),
                  if isna (snd (fst fp)) && notna (snd (snd fp))
                  then snd (snd fp) else snd (fst fp)))
      (combine fixed parsed).

Definition parse_dates_strong (series : list value) : list (option Timestamp) :=
  let s := map (fun x => Py.strip (py_str x)) series in
  let s := map (fun x => if Py.mem x NA_TOKENS then None else Some x) s in
  let s := map (option_map dash_separators) s in
  let s := map (option_map (Py.remove_class Py.is_space)) s in
  let d := series_to_datetime true s in
  let mask := both_masks d s in
  let d :=
    if existsb id mask then
      let d2 := selection_to_datetime false (select mask s) in
      loc_assign d d2
    else d in
  let mask := both_masks d s in
  let d :=
    if existsb id mask then
      let candidates := select mask s in
      let fixed := imap_values (fun _ => None) candidates in
      let fixed := fold_left (fill_format candidates) DATE_FORMATS fixed in
      loc_assign d fixed
    else d in
  d.

(** *** Rows *)

(** A row of a cleaned frame: the four key columns, and the numbers of the
    numeric columns by the name of their column. *)
Record Row := mkRow {
  state : string;
  district : string;
  pincode : string;
  date : option Timestamp;
  metrics : gmap string metric
}.

#[global] Instance Row_eq_dec : EqDecision Row.
Proof. solve_decision. Defined.

(** A row of the frame [clean_dataframe] returns, with its two region columns;
    [_region_name] is [pd.NA] for an empty name. *)
Record CleanRow := mkCleanRow {
  row : Row;
  _region_type : region_type;
  _region_name : option string
}.

(** A file as [pd.read_csv(path, dtype=str)] returns it: the header and the
    rows, every cell a text or missing. *)
Record RawFrame := mkRawFrame {
  columns : list string;
  rows : list (list (option string))
}.

Fixpoint col_index (name : string) (cols : list string) : option nat :=
  match cols with
  | [] => None
  | c :: cols' =>
      if String.eqb name c then Some 0%nat else option_map S (col_index name cols')
  end.

(** [df[name]] on one row, for a name that one column has; a short row is
    padded with missing cells. *)
Definition cell_of (cols : list string) (name : string) (r : list (option string))
    : option string :=
  match col_index name cols with
  | Some i => nth i r None
  | None => None
  end.

Definition REQUIRED : list string := [ "state"; "district"; "pincode"; DATE_COL ].
Definition KEY_COLS : list string := REQUIRED ++ [ "_region_type"; "_region_name" ].

Fixpoint result_mapM {A B} (f : A -> result B) (l : list A) : result (list B) :=
  match l with
  | [] => Ok []
  | x :: l' => y ← f x; ys ← result_mapM f l'; Ok (y :: ys)
  end.

(** The cells of the columns that are no key column, as numbers, by the
    name of the column.  [pd.concat] lines frames up by these names and
    fills what a frame lacks with [NaN], and [drop_duplicates] takes two
    [NaN] for equal: two rows are equal when they have the same numbers
    under the same names, a missing number being no number. *)
Fixpoint metric_cells (cols : list string) (r : list (option string))
    : gmap string metric :=
  match cols with
  | [] => ∅
  | c :: cols' =>
      let x := match r with [] => None | x :: _ => x end in
      let rest := metric_cells cols' (tl r) in
      if Py.mem c KEY_COLS then rest
      else match to_numeric x with Some v => <[ c := v ]> rest | None => rest end
  end.

(** *** [clean_dataframe] (lines 306-336)

    When two columns have one name after [clean_col], [df[name]] is a frame,
    not a series, and the statements that use it fail inside pandas, with an
    exception whose class depends on the column: [PandasError] stands for
    it, raised where the columns are first used. *)
Definition clean_dataframe (df : RawFrame) : result (list CleanRow) :=
  let cols := map clean_col (columns df) in
  let missing := List.filter (fun c => negb (Py.mem c cols)) REQUIRED in
  match missing with
  | _ :: _ => Raise (ValueError "Missing required columns")
  | [] =>
      if negb (bool_decide (NoDup cols)) then Raise (PandasError "duplicate column labels")
      else
      let states := map (fun r => norm_title (of_raw (cell_of cols "state" r))) (rows df) in
      let districts := map (fun r => norm_title (of_raw (cell_of cols "district" r))) (rows df) in
      let pincodes := map (fun r => norm_pincode (of_raw (cell_of cols "pincode" r))) (rows df) in
      regions ← result_mapM (fun sd => canonicalize_region (fst sd) (snd sd))
                   (combine states districts);
      let dates := parse_dates_strong
                     (map (fun r => of_raw (cell_of cols DATE_COL r)) (rows df)) in
      let numbers := map (metric_cells cols) (rows df) in
      Ok (map (fun x =>
                 match x with
                 | (s, d, p, dt, ms, (t, name)) =>
                     mkCleanRow (mkRow s d p dt ms) t
                       (if String.eqb name EmptyString then None else Some name)
                 end)
              (combine (combine (combine (combine (combine states districts)
                 pincodes) dates) numbers) regions))
  end.

(** *** [sort_df] (lines 339-340) *)

(** The key of the sort, and its order: text by code point, dates by the
    calendar, a missing date last ([na_position="last"]). *)
Definition sort_key (r : Row) : string * string * option Timestamp :=
  (district r, pincode r, date r).
Definition key_compare : string * string * option Timestamp ->
    string * string * option Timestamp -> comparison :=
  lex (lex String.compare String.compare) date_compare.
Definition row_compare (r1 r2 : Row) : comparison :=
  key_compare (sort_key r1) (sort_key r2).
Definition row_leb (r1 r2 : Row) : bool :=
  match row_compare r1 r2 with Gt => false | _ => true end.

(** [sort_values(..., kind="mergesort")] is a stable sort.  All stable sorts
    return the same list; this one inserts each row in front of the sorted
    rest, before the first row that is not smaller. *)
Fixpoint insert_sorted (x : Row) (l : list Row) : list Row :=
  match l with
  | [] => [x]
  | y :: l' => if row_leb x y then x :: l else y :: insert_sorted x l'
  end.
Definition sort_df (df : list Row) : list Row := foldr insert_sorted [] df.

(** [drop_duplicates()]: the first of equal rows is kept *)
Fixpoint drop_seen (seen : list Row) (df : list Row) : list Row :=
  match df with
  | [] => []
  | x :: df' =>
      if bool_decide (x ∈ seen) then drop_seen seen df'
      else x :: drop_seen (x :: seen) df'
  end.
Definition drop_duplicates (df : list Row) : list Row := drop_seen [] df.

(** *** The table files *)

(** A file is empty (size 0) or holds a header and the lines of a table. *)
Inductive disk_file :=
  | Blank
  | Csv (lines : list CsvRow).

(** [strftime("%Y-%m-%d")] *)
Definition pad (width : nat) (s : string) : string :=
  Py.str (repeat "0"%char (width - String.length s)) +:+ s.
Definition strftime (d : Date) : string :=
  pad 4 (pretty (year d)) +:+ "-" +:+ pad 2 (pretty (month d)) +:+ "-"
    +:+ pad 2 (pretty (day d)).

(** [to_csv]: text as it is, the date already formatted by line 381, which
    leaves the time of day out, numbers by pandas *)
Definition to_csv_row (r : Row) : CsvRow :=
  mkCsvRow (state r) (district r) (pincode r)
    (match date r with Some d => strftime (ts_date d) | None => EmptyString end)
    (metric_to_csv <$> metrics r).
Definition to_csv (df : list Row) : disk_file := Csv (map to_csv_row df).

(** Lines 362-371: the stored table, read and normalised again *)
Definition reload (lines : list CsvRow) : list Row :=
  let old := read_csv lines in
  let dates := parse_dates_strong (map ld_date old) in
  map (fun od =>
         mkRow (norm_title (ld_state (fst od)))
               (norm_title (ld_district (fst od)))
               (norm_pincode (ld_pincode (fst od)))
               (snd od)
               (ld_metrics (fst od)))
      (combine old dates).

(** The frame that lines 373-379 build from the old rows and the new. *)
Definition merged (old : list Row) (sdf : list Row) : list Row :=
  let combined := old ++ sdf in
  let combined := drop_duplicates combined in
  let combined := sort_df combined in
  List.filter (fun r => notna (date r)) combined.

(** *** [merge_write_dataset] (lines 357-382) *)
Definition merge_write_dataset (region_folder dataset : string) (sdf : list Row)
    (fs : gmap string disk_file) : gmap string disk_file :=
  let out_path := path_join region_folder (dataset +:+ ".csv") in
  let old :=
    match fs !! out_path with
    | Some (Csv lines) => reload lines
    | Some Blank | None => []
    end in
  <[ out_path := to_csv (merged old sdf) ]> fs.

(** *** [main] (lines 454-533): the loop over the input files

    The report and its counters are left out; they do not touch the tables. *)

Fixpoint insert_name (x : string) (l : list string) : list string :=
  match l with
  | [] => [x]
  | y :: l' =>
      match String.compare x y with
      | Lt => x :: l
      | Eq => l
      | Gt => y :: insert_name x l'
      end
  end.

(** [df.groupby("_region_name")]: the groups by increasing name, the rows of
    a group in the order of the frame *)
Definition groupby_region_name (df : list CleanRow) : list (string * list CleanRow) :=
  let names := foldr (fun r acc =>
                        match _region_name r with
                        | Some n => insert_name n acc
                        | None => acc
                        end) [] df in
  map (fun n => (n, List.filter (fun r => bool_decide (_region_name r = Some n)) df)) names.

Definition name_isin (xs : list string) (r : CleanRow) : bool :=
  match _region_name r with Some n => Py.mem n xs | None => false end.

Definition write_groups (t : region_type) (dataset : string) (df : list CleanRow)
    (fs : gmap string disk_file) : gmap string disk_file :=
  fold_left (fun fs g =>
               merge_write_dataset (get_output_folder t (fst g)) dataset
                 (map row (snd g)) fs)
            (groupby_region_name df) fs.

(** The body of the loop, for one file *)
Definition process_file (file : string) (df_raw : RawFrame) (fs : gmap string disk_file)
    : result (gmap string disk_file) :=
  let dataset := infer_dataset file in
  df ← clean_dataframe df_raw;
  let valid_date := List.filter (fun r => notna (date (row r))) df in
  let mapped := List.filter (fun r => notna (_region_name r)) valid_date in
  let state_rows :=
    List.filter (fun r => bool_decide (_region_type r = STATE)
                          && name_isin STATES_28_SET r) mapped in
  let ut_rows :=
    List.filter (fun r => bool_decide (_region_type r = UT)
                          && name_isin UTS_8_SET r) mapped in
  let fs := write_groups STATE dataset state_rows fs in
  let fs := write_groups UT dataset ut_rows fs in
  Ok fs.

(** The loop: an exception of one file ends it, and leaves the tables as the
    files before it wrote them. *)
Fixpoint main_loop (files : list (string * RawFrame)) (fs : gmap string disk_file)
    : gmap string disk_file * result unit :=
  match files with
  | [] => (fs, Ok tt)
  | (file, df_raw) :: files' =>
      match process_file file df_raw fs with
      | Ok fs' => main_loop files' fs'
      | Raise e => (fs, Raise e)
      end
  end.

(** *** Notions the properties are stated with *)

(** The rows not seen yet, the rows of one sort key, the rows with a date *)
Definition unseen (seen : list Row) (x : Row) : bool := negb (bool_decide (x ∈ seen)).
Definition row_le (r1 r2 : Row) : Prop := row_leb r1 r2 = true.
Definition has_key (k : string * string * option Timestamp) (r : Row) : bool :=
  bool_decide (sort_key r = k).
Definition has_date (r : Row) : bool := notna (date r).


(** A table file whose pincode cells are digits and nothing else *)
Definition digits_only (f : disk_file) : Prop :=
  match f with
  | Blank => True
  | Csv lines => Forall (fun l => Py.all_digits (csv_pincode l) = true) lines
  end.

Definition store_digits_only (fs : gmap string disk_file) : Prop :=
  map_Forall (fun _ f => digits_only f) fs.
Definition rows_digits_only (df : list Row) : Prop :=
  forall r, r ∈ df -> Py.all_digits (pincode r) = true.

(** The schema check of [clean_dataframe] fails *)
Definition lacks_required_column (df : RawFrame) : Prop :=
  exists c, c ∈ REQUIRED /\ c ∉ map clean_col (columns df).

End Pipeline.

(** ** One instance of the pandas interface

    pandas is a library and not part of the repository; the instance is
    modelled from its documentation.  It reads dates that are three numbers
    joined by dashes, the way pandas does from version 2 on: [to_datetime]
    takes one format from the first value of the series and reads every
    value with it, and [to_datetime] with a format is [strptime].  Dates of
    other shapes (names of months, times of day, years of two digits) are
    outside the instance, which takes them for unreadable.  It reads a table
    file the way pandas infers column types: a column whose cells are all
    digits becomes a column of integers, or of floats when a cell is
    missing. *)

Module PandasModel.

Definition digit_val (c : ascii) : nat := Py.ord c - 48.
Definition number (l : list ascii) : nat :=
  fold_left (fun n c => (10 * n + digit_val c)%nat) l 0%nat.

Definition leap_year (y : nat) : bool :=
  ((y mod 4 =? 0) && negb (y mod 100 =? 0) || (y mod 400 =? 0))%nat.
Definition days_in_month (y m : nat) : nat :=
  match m with
  | 1 | 3 | 5 | 7 | 8 | 10 | 12 => 31
  | 4 | 6 | 9 | 11 => 30
  | 2 => if leap_year y then 29 else 28
  | _ => 0
  end.

(** A date of the calendar within the years a [Timestamp] can hold *)
Definition make_date (y m d : nat) : option Date :=
  if ((1678 <=? y) && (y <=? 2261) && (1 <=? m) && (m <=? 12)
      && (1 <=? d) && (d <=? days_in_month y m))%nat
  then Some (mkDate y m d) else None.

Fixpoint split_dash (cur : list ascii) (l : list ascii) : list (list ascii) :=
  match l with
  | [] => [rev cur]
  | c :: l' =>
      if Ascii.eqb c "-" then rev cur :: split_dash [] l'
      else split_dash (c :: cur) l'
  end.

Definition short_field (f : list ascii) : bool :=
  forallb Py.is_digit f && (1 <=? length f)%nat && (length f <=? 2)%nat.
Definition year_field (f : list ascii) : bool :=
  forallb Py.is_digit f && (length f =? 4)%nat.

Definition first_some {A} (x y : option A) : option A :=
  match x with Some _ => x | None => y end.

(** The directives of a format and the regular expressions [strptime] gives
    them: four digits for [%Y]; [1[0-2]|0[1-9]|[1-9]] for [%m];
    [3[0-1]|[1-2]\d|0[1-9]|[1-9]] for [%d]. *)
Inductive directive := DirY | DirM | DirD | Lit (c : ascii).

Fixpoint parse_format (l : list ascii) : list directive :=
  match l with
  | "%"%char :: "Y"%char :: l' => DirY :: parse_format l'
  | "%"%char :: "m"%char :: l' => DirM :: parse_format l'
  | "%"%char :: "d"%char :: l' => DirD :: parse_format l'
  | c :: l' => Lit c :: parse_format l'
  | [] => []
  end.

Definition month_pair (c1 c2 : ascii) : bool :=
  (Ascii.eqb c1 "1" && Py.in_range 48 50 c2)
  || (Ascii.eqb c1 "0" && Py.in_range 49 57 c2).
Definition day_pair (c1 c2 : ascii) : bool :=
  (Ascii.eqb c1 "3" && Py.in_range 48 49 c2)
  || (Py.in_range 49 50 c1 && Py.is_digit c2)
  || (Ascii.eqb c1 "0" && Py.in_range 49 57 c2).

Record fields := mkFields { fy : nat; fm : nat; fd : nat }.

(** The match of the expression at the start of the text, alternatives in
    their order, with the text that remains *)
Fixpoint match_format (ds : list directive) (s : list ascii) (f : fields)
    : option (fields * list ascii) :=
  match ds with
  | [] => Some (f, s)
  | Lit c :: ds' =>
      match s with
      | x :: s' => if Ascii.eqb x c then match_format ds' s' f else None
      | [] => None
      end
  | DirY :: ds' =>
      match s with
      | c1 :: c2 :: c3 :: c4 :: s' =>
          if forallb Py.is_digit [c1; c2; c3; c4]
          then match_format ds' s' (mkFields (number [c1; c2; c3; c4]) (fm f) (fd f))
          else None
      | _ => None
      end
  | DirM :: ds' =>
      first_some
        (match s with
         | c1 :: c2 :: s' =>
             if month_pair c1 c2
             then match_format ds' s' (mkFields (fy f) (number [c1; c2]) (fd f))
             else None
         | _ => None
         end)
        (match s with
         | c1 :: s' =>
             if Py.in_range 49 57 c1
             then match_format ds' s' (mkFields (fy f) (number [c1]) (fd f))
             else None
         | _ => None
         end)
  | DirD :: ds' =>
      first_some
        (match s with
         | c1 :: c2 :: s' =>
             if day_pair c1 c2
             then match_format ds' s' (mkFields (fy f) (fm f) (number [c1; c2]))
             else None
         | _ => None
         end)
        (match s with
         | c1 :: s' =>
             if Py.in_range 49 57 c1
             then match_format ds' s' (mkFields (fy f) (fm f) (number [c1]))
             else None
         | _ => None
         end)
  end.

(** [pd.to_datetime(x, format=fmt, errors="coerce")]: the expression must
    match and use up the text, and the fields must be a date. *)
Definition to_datetime_format (fmt : string) (s : string) : option Timestamp :=
  match match_format (parse_format (Py.chars fmt)) (Py.chars s) (mkFields 0 0 0) with
  | Some (f, []) => option_map midnight (make_date (fy f) (fm f) (fd f))
  | _ => None
  end.

(** The first value of a series that is not missing *)
Fixpoint first_valid (s : list (option string)) : option string :=
  match s with
  | [] => None
  | Some v :: _ => Some v
  | None :: s' => first_valid s'
  end.

Definition is_date (o : option Date) : bool :=
  match o with Some _ => true | None => false end.

(** The format that pandas (from version 2 on) takes from the first value of
    a series, for a text of three numbers joined by dashes with a year of
    four digits at the end or at the start.  [dateutil] reads the text, and
    the format is the one that writes its reading back.  With the year at the
    end the first number is the day when it is above 12, or when the day is
    asked first and the second number can be a month; it is the month
    otherwise.  With the year at the start the second number is the day when
    the day is asked first and the third number can be a month.  The reading
    must be a date.  Texts of other shapes are outside what this instance
    covers. *)
Definition inferred_format (dayfirst : bool) (v : string) : option string :=
  match split_dash [] (Py.chars v) with
  | [a; b; c] =>
      if short_field a && short_field b && year_field c then
        if ((12 <? number a) || (dayfirst && (number b <=? 12)))%nat
        then (if is_date (make_date (number c) (number b) (number a))
              then Some "%d-%m-%Y" else None)
        else (if is_date (make_date (number c) (number a) (number b))
              then Some "%m-%d-%Y" else None)
      else if year_field a && short_field b && short_field c then
        if (dayfirst && (number c <=? 12))%nat
        then (if is_date (make_date (number a) (number c) (number b))
              then Some "%Y-%d-%m" else None)
        else (if is_date (make_date (number a) (number b) (number c))
              then Some "%Y-%m-%d" else None)
      else None
  | _ => None
  end.

(** One value read on its own, as pandas reads the values of a series when
    the first one gives no format: a text with the year at the start by the
    ISO reading, a text with the year at the end as [dateutil] reads it. *)
Definition alone (dayfirst : bool) (v : string) : option Timestamp :=
  match split_dash [] (Py.chars v) with
  | [a; b; c] =>
      if year_field a && short_field b && short_field c
      then to_datetime_format "%Y-%m-%d" v
      else match inferred_format dayfirst v with
           | Some fmt => to_datetime_format fmt v
           | None => None
           end
  | _ => None
  end.

(** [pd.to_datetime(s, errors="coerce", dayfirst=b)] on a series *)
Definition to_datetime (dayfirst : bool) (s : list (option string))
    : list (option Timestamp) :=
  match first_valid s with
  | None => map (fun _ => None) s
  | Some v =>
      match inferred_format dayfirst v with
      | Some fmt => map (fun x => x ≫= to_datetime_format fmt) s
      | None => map (fun x => x ≫= alone dayfirst) s
      end
  end.

(** Numbers: the integers *)
Definition int_text (s : string) : bool :=
  Py.all_digits s && (1 <=? String.length s)%nat && (String.length s <=? 15)%nat.
Definition int_of_text (s : string) : Z := Z.of_nat (number (Py.chars s)).

Definition to_numeric (x : option string) : option Z :=
  match x with
  | Some s => if int_text (Py.strip s) then Some (int_of_text (Py.strip s)) else None
  | None => None
  end.
Definition metric_to_csv (z : Z) : string := pretty z.

(** The texts [read_csv] takes for a missing value *)
Definition NA_VALUES : list string :=
  [ EmptyString; "#N/A"; "#N/A N/A"; "#NA"; "-1.#IND"; "-1.#QNAN"; "-NaN"; "-nan";
    "1.#IND"; "1.#QNAN"; "<NA>"; "N/A"; "NA"; "NULL"; "NaN"; "None"; "n/a";
    "nan"; "null" ].
Definition is_na (s : string) : bool := Py.mem s NA_VALUES.

(** The type of a column, from all its cells: integers when every cell is a
    run of at most 15 digits, floats when some of them are missing as well,
    text otherwise.  Cells with a sign, a fraction, an exponent, more digits
    or a truth value are outside this instance, which keeps them as text. *)
Definition read_cell (col : list string) : string -> value :=
  let present := List.filter (fun s => negb (is_na s)) col in
  if forallb int_text present then
    if existsb is_na col
    then fun s => if is_na s then NaN else Float (int_of_text s)
    else fun s => Int (int_of_text s)
  else fun s => if is_na s then NaN else Str s.

Definition read_csv (lines : list CsvRow) : list (LoadedRow Z) :=
  let rd_state := read_cell (map csv_state lines) in
  let rd_district := read_cell (map csv_district lines) in
  let rd_pincode := read_cell (map csv_pincode lines) in
  let rd_date := read_cell (map csv_date lines) in
  map (fun l =>
         mkLoadedRow (rd_state (csv_state l)) (rd_district (csv_district l))
           (rd_pincode (csv_pincode l)) (rd_date (csv_date l))
           (omap (fun s => to_numeric (Some s)) (csv_metrics l)))
      lines.

#[global] Instance pandas : Pandas :=
  Build_Pandas Z _ to_datetime to_datetime_format to_numeric
    metric_to_csv read_csv.

End PandasModel.

(** ** Concrete inputs *)

Module Examples.
Import PandasModel.

Definition new_year_eve : Timestamp := midnight (mkDate 2020 12 31).

(** A batch of one row whose pincode starts with a zero *)
Definition leading_zero_batch : list Row :=
  [ mkRow "Delhi" "New Delhi" "011001" (Some new_year_eve) ∅ ].

(** A batch of two rows, one of them without a pincode *)
Definition blank_pincode_batch : list Row :=
  [ mkRow "Delhi" "New Delhi" EmptyString (Some new_year_eve) ∅;
    mkRow "Delhi" "New Delhi" "110001" (Some new_year_eve) ∅ ].

Definition delhi_folder : string := get_output_folder UT "Delhi".
Definition delhi_table : string := "state_csv/UT/Delhi/demographic.csv".

Definition line (pin : string) : CsvRow :=
  mkCsvRow "Delhi" "New Delhi" pin "2020-12-31" ∅.

(** Two times of one day, in nanoseconds after midnight, and a store with
    one table of one line *)
Definition ten_o_clock : Timestamp := mkTimestamp (mkDate 2020 12 31) 36000000000000.
Definition eleven_o_clock : Timestamp := mkTimestamp (mkDate 2020 12 31) 39600000000000.
Definition stored_table : gmap string disk_file :=
  {[ delhi_table := Csv [ line "110002" ] ]}.

(** An input file without the [date] column, and one with all four *)
Definition no_date_file : string * RawFrame :=
  ("enrolment_a.csv",
   mkRawFrame [ "State"; "District"; "Pincode" ]
     [ [ Some "Goa"; Some "North Goa"; Some "403001" ] ]).
Definition complete_file : string * RawFrame :=
  ("enrolment_b.csv",
   mkRawFrame [ "State"; "District"; "Pincode"; "Date" ]
     [ [ Some "Goa"; Some "North Goa"; Some "403001"; Some "31-12-2020" ] ]).
Definition goa_table : string := "state_csv/Goa/enrolment.csv".

(** The reference column of the date parser *)
Definition reference_dates : list value :=
  [ Str "31.12.2020"; Str "12/31/2020"; Str "2020-12-31"; Str "na"; Str EmptyString ].

End Examples.

(** ** The specification's words, as definitions

    Section 4.2 of the specification describes the resolver as a chain of
    eight lookups on two normalised keys, the first hit winning.  The
    definitions below follow that text; the theorems compare them with
    [canonicalize_region]. *)

Module Spec.

(** "typed by which enumeration it belongs to" *)
Definition typed (name : string) : option region :=
  if Py.mem name STATES_28 then Some (STATE, name)
  else if Py.mem name UTS_8 then Some (UT, name)
  else None.

(** Steps 1 and 5: alias lookup *)
Definition alias_lookup (k : string) : option region :=
  match dict_find REGION_ALIASES k with
  | Some name => typed name
  | None => None
  end.

(** Steps 2 and 6: exact canonical-key lookup against both enumerations *)
Definition exact_lookup (k : string) : option region :=
  match dict_find STATE_KEY_TO_NAME k with
  | Some name => Some (STATE, name)
  | None =>
      match dict_find UT_KEY_TO_NAME k with
      | Some name => Some (UT, name)
      | None => None
      end
  end.

(** Step 3: the district-to-UT map *)
Definition district_lookup (dk : string) : option region :=
  match dict_find UT_DISTRICT_MAP dk with
  | Some name => Some (UT, name)
  | None => None
  end.

(** Step 4: the catch-all for the capital territory *)
Definition delhi_catch_all (dk : string) : option region :=
  if Py.contains "delhi" dk then Some (UT, "Delhi") else None.

(** The similarity of two keys is at least the cutoff 0.92 *)
Definition similar (k sk : string) : bool :=
  Difflib.score_ge (Difflib.ratio k sk) CUTOFF_NUM CUTOFF_DEN.

(** Steps 7 and 8: fuzzy lookup against the keys of one enumeration *)
Definition fuzzy_lookup (t : region_type) (table : dict string) (sk : string)
    : option region :=
  match Difflib.get_close_matches sk (dict_keys table) CUTOFF_NUM CUTOFF_DEN with
  | k :: _ =>
      match dict_find table k with
      | Some name => Some (t, name)
      | None => None
      end
  | [] => None
  end.

(** The normalised keys: a state of three digits or more counts as empty *)
Definition state_key (state_raw : string) : string :=
  let s := Py.strip state_raw in
  _key (if Py.digits_at_least 3 s then EmptyString else s).
Definition district_key (district_raw : string) : string :=
  _key (Py.strip district_raw).

Definition chain (sk dk : string) : list (option region) :=
  [ alias_lookup sk;
    exact_lookup sk;
    district_lookup dk;
    delhi_catch_all dk;
    alias_lookup dk;
    exact_lookup dk;
    fuzzy_lookup STATE STATE_KEY_TO_NAME sk;
    fuzzy_lookup UT UT_KEY_TO_NAME sk ].

(** "first hit wins", and step 9 when there is none *)
Fixpoint first_hit (steps : list (option region)) : region :=
  match steps with
  | [] => (UNKNOWN, EmptyString)
  | Some r :: _ => r
  | None :: steps' => first_hit steps'
  end.

Definition resolve (state_raw district_raw : string) : region :=
  first_hit (chain (state_key state_raw) (district_key district_raw)).

(** The range of the resolver *)
Definition in_range (r : region) : Prop :=
  match r with
  | (STATE, n) => n ∈ STATES_28
  | (UT, n) => n ∈ UTS_8
  | (UNKNOWN, n) => n = EmptyString
  end.

(** The type of a canonical name *)
Definition type_of (name : string) : region_type :=
  if Py.mem name STATES_28 then STATE
  else if Py.mem name UTS_8 then UT
  else UNKNOWN.

(** The keys one edit away from a key: one character of the key alphabet
    inserted, one character deleted, one character replaced by another. *)
Definition KEY_ALPHABET : list ascii := Py.chars "abcdefghijklmnopqrstuvwxyz0123456789".

Fixpoint insertions_chars (l : list ascii) : list (list ascii) :=
  map (fun c => c :: l) KEY_ALPHABET ++
  match l with
  | [] => []
  | x :: l' => map (cons x) (insertions_chars l')
  end.
Fixpoint deletions_chars (l : list ascii) : list (list ascii) :=
  match l with
  | [] => []
  | x :: l' => l' :: map (cons x) (deletions_chars l')
  end.
Fixpoint substitutions_chars (l : list ascii) : list (list ascii) :=
  match l with
  | [] => []
  | x :: l' =>
      map (fun c => c :: l') (List.filter (fun c => negb (Ascii.eqb c x)) KEY_ALPHABET)
      ++ map (cons x) (substitutions_chars l')
  end.

Definition insertions (k : string) : list string := map Py.str (insertions_chars (Py.chars k)).
Definition deletions (k : string) : list string := map Py.str (deletions_chars (Py.chars k)).
Definition substitutions (k : string) : list string :=
  map Py.str (substitutions_chars (Py.chars k)).
Definition one_edit (k : string) : list string :=
  insertions k ++ deletions k ++ substitutions k.

End Spec.

(** ** What the date parser uses of pandas

    The text of a value as [pd.to_datetime] gets it (lines 208-225), and
    two documented behaviours of pandas, from version 2 on: [to_datetime]
    without a format takes one format from the first value of the series
    and reads every value with it; [to_datetime] with a format is
    [strptime], which must use up the text.  They are stated with the
    functions of [PandasModel], for the texts that module covers. *)

Definition date_text (v : value) : option string :=
  let t := Py.strip (py_str v) in
  if Py.mem t NA_TOKENS then None
  else Some (Py.remove_class Py.is_space (dash_separators t)).

Definition infers_format (P : Pandas) : Prop :=
  forall (dayfirst : bool) (s : list (option string)) (v fmt : string),
    PandasModel.first_valid s = Some v ->
    PandasModel.inferred_format dayfirst v = Some fmt ->
    to_datetime dayfirst s = map (fun x => x ≫= PandasModel.to_datetime_format fmt) s.

Definition strict_formats (P : Pandas) : Prop :=
  Forall (fun fmt => forall v, to_datetime_format fmt v = PandasModel.to_datetime_format fmt v)
    DATE_FORMATS.

(** A series whose first value gives a format by [PandasModel.inferred_format],
    or that has no value; a column for which this holds at both calls of
    [to_datetime] in [parse_dates_strong]. *)
Definition format_known (dayfirst : bool) (s : list (option string)) : bool :=
  match PandasModel.first_valid s with
  | Some v => bool_decide (is_Some (PandasModel.inferred_format dayfirst v))
  | None => true
  end.

Definition covered (series : list value) : bool :=
  let s := map date_text series in
  let d := series_to_datetime (P:=PandasModel.pandas) true s in
  let mask := both_masks d s in
  format_known true s && format_known false (map snd (select mask s)).

(** A resolution with an empty district, as a test *)
Definition resolves_to (t : region_type) (n : string) (state_raw : string) : bool :=
  match canonicalize_region state_raw EmptyString with
  | Ok (t', n') => bool_decide (t' = t) && String.eqb n' n
  | Raise _ => false
  end.


(** ** The rest of [main]: folders and counters *)

(** [ensure_base_folders] (lines 388-396), as the directories it ensures *)
Definition ensure_base_folders : list string :=
  [ OUTPUT_DIR; path_join OUTPUT_DIR "UT" ]
  ++ map (fun st => path_join OUTPUT_DIR (safe_folder_name st)) STATES_28
  ++ map (fun ut => path_join (path_join OUTPUT_DIR "UT") (safe_folder_name ut)) UTS_8.

(** The counters of one input file (lines 459-475); Python integers are [Z]. *)
Record Counts := mkCounts {
  TOTAL_READ : Z;
  VALID_DATE : Z;
  STATE_WRITTEN : Z;
  UT_WRITTEN : Z;
  OMIT_INVALID_DATE : Z;
  OMIT_UNMAPPED_REGION : Z;
  OMIT_MAPPED_NOT_ALLOWED : Z
}.

Definition len {A} (l : list A) : Z := Z.of_nat (length l).

(** Lines 525-531: the counters of the run add up file by file *)
Definition add_counts (g c : Counts) : Counts :=
  mkCounts (TOTAL_READ g + TOTAL_READ c) (VALID_DATE g + VALID_DATE c)
    (STATE_WRITTEN g + STATE_WRITTEN c) (UT_WRITTEN g + UT_WRITTEN c)
    (OMIT_INVALID_DATE g + OMIT_INVALID_DATE c)
    (OMIT_UNMAPPED_REGION g + OMIT_UNMAPPED_REGION c)
    (OMIT_MAPPED_NOT_ALLOWED g + OMIT_MAPPED_NOT_ALLOWED c).

(** Lines 570-576: the sum the report compares with the records read *)
Definition total_accounted (g : Counts) : Z :=
  STATE_WRITTEN g + UT_WRITTEN g + OMIT_INVALID_DATE g + OMIT_UNMAPPED_REGION g
  + OMIT_MAPPED_NOT_ALLOWED g.

Section Counters.
Context `{P : Pandas}.

(** The frames of lines 463-472 *)
Definition valid_date_rows (df : list CleanRow) : list CleanRow :=
  List.filter (fun r => notna (date (row r))) df.
Definition mapped_rows (df : list CleanRow) : list CleanRow :=
  List.filter (fun r => notna (_region_name r)) (valid_date_rows df).
Definition state_rows (df : list CleanRow) : list CleanRow :=
  List.filter (fun r => bool_decide (_region_type r = STATE)
                        && name_isin STATES_28_SET r) (mapped_rows df).
Definition ut_rows (df : list CleanRow) : list CleanRow :=
  List.filter (fun r => bool_decide (_region_type r = UT)
                        && name_isin UTS_8_SET r) (mapped_rows df).

Definition file_counts (df_raw : RawFrame) : result Counts :=
  let total_read := len (rows df_raw) in
  df ← clean_dataframe df_raw;
  let valid_date := valid_date_rows df in
  let invalid_date_count := (total_read - len valid_date)%Z in
  let mapped := mapped_rows df in
  let unmapped_region_count := (len valid_date - len mapped)%Z in
  let mapped_but_not_allowed :=
    (len mapped - (len (state_rows df) + len (ut_rows df)))%Z in
  Ok (mkCounts total_read (len valid_date) (len (state_rows df)) (len (ut_rows df))
        invalid_date_count unmapped_region_count mapped_but_not_allowed).

(** The counters of a run that reaches its end *)
Fixpoint run_counts (files : list (string * RawFrame)) (g : Counts) : result Counts :=
  match files with
  | [] => Ok g
  | (_, df_raw) :: files' =>
      c ← file_counts df_raw;
      run_counts files' (add_counts g c)
  end.

(** The table a cleaned row is routed to, for the data set of its file *)
Definition table_path (dataset : string) (r : CleanRow) : string :=
  path_join
    (get_output_folder (_region_type r)
       (match _region_name r with Some n => n | None => EmptyString end))
    (dataset +:+ ".csv").

End Counters.

Definition no_counts : Counts := mkCounts 0 0 0 0 0 0 0.

(** ** Notions for the properties of the text functions *)

(** What [_key] makes of one character in lower case *)
Definition key_char (c : ascii) : list ascii :=
  if Ascii.eqb c "&" then Py.chars "and"
  else if Py.is_lower c || Py.is_digit c then [c]
  else [].
Definition is_key_char (c : ascii) : bool := Py.is_lower c || Py.is_digit c.

(** A text without white space at its start *)
Definition head_ok (l : list ascii) : bool :=
  match l with
  | [] => true
  | c :: _ => negb (Py.is_space c)
  end.

(** The characters of a folder name *)
Definition safe_char (c : ascii) : bool :=
  Py.is_alpha c || Py.is_digit c || Ascii.eqb c "_" || Ascii.eqb c "-".

(** The regions that have a table *)
Definition ALL_REGIONS : list region :=
  map (pair STATE) STATES_28 ++ map (pair UT) UTS_8.

(** The text of [norm_title] on a text *)
Definition title_text (l : list ascii) : list ascii :=
  Py.title_chars false
    (Py.sub_runs_chars Py.is_space (Py.chars " ") false (Py.strip_chars l)).

(** ** Notions for the properties of [clean_col], of the resolver and of the run *)

(** The facts of a lemma on one character, under fixed names *)
Ltac char_cases facts c := pose proof (facts c) as
  (Hsp & Hsep & Hspl & Hspu & Hal & Hau & Hll & Huu & Hlu & Hna & Hdl & Hdu & Hkc & Had).

(** [RE_SPACE.sub(" ", s)] on the characters, inside a run of white space or
    not *)
Definition collapse (r : bool) (l : list ascii) : list ascii :=
  Py.sub_runs_chars Py.is_space (Py.chars " ") r l.

(** The text of a cell read with [dtype=str], a missing cell being empty *)
Definition cell_text (c : option string) : string :=
  match c with Some s => s | None => EmptyString end.

(** Input files whose cells are ASCII text *)
Definition ascii_cells (df : RawFrame) : Prop :=
  Forall (Forall (fun c => Py.ascii_text (cell_text c) = true)) (rows df).
Definition ascii_files (files : list (string * RawFrame)) : Prop :=
  Forall (fun f => ascii_cells (snd f)) files.

(** [clean_col] on the characters: what [lower] and [replace(" ", "_")] make
    of one character, and [re.sub("_+", "_", c)] *)
Definition col_char (c : ascii) : ascii :=
  if Ascii.eqb c " " then "_"%char else Py.lower_char c.
Definition squeeze (r : bool) (l : list ascii) : list ascii :=
  Py.sub_runs_chars is_underscore (Py.chars "_") r l.
Definition clean_col_chars (l : list ascii) : list ascii :=
  squeeze false (map col_char (Py.strip_chars l)).

(** A district alone resolves to a union territory, as a test *)
Definition district_resolves (ut : string) (district_raw : string) : bool :=
  match canonicalize_region EmptyString district_raw with
  | Ok (UT, n) => String.eqb n ut
  | _ => false
  end.

(** The folder and the table of a region (lines 346-351 and 358) *)
Definition folder_of (r : region) : string := get_output_folder (fst r) (snd r).
Definition region_table (dataset : string) (t : region_type) (n : string) : string :=
  path_join (get_output_folder t n) (dataset +:+ ".csv").

(** The names [infer_dataset] returns, and the tables a run can write *)
Definition DATASETS : list string := [ "demographic"; "biometric"; "enrolment"; "dataset" ].
Definition region_table_paths : list string :=
  flat_map (fun ds => map (fun r => region_table ds (fst r) (snd r)) ALL_REGIONS) DATASETS.

(** The order of the group names of [groupby] *)
Definition str_lt (a b : string) : Prop := String.compare a b = Lt.

(** The relations between the counters that the report of lines 570-577
    checks or relies on *)
Definition accounted (c : Counts) : Prop :=
  total_accounted c = TOTAL_READ c
  /\ OMIT_MAPPED_NOT_ALLOWED c = 0%Z
  /\ (0 <= OMIT_INVALID_DATE c)%Z
  /\ (0 <= OMIT_UNMAPPED_REGION c)%Z
  /\ (0 <= STATE_WRITTEN c)%Z /\ (0 <= UT_WRITTEN c)%Z
  /\ VALID_DATE c = (STATE_WRITTEN c + UT_WRITTEN c + OMIT_UNMAPPED_REGION c)%Z.

Section Tables.
Context `{P : Pandas}.

#[global] Instance CleanRow_eq_dec : EqDecision CleanRow.
Proof. solve_decision. Defined.

(** The region name of a cleaned row as a text, [pd.NA] being empty *)
Definition region_name_of (r : CleanRow) : string :=
  match _region_name r with Some n => n | None => EmptyString end.

(** The cleaned rows of a file, none when [clean_dataframe] raises *)
Definition cleaned_rows (df_raw : RawFrame) : list CleanRow :=
  match clean_dataframe df_raw with
  | Ok cleaned => cleaned
  | Raise _ => []
  end.

(** The groups of [groupby("_region_name")]: their names, and the rows of one *)
Definition group_names (df : list CleanRow) : list string :=
  foldr (fun r acc => match _region_name r with
                      | Some n => insert_name n acc
                      | None => acc
                      end) [] df.
Definition named (n : string) (r : CleanRow) : bool :=
  bool_decide (_region_name r = Some n).

(** The rows [merge_write_dataset] reads from a table (lines 363-370) *)
Definition old_rows (f : option disk_file) : list Row :=
  match f with
  | Some (Csv lines) => reload lines
  | Some Blank | None => []
  end.

(** The frame of lines 471-472 that is written for a type of region *)
Definition region_rows (t : region_type) (df : list CleanRow) : list CleanRow :=
  match t with
  | STATE => state_rows df
  | UT => ut_rows df
  | UNKNOWN => []
  end.

(** The cleaned row of [Examples.complete_file] *)
Definition goa_row : CleanRow :=
  mkCleanRow (mkRow "Goa" "North Goa" "403001" (Some (midnight (mkDate 2020 12 31))) ∅)
    STATE (Some "Goa").

End Tables.

(** An input file whose only row has no pincode and no date that parses *)
Definition no_pincode_date_file : string * RawFrame :=
  ("bio.csv",
   mkRawFrame [ "state"; "district"; "pincode"; "date"; "bio_age_5_17" ]
     [ [ Some "Goa"; Some "North Goa"; None; Some "not a date"; Some "3" ] ]).

(** * Properties *)

#[global] Arguments Py.mem : simpl never.
#[global] Arguments Py.contains : simpl never.
#[global] Arguments Py.strip : simpl never.
#[global] Arguments _key : simpl never.
#[global] Arguments Difflib.get_close_matches : simpl never.

(** ** Strings *)

Lemma chars_str l : Py.chars (Py.str l) = l.
Proof. apply list_ascii_of_string_of_list_ascii. Qed.

Lemma str_chars s : Py.str (Py.chars s) = s.
Proof. apply string_of_list_ascii_of_string. Qed.

Lemma str_length l : String.length (Py.str l) = length l.
Proof. induction l as [|c l IH]; simpl; [done|]. by rewrite IH. Qed.

(** ** Dictionaries *)

Lemma dict_in_find {V} (d : dict V) k :
  dict_in k d = true -> exists v, dict_find d k = Some v.
Proof. unfold dict_in. destruct (dict_find d k); eauto; discriminate. Qed.

Lemma dict_find_key {V} (d : dict V) k v :
  dict_find d k = Some v -> k ∈ dict_keys d /\ v ∈ dict_values d.
Proof.
  induction d as [|[k' v'] d IH]; simpl; [discriminate|].
  destruct (String.eqb_spec k k') as [->|Hne].
  - intros [= ->]. split; apply list_elem_of_here.
  - intros H. destruct (IH H). split; by apply list_elem_of_further.
Qed.

Lemma dict_find_is_key {V} (d : dict V) k :
  k ∈ dict_keys d -> exists v, dict_find d k = Some v.
Proof.
  induction d as [|[k' v'] d IH]; simpl.
  - intros H. by apply not_elem_of_nil in H.
  - intros H. destruct (String.eqb_spec k k') as [->|Hne]; [eauto|].
    apply elem_of_cons in H as [H|H]; [done|]. by apply IH.
Qed.

Lemma dict_find_not_key {V} (d : dict V) k :
  k ∉ dict_keys d -> dict_find d k = None.
Proof.
  intros H. destruct (dict_find d k) eqn:E; [|done].
  apply dict_find_key in E as [E _]. done.
Qed.

Lemma mem_elem_of x xs : Py.mem x xs = true <-> x ∈ xs.
Proof.
  unfold Py.mem. rewrite existsb_exists. split.
  - intros (y & Hy & E). apply String.eqb_eq in E as ->. by apply list_elem_of_In.
  - intros H. exists x. split; [by apply list_elem_of_In | apply String.eqb_refl].
Qed.

(** ** difflib *)

Lemma best_scored_elem l : forall best r,
  Difflib.best_scored best l = Some r -> best = Some r \/ r ∈ l.
Proof.
  induction l as [|x l IH]; simpl; intros best r H; [by left|].
  apply IH in H as [H|H]; [|right; by apply list_elem_of_further].
  destruct best as [b|].
  - destruct (Difflib.scored_lt b x); injection H as <-; [right|left; done].
    apply list_elem_of_here.
  - injection H as <-. right. apply list_elem_of_here.
Qed.

Lemma best_scored_some l : forall b, exists r, Difflib.best_scored (Some b) l = Some r.
Proof.
  induction l as [|x l IH]; simpl; intros b; [eauto|].
  destruct (Difflib.scored_lt b x); apply IH.
Qed.

Lemma best_scored_none l : Difflib.best_scored None l = None <-> l = [].
Proof.
  destruct l as [|x l]; simpl; [done|]. split; [|done].
  destruct (best_scored_some l x) as [r ->]. done.
Qed.

(** What [get_close_matches] returns is one of the possibilities, and its
    score reaches the cutoff. *)
Lemma get_close_matches_elem word ps num den x :
  x ∈ Difflib.get_close_matches word ps num den ->
  x ∈ ps /\ Difflib.score_ge (Difflib.ratio x word) num den = true.
Proof.
  unfold Difflib.get_close_matches.
  destruct (Difflib.best_scored None _) as [[sc y]|] eqn:E.
  - intros H. apply list_elem_of_singleton in H as ->.
    apply best_scored_elem in E as [E|E]; [done|].
    apply list_elem_of_In, filter_In in E as [E Hsc].
    apply in_map_iff in E as (z & [= <- <-] & Hz).
    split; [by apply list_elem_of_In | done].
  - intros H. by apply not_elem_of_nil in H.
Qed.

(** It returns nothing exactly when no possibility reaches the cutoff. *)
Lemma get_close_matches_nil word ps num den :
  Difflib.get_close_matches word ps num den = [] <->
  forall x, x ∈ ps -> Difflib.score_ge (Difflib.ratio x word) num den = false.
Proof.
  unfold Difflib.get_close_matches.
  destruct (Difflib.best_scored None _) as [[sc y]|] eqn:E.
  - split; [done|]. intros H.
    apply best_scored_elem in E as [E|E]; [done|].
    apply list_elem_of_In, filter_In in E as [E Hsc].
    apply in_map_iff in E as (z & [= <- <-] & Hz).
    apply list_elem_of_In, H in Hz. simpl in Hsc. congruence.
  - apply best_scored_none in E. split; [|done]. intros _ x Hx.
    destruct (Difflib.score_ge (Difflib.ratio x word) num den) eqn:Hsc; [|done].
    assert (In (Difflib.ratio x word, x)
              (List.filter (fun sx => Difflib.score_ge (fst sx) num den)
                 (map (fun x => (Difflib.ratio x word, x)) ps))) as Hin.
    { apply filter_In. split; [|done]. apply in_map_iff. exists x.
      split; [done|]. by apply list_elem_of_In. }
    rewrite E in Hin. destruct Hin.
Qed.

(** The blocks lie inside the two sequences, so the matches are at most
    the shorter length, and the fuel [length a] of [matches] is enough. *)

Lemma common_prefix_le a : forall b,
  (Difflib.common_prefix a b <= length a /\ Difflib.common_prefix a b <= length b)%nat.
Proof.
  induction a as [|x a IH]; intros [|y b]; simpl; try lia.
  destruct (Ascii.eqb x y); [|lia]. destruct (IH b). lia.
Qed.

Lemma scan_b_inside la lb a b : forall i j best,
  (i + length a <= la)%nat -> (j + length b <= lb)%nat ->
  block_inside la lb best -> block_inside la lb (Difflib.scan_b a b i j best).
Proof.
  induction b as [|y b IH]; intros i j best Ha Hb Hbest; simpl; [done|].
  simpl in Hb. apply IH; [done|lia|].
  destruct (snd best <? _)%nat; [|done].
  destruct (common_prefix_le a (y :: b)). unfold block_inside. simpl in *. lia.
Qed.

Lemma scan_a_inside la lb b a : forall i best,
  (i + length a <= la)%nat -> (length b <= lb)%nat ->
  block_inside la lb best -> block_inside la lb (Difflib.scan_a a b i best).
Proof.
  induction a as [|x a IH]; intros i best Ha Hb Hbest; simpl; [done|].
  simpl in Ha. apply IH; [lia|done|]. apply scan_b_inside; simpl; (done || lia).
Qed.

Lemma find_longest_match_inside a b :
  block_inside (length a) (length b) (Difflib.find_longest_match a b).
Proof.
  unfold Difflib.find_longest_match.
  apply scan_a_inside; [simpl; lia|lia|]. unfold block_inside. simpl. lia.
Qed.

Lemma matching_size_le fuel : forall a b,
  (Difflib.matching_size fuel a b <= length a
   /\ Difflib.matching_size fuel a b <= length b)%nat.
Proof.
  induction fuel as [|fuel IH]; intros a b; simpl; [lia|].
  pose proof (find_longest_match_inside a b) as H.
  destruct (Difflib.find_longest_match a b) as [[i j] k].
  unfold block_inside in H. simpl in H.
  destruct (k =? 0)%nat; [lia|].
  destruct (IH (firstn i a) (firstn j b)) as [H1 H2].
  destruct (IH (skipn (i + k) a) (skipn (j + k) b)) as [H3 H4].
  rewrite length_firstn in H1, H2. rewrite length_skipn in H3, H4. lia.
Qed.

Lemma matching_size_fuel n : forall m a b,
  (length a <= n)%nat -> (length a <= m)%nat ->
  Difflib.matching_size n a b = Difflib.matching_size m a b.
Proof.
  induction n as [|n IH]; intros m a b Hn Hm.
  - destruct a; [|simpl in Hn; lia]. by destruct m.
  - destruct m as [|m].
    + destruct a; [done|simpl in Hm; lia].
    + simpl. pose proof (find_longest_match_inside a b) as H.
      destruct (Difflib.find_longest_match a b) as [[i j] k].
      unfold block_inside in H. simpl in H.
      destruct (Nat.eqb_spec k 0); [done|].
      rewrite (IH m (firstn i a)), (IH m (skipn (i + k) a));
        rewrite ?length_firstn, ?length_skipn; (done || lia).
Qed.

(** A score that reaches the cutoff needs sequences of similar lengths; this
    is the test [real_quick_ratio] of difflib. *)
Lemma score_needs_similar_lengths a b num den :
  (0 < String.length a + String.length b)%nat ->
  Difflib.score_ge (Difflib.ratio a b) num den = true ->
  (num * (String.length a + String.length b)
   <= den * (2 * Nat.min (String.length a) (String.length b)))%nat.
Proof.
  unfold Difflib.score_ge, Difflib.ratio, Difflib.matches. intros Hlen.
  destruct (Nat.eqb_spec (String.length a + String.length b) 0); [lia|].
  simpl fst. simpl snd. intros H%Nat.leb_le.
  destruct (matching_size_le (String.length a) (Py.chars a) (Py.chars b)) as [H1 H2].
  rewrite <- (str_chars a), <- (str_chars b), !str_length in *.
  rewrite !chars_str in *.
  etrans; [exact H|]. apply Nat.mul_le_mono_l. lia.
Qed.

(** ** The resolver and the chain of the specification *)

Lemma alias_step_spec k next :
  alias_step k next =
  match Spec.alias_lookup k with Some r => Ok r | None => next end.
Proof.
  unfold alias_step, Spec.alias_lookup, Spec.typed, dict_in, dict_get,
    STATES_28_SET, UTS_8_SET.
  destruct (dict_find REGION_ALIASES k) as [name|]; [|done].
  simpl_bind.
  destruct (Py.mem name STATES_28); [done|]. by destruct (Py.mem name UTS_8).
Qed.

Lemma exact_step_spec k next :
  exact_step k next =
  match Spec.exact_lookup k with Some r => Ok r | None => next end.
Proof.
  unfold exact_step, Spec.exact_lookup, dict_in, dict_get.
  destruct (dict_find STATE_KEY_TO_NAME k); [done|].
  by destruct (dict_find UT_KEY_TO_NAME k).
Qed.

Lemma fuzzy_step_spec t table sk next :
  fuzzy_step t table sk next =
  match Spec.fuzzy_lookup t table sk with Some r => Ok r | None => next end.
Proof.
  unfold fuzzy_step, Spec.fuzzy_lookup, dict_get.
  destruct (Difflib.get_close_matches _ _ _ _) as [|k l] eqn:E; [done|].
  assert (k ∈ dict_keys table) as Hk.
  { eapply get_close_matches_elem. rewrite E. apply list_elem_of_here. }
  apply dict_find_is_key in Hk as [v ->]. done.
Qed.

Lemma canonicalize_region_chain state_raw district_raw :
  canonicalize_region state_raw district_raw =
  Ok (Spec.resolve state_raw district_raw).
Proof.
  unfold canonicalize_region, Spec.resolve, Spec.chain, Spec.state_key,
    Spec.district_key.
  set (sk := _key _). set (dk := _key _).
  rewrite !alias_step_spec, !exact_step_spec, !fuzzy_step_spec.
  cbn [Spec.first_hit].
  destruct (Spec.alias_lookup sk); [done|].
  destruct (Spec.exact_lookup sk); [done|].
  unfold Spec.district_lookup, Spec.delhi_catch_all, dict_in, dict_get.
  destruct (dict_find UT_DISTRICT_MAP dk); [done|].
  destruct (Py.contains "delhi" dk); [done|].
  destruct (Spec.alias_lookup dk); [done|].
  destruct (Spec.exact_lookup dk); [done|].
  destruct (Spec.fuzzy_lookup STATE _ sk); [done|].
  by destruct (Spec.fuzzy_lookup UT _ sk).
Qed.

(** C2. Fixed resolver precedence: for every pair of inputs the resolver
    returns the first hit of the chain alias(state key), exact(state key),
    district map(district key), "delhi" catch-all(district key),
    alias(district key), exact(district key), fuzzy against the state keys,
    fuzzy against the UT keys, and UNKNOWN when none hits. *)
Theorem resolver_precedence_chain (state_raw district_raw : string) :
  canonicalize_region state_raw district_raw =
  Ok (Spec.first_hit
        [ Spec.alias_lookup (Spec.state_key state_raw);
          Spec.exact_lookup (Spec.state_key state_raw);
          Spec.district_lookup (Spec.district_key district_raw);
          Spec.delhi_catch_all (Spec.district_key district_raw);
          Spec.alias_lookup (Spec.district_key district_raw);
          Spec.exact_lookup (Spec.district_key district_raw);
          Spec.fuzzy_lookup STATE STATE_KEY_TO_NAME (Spec.state_key state_raw);
          Spec.fuzzy_lookup UT UT_KEY_TO_NAME (Spec.state_key state_raw) ]).
Proof. apply canonicalize_region_chain. Qed.

(** ** The range of the resolver *)

Lemma forallb_mem_Forall (xs ys : list string) :
  forallb (fun v => Py.mem v ys) xs = true -> Forall (fun v => v ∈ ys) xs.
Proof.
  intros H. apply Forall_forall. intros v Hv.
  apply mem_elem_of. rewrite forallb_forall in H. by apply H, list_elem_of_In.
Qed.

Lemma alias_values_canonical :
  Forall (fun v => v ∈ STATES_28 \/ v ∈ UTS_8) (dict_values REGION_ALIASES).
Proof.
  apply Forall_forall. intros v Hv.
  assert (forallb (fun v => Py.mem v STATES_28 || Py.mem v UTS_8)
            (dict_values REGION_ALIASES) = true) as H by (vm_compute; reflexivity).
  rewrite forallb_forall in H. apply list_elem_of_In, H, orb_true_iff in Hv.
  rewrite !mem_elem_of in Hv. done.
Qed.

Lemma district_values_are_uts :
  Forall (fun v => v ∈ UTS_8) (dict_values UT_DISTRICT_MAP).
Proof. apply forallb_mem_Forall. vm_compute. reflexivity. Qed.

Lemma key_table_values (names : list string) :
  dict_values (map (fun x => (_key x, x)) names) = names.
Proof. unfold dict_values. rewrite map_map. apply map_id. Qed.

Lemma typed_in_range name r : Spec.typed name = Some r -> Spec.in_range r.
Proof.
  unfold Spec.typed.
  destruct (Py.mem name STATES_28) eqn:E1; [intros [= <-]; by apply mem_elem_of|].
  destruct (Py.mem name UTS_8) eqn:E2; [intros [= <-]; by apply mem_elem_of|].
  discriminate.
Qed.

Lemma alias_lookup_in_range k r : Spec.alias_lookup k = Some r -> Spec.in_range r.
Proof.
  unfold Spec.alias_lookup. destruct (dict_find REGION_ALIASES k); [|discriminate].
  apply typed_in_range.
Qed.

Lemma state_key_find k n : dict_find STATE_KEY_TO_NAME k = Some n -> n ∈ STATES_28.
Proof.
  intros H. apply dict_find_key in H as [_ H].
  unfold STATE_KEY_TO_NAME in H. by rewrite key_table_values in H.
Qed.

Lemma ut_key_find k n : dict_find UT_KEY_TO_NAME k = Some n -> n ∈ UTS_8.
Proof.
  intros H. apply dict_find_key in H as [_ H].
  unfold UT_KEY_TO_NAME in H. by rewrite key_table_values in H.
Qed.

Lemma exact_lookup_in_range k r : Spec.exact_lookup k = Some r -> Spec.in_range r.
Proof.
  unfold Spec.exact_lookup.
  destruct (dict_find STATE_KEY_TO_NAME k) eqn:E1; [intros [= <-]; by eapply state_key_find|].
  destruct (dict_find UT_KEY_TO_NAME k) eqn:E2; [intros [= <-]; by eapply ut_key_find|].
  discriminate.
Qed.

Lemma district_lookup_in_range k r : Spec.district_lookup k = Some r -> Spec.in_range r.
Proof.
  unfold Spec.district_lookup.
  destruct (dict_find UT_DISTRICT_MAP k) eqn:E; [|discriminate]. intros [= <-].
  apply dict_find_key in E as [_ E].
  pose proof district_values_are_uts as H. rewrite Forall_forall in H. by apply H.
Qed.

Lemma delhi_catch_all_in_range k r : Spec.delhi_catch_all k = Some r -> Spec.in_range r.
Proof.
  unfold Spec.delhi_catch_all. destruct (Py.contains "delhi" k); [|discriminate].
  intros [= <-]. apply mem_elem_of. vm_compute. reflexivity.
Qed.

Lemma fuzzy_state_in_range sk r :
  Spec.fuzzy_lookup STATE STATE_KEY_TO_NAME sk = Some r -> Spec.in_range r.
Proof.
  unfold Spec.fuzzy_lookup. destruct (Difflib.get_close_matches _ _ _ _); [discriminate|].
  destruct (dict_find STATE_KEY_TO_NAME _) eqn:E; [|discriminate].
  intros [= <-]. by eapply state_key_find.
Qed.

Lemma fuzzy_ut_in_range sk r :
  Spec.fuzzy_lookup UT UT_KEY_TO_NAME sk = Some r -> Spec.in_range r.
Proof.
  unfold Spec.fuzzy_lookup. destruct (Difflib.get_close_matches _ _ _ _); [discriminate|].
  destruct (dict_find UT_KEY_TO_NAME _) eqn:E; [|discriminate].
  intros [= <-]. by eapply ut_key_find.
Qed.

Lemma first_hit_in_range steps :
  Forall (fun o => forall r, o = Some r -> Spec.in_range r) steps ->
  Spec.in_range (Spec.first_hit steps).
Proof.
  induction 1 as [|[r|] steps H _ IH]; simpl; [done| by apply H | done].
Qed.

Lemma resolve_in_range state_raw district_raw :
  Spec.in_range (Spec.resolve state_raw district_raw).
Proof.
  apply first_hit_in_range. unfold Spec.chain.
  repeat constructor;
    eauto using alias_lookup_in_range, exact_lookup_in_range,
      district_lookup_in_range, delhi_catch_all_in_range, fuzzy_state_in_range,
      fuzzy_ut_in_range.
Qed.

(** C3. Resolver totality and range: for every pair of input strings the
    resolver returns a value and raises nothing, and the value is (STATE, n)
    with n one of the 28 states, (UT, n) with n one of the 8 union
    territories, or (UNKNOWN, empty); every value of the alias table and of
    the district map is a member of the enumerations. *)
Theorem resolver_total_and_in_range (state_raw district_raw : string) :
  (exists t n,
      canonicalize_region state_raw district_raw = Ok (t, n) /\
      match t with
      | STATE => n ∈ STATES_28
      | UT => n ∈ UTS_8
      | UNKNOWN => n = EmptyString
      end)
  /\ length STATES_28 = 28%nat
  /\ length UTS_8 = 8%nat
  /\ Forall (fun v => v ∈ STATES_28 \/ v ∈ UTS_8) (dict_values REGION_ALIASES)
  /\ Forall (fun v => v ∈ UTS_8) (dict_values UT_DISTRICT_MAP).
Proof.
  split; [|repeat split; auto using alias_values_canonical, district_values_are_uts].
  pose proof (resolve_in_range state_raw district_raw) as H.
  rewrite canonicalize_region_chain.
  destruct (Spec.resolve state_raw district_raw) as [t n]. by exists t, n.
Qed.

(** ** Canonical names and aliases resolve to themselves *)

Lemma resolves_to_spec t n s :
  resolves_to t n s = true -> canonicalize_region s EmptyString = Ok (t, n).
Proof.
  unfold resolves_to. destruct (canonicalize_region s EmptyString) as [[t' n']|]; [|done].
  intros [Ht Hn]%andb_true_iff. apply bool_decide_eq_true in Ht as ->.
  by apply String.eqb_eq in Hn as ->.
Qed.

Lemma canonical_names_checked :
  forallb (fun n => resolves_to STATE n n) STATES_28 = true
  /\ forallb (fun n => resolves_to UT n n) UTS_8 = true
  /\ forallb (fun an => resolves_to (Spec.type_of (snd an)) (snd an) (fst an))
       REGION_ALIASES = true.
Proof. vm_compute. auto. Qed.

(** C9. Canonical identity and alias resolution: every canonical name n of
    the 28 states resolves, with an empty district, to (STATE, n), every one
    of the 8 union territories to (UT, n), and every alias a of the alias
    table mapped to n resolves to (the type of n, n). *)
Theorem canonical_identity_and_aliases :
  (forall n, n ∈ STATES_28 -> canonicalize_region n EmptyString = Ok (STATE, n))
  /\ (forall n, n ∈ UTS_8 -> canonicalize_region n EmptyString = Ok (UT, n))
  /\ (forall a n, (a, n) ∈ REGION_ALIASES ->
        canonicalize_region a EmptyString = Ok (Spec.type_of n, n)
        /\ Spec.type_of n <> UNKNOWN).
Proof.
  destruct canonical_names_checked as (H1 & H2 & H3).
  rewrite forallb_forall in H1, H2, H3.
  split; [|split].
  - intros n Hn. by apply resolves_to_spec, H1, list_elem_of_In.
  - intros n Hn. by apply resolves_to_spec, H2, list_elem_of_In.
  - intros a n Han. split.
    + apply list_elem_of_In, H3 in Han. by apply resolves_to_spec in Han.
    + assert (forallb (fun an => negb (bool_decide (Spec.type_of (snd an) = UNKNOWN)))
                REGION_ALIASES = true) as H by (vm_compute; reflexivity).
      rewrite forallb_forall in H. apply list_elem_of_In, H in Han.
      apply negb_true_iff, bool_decide_eq_false in Han. done.
Qed.

Lemma canonical_identity_and_aliases_witness :
  canonicalize_region "West Bengal" EmptyString = Ok (STATE, "West Bengal")
  /\ canonicalize_region "Jammu And Kashmir" EmptyString = Ok (UT, "Jammu And Kashmir")
  /\ canonicalize_region "orissa" EmptyString = Ok (Spec.type_of "Odisha", "Odisha").
Proof.
  destruct canonical_identity_and_aliases as (H1 & H2 & H3).
  split; [|split].
  - apply (H1 "West Bengal"). apply list_elem_of_In. vm_compute. tauto.
  - apply (H2 "Jammu And Kashmir"). apply list_elem_of_In. vm_compute. tauto.
  - apply (H3 "orissa" "Odisha"). apply list_elem_of_In. vm_compute. tauto.
Defined.

(** ** The fuzzy cutoff *)

Lemma fuzzy_lookup_fires t table sk :
  Spec.fuzzy_lookup t table sk <> None <->
  exists k, k ∈ dict_keys table /\ Spec.similar k sk = true.
Proof.
  unfold Spec.fuzzy_lookup, Spec.similar.
  destruct (Difflib.get_close_matches _ _ _ _) as [|k l] eqn:E.
  - split; [done|]. intros (k & Hk & Hs).
    pose proof (proj1 (get_close_matches_nil _ _ _ _) E k Hk) as E'.
    rewrite E' in Hs. discriminate.
  - assert (k ∈ Difflib.get_close_matches sk (dict_keys table) CUTOFF_NUM CUTOFF_DEN)
      as Hk by (rewrite E; apply list_elem_of_here).
    apply get_close_matches_elem in Hk as [Hk Hs].
    destruct (dict_find_is_key table k Hk) as [v ->].
    split; [eauto|done].
Qed.

Lemma edits_of_gujarat_checked :
  forallb (resolves_to STATE "Gujarat")
    (Spec.insertions "gujarat" ++ Spec.deletions "gujarat") = true
  /\ forallb (resolves_to UNKNOWN EmptyString) (Spec.substitutions "gujarat") = true.
Proof. vm_compute. auto. Qed.

Lemma below_cutoff_unknown state_raw district_raw :
  Spec.alias_lookup (Spec.state_key state_raw) = None ->
  Spec.exact_lookup (Spec.state_key state_raw) = None ->
  Spec.district_lookup (Spec.district_key district_raw) = None ->
  Spec.delhi_catch_all (Spec.district_key district_raw) = None ->
  Spec.alias_lookup (Spec.district_key district_raw) = None ->
  Spec.exact_lookup (Spec.district_key district_raw) = None ->
  (forall k, k ∈ dict_keys STATE_KEY_TO_NAME ++ dict_keys UT_KEY_TO_NAME ->
             Spec.similar k (Spec.state_key state_raw) = false) ->
  canonicalize_region state_raw district_raw = Ok (UNKNOWN, EmptyString).
Proof.
  intros H1 H2 H3 H4 H5 H6 Hsim.
  rewrite canonicalize_region_chain. unfold Spec.resolve, Spec.chain.
  rewrite H1, H2, H3, H4, H5, H6. cbn [Spec.first_hit].
  destruct (Spec.fuzzy_lookup STATE _ _) eqn:E1.
  { assert (Spec.fuzzy_lookup STATE STATE_KEY_TO_NAME (Spec.state_key state_raw) <> None)
      as H by congruence.
    apply fuzzy_lookup_fires in H as (k & Hk & Hs).
    rewrite Hsim in Hs; [done|]. apply elem_of_app. by left. }
  destruct (Spec.fuzzy_lookup UT _ _) eqn:E2; [|done].
  assert (Spec.fuzzy_lookup UT UT_KEY_TO_NAME (Spec.state_key state_raw) <> None)
    as H by congruence.
  apply fuzzy_lookup_fires in H as (k & Hk & Hs).
  rewrite Hsim in Hs; [done|]. apply elem_of_app. by right.
Qed.

(** C4, as the specification states it, fails: "gujarad" is one edit (a
    replaced letter) away from the key of Gujarat, its similarity is 12/14,
    and it resolves to UNKNOWN. *)
Lemma one_edit_of_gujarat_unresolved :
  ~ (forall k, k ∈ Spec.one_edit (_key "Gujarat") ->
               canonicalize_region k EmptyString = Ok (STATE, "Gujarat")).
Proof.
  intros H. specialize (H "gujarad").
  assert (canonicalize_region "gujarad" EmptyString = Ok (UNKNOWN, EmptyString)) as E
    by (vm_compute; reflexivity).
  rewrite E in H. discriminate H.
  apply mem_elem_of. vm_compute. reflexivity.
Qed.

(** C4, amended. Fuzzy-match cutoff: a fuzzy lookup fires if and only if the
    similarity (difflib's ratio) of the state key to some key of the
    enumeration is at least 0.92; every key obtained from the key of
    "Gujarat" by inserting one character of a-z0-9 or by deleting one
    character resolves to (STATE, "Gujarat"), whereas replacing one character
    gives UNKNOWN; and a state key whose similarity to every enumeration key
    is below the cutoff, and that no earlier step resolves, yields UNKNOWN. *)
Theorem fuzzy_cutoff_amended :
  (forall t table sk,
      Spec.fuzzy_lookup t table sk <> None <->
      exists k, k ∈ dict_keys table /\
                Difflib.score_ge (Difflib.ratio k sk) 92 100 = true)
  /\ (forall k, k ∈ Spec.insertions (_key "Gujarat") ++ Spec.deletions (_key "Gujarat") ->
        canonicalize_region k EmptyString = Ok (STATE, "Gujarat"))
  /\ (forall k, k ∈ Spec.substitutions (_key "Gujarat") ->
        canonicalize_region k EmptyString = Ok (UNKNOWN, EmptyString))
  /\ (forall state_raw district_raw,
        Spec.alias_lookup (Spec.state_key state_raw) = None ->
        Spec.exact_lookup (Spec.state_key state_raw) = None ->
        Spec.district_lookup (Spec.district_key district_raw) = None ->
        Spec.delhi_catch_all (Spec.district_key district_raw) = None ->
        Spec.alias_lookup (Spec.district_key district_raw) = None ->
        Spec.exact_lookup (Spec.district_key district_raw) = None ->
        forallb (fun k => negb (Difflib.score_ge
                                  (Difflib.ratio k (Spec.state_key state_raw)) 92 100))
          (dict_keys STATE_KEY_TO_NAME ++ dict_keys UT_KEY_TO_NAME) = true ->
        canonicalize_region state_raw district_raw = Ok (UNKNOWN, EmptyString)).
Proof.
  destruct edits_of_gujarat_checked as [Hid Hsub].
  rewrite forallb_forall in Hid, Hsub.
  split; [exact fuzzy_lookup_fires|]. split; [|split].
  - intros k Hk. apply resolves_to_spec, Hid. apply list_elem_of_In.
    assert (_key "Gujarat" = "gujarat") as <- by (vm_compute; reflexivity). done.
  - intros k Hk. apply resolves_to_spec, Hsub. apply list_elem_of_In.
    assert (_key "Gujarat" = "gujarat") as <- by (vm_compute; reflexivity). done.
  - intros state_raw district_raw H1 H2 H3 H4 H5 H6 Hsim.
    apply below_cutoff_unknown; try done.
    intros k Hk. rewrite forallb_forall in Hsim.
    apply list_elem_of_In, Hsim, negb_true_iff in Hk. done.
Qed.

Lemma fuzzy_cutoff_amended_witness :
  (Spec.fuzzy_lookup STATE STATE_KEY_TO_NAME "gujrat" <> None)
  /\ canonicalize_region "gujrat" EmptyString = Ok (STATE, "Gujarat")
  /\ canonicalize_region "gujarad" EmptyString = Ok (UNKNOWN, EmptyString)
  /\ canonicalize_region "Atlantis" "Nowhere" = Ok (UNKNOWN, EmptyString).
Proof.
  destruct fuzzy_cutoff_amended as (H1 & H2 & H3 & H4).
  split; [|split; [|split]].
  - apply H1. exists "gujarat". split; [|vm_compute; reflexivity].
    apply mem_elem_of. vm_compute. reflexivity.
  - apply H2. apply mem_elem_of. vm_compute. reflexivity.
  - apply H3. apply mem_elem_of. vm_compute. reflexivity.
  - apply H4; vm_compute; reflexivity.
Defined.

(** ** Numeric junk *)

Lemma digit_char c :
  Py.is_digit c = true ->
  Py.is_space c = false /\ Py.lower_char c = c /\ Ascii.eqb c "&" = false
  /\ key_sep c = false /\ key_junk c = false /\ Ascii.eqb "d" c = false.
Proof.
  destruct c as [[] [] [] [] [] [] [] []]; vm_compute; intros H;
    first [discriminate H | repeat split].
Qed.

Section DigitStrings.
Variable l : list ascii.
Hypothesis Hl : forallb Py.is_digit l = true.

Lemma digits_lower : map Py.lower_char l = l.
Proof.
  induction l as [|c l' IH]; [done|]. simpl in *.
  apply andb_true_iff in Hl as [Hc Hl'].
  rewrite (IH Hl'). by destruct (digit_char c Hc) as (_ & -> & _).
Qed.

Lemma digits_lstrip : Py.lstrip_chars l = l.
Proof.
  destruct l as [|c l']; [done|]. simpl in *.
  apply andb_true_iff in Hl as [Hc _].
  by destruct (digit_char c Hc) as (-> & _).
Qed.

Lemma digits_replace_amp :
  flat_map (fun x => if Ascii.eqb x "&" then Py.chars "and" else [x]) l = l.
Proof.
  induction l as [|c l' IH]; [done|]. simpl in *.
  apply andb_true_iff in Hl as [Hc Hl'].
  rewrite (IH Hl'). by destruct (digit_char c Hc) as (_ & _ & -> & _).
Qed.

Lemma digits_keep_sep : List.filter (fun c => negb (key_sep c)) l = l.
Proof.
  induction l as [|c l' IH]; [done|]. simpl in *.
  apply andb_true_iff in Hl as [Hc Hl'].
  rewrite (IH Hl'). by destruct (digit_char c Hc) as (_ & _ & _ & -> & _).
Qed.

Lemma digits_keep_junk : List.filter (fun c => negb (key_junk c)) l = l.
Proof.
  induction l as [|c l' IH]; [done|]. simpl in *.
  apply andb_true_iff in Hl as [Hc Hl'].
  rewrite (IH Hl'). by destruct (digit_char c Hc) as (_ & _ & _ & _ & -> & _).
Qed.

Lemma digits_no_d : ~ In "d"%char l.
Proof.
  intros Hin. rewrite forallb_forall in Hl. apply Hl in Hin. discriminate Hin.
Qed.
End DigitStrings.

Lemma forallb_rev {A} (f : A -> bool) l : forallb f (rev l) = forallb f l.
Proof.
  induction l as [|x l IH]; [done|]. simpl.
  rewrite forallb_app, IH. simpl. rewrite andb_true_r. apply andb_comm.
Qed.

Lemma digits_strip_chars l : forallb Py.is_digit l = true -> Py.strip_chars l = l.
Proof.
  intros H. unfold Py.strip_chars.
  rewrite (digits_lstrip l H), digits_lstrip, rev_involutive; [done|].
  by rewrite forallb_rev.
Qed.

Lemma digits_strip v : Py.all_digits v = true -> Py.strip v = v.
Proof.
  intros H. unfold Py.strip. rewrite digits_strip_chars; [apply str_chars | done].
Qed.

Lemma digits_key v : Py.all_digits v = true -> _key v = v.
Proof.
  unfold Py.all_digits. intros H.
  unfold _key, Py.lower, Py.strip, Py.replace_char, Py.remove_class.
  rewrite !chars_str, digits_lower, digits_strip_chars, digits_replace_amp,
    digits_keep_sep, digits_keep_junk by done.
  apply str_chars.
Qed.

Lemma contains_chars_head c p l : Py.contains_chars (c :: p) l = true -> In c l.
Proof.
  induction l as [|x l IH]; simpl.
  - discriminate.
  - intros [H|H]%orb_true_iff.
    + apply andb_true_iff in H as [H _]. apply Ascii.eqb_eq in H as ->. by left.
    + right. by apply IH.
Qed.

Lemma digits_not_key {V} (d : dict V) k :
  forallb (fun k' => negb (Py.all_digits k')) (dict_keys d) = true ->
  Py.all_digits k = true -> dict_find d k = None.
Proof.
  intros Hd Hk. apply dict_find_not_key. intros Hin.
  rewrite forallb_forall in Hd. apply list_elem_of_In, Hd in Hin.
  rewrite Hk in Hin. discriminate.
Qed.

(** No step of the chain hits on a district key made of digits only, the
    empty key included. *)
Lemma digits_district_no_hit dk :
  Py.all_digits dk = true ->
  Spec.district_lookup dk = None /\ Spec.delhi_catch_all dk = None
  /\ Spec.alias_lookup dk = None /\ Spec.exact_lookup dk = None.
Proof.
  intros H.
  unfold Spec.district_lookup, Spec.delhi_catch_all, Spec.alias_lookup,
    Spec.exact_lookup.
  rewrite !(digits_not_key _ dk) by (done || (vm_compute; reflexivity)).
  repeat split.
  destruct (Py.contains "delhi" dk) eqn:E; [|done].
  apply contains_chars_head in E. by apply digits_no_d in E.
Qed.

(** C5. Numeric-junk blanking: a value of three or more digits and nothing
    else, in the state position or in the district position, makes the
    resolver behave exactly as the empty string in that position does.  (The
    source blanks the state only; a district of digits matches no table key
    and no step, as the empty district does.) *)
Theorem numeric_junk_is_empty (v : string) :
  Py.all_digits v = true -> (3 <= String.length v)%nat ->
  (forall district_raw,
      canonicalize_region v district_raw = canonicalize_region EmptyString district_raw)
  /\ (forall state_raw,
      canonicalize_region state_raw v = canonicalize_region state_raw EmptyString).
Proof.
  intros Hd Hlen. split.
  - intros district_raw. unfold canonicalize_region.
    rewrite (digits_strip v Hd).
    assert (Py.digits_at_least 3 v = true) as ->.
    { unfold Py.digits_at_least. rewrite Hd. by apply Nat.leb_le. }
    reflexivity.
  - intros state_raw. rewrite !canonicalize_region_chain.
    unfold Spec.resolve, Spec.chain, Spec.district_key.
    rewrite (digits_strip v Hd), (digits_key v Hd).
    destruct (digits_district_no_hit v Hd) as (-> & -> & -> & ->).
    assert (Py.all_digits (_key (Py.strip EmptyString)) = true) as He
      by (vm_compute; reflexivity).
    destruct (digits_district_no_hit _ He) as (-> & -> & -> & ->).
    reflexivity.
Qed.

Lemma numeric_junk_is_empty_witness :
  canonicalize_region "100000" "Leh" = canonicalize_region EmptyString "Leh"
  /\ canonicalize_region "Bihar" "100000" = canonicalize_region "Bihar" EmptyString.
Proof.
  destruct (numeric_junk_is_empty "100000") as [H1 H2];
    [vm_compute; reflexivity | vm_compute; lia |].
  split; [apply H1 | apply H2].
Defined.

(** ** The date parser *)

Lemma map_lookup {A B} (f : A -> B) l : forall k, map f l !! k = f <$> l !! k.
Proof. induction l as [|x l IH]; intros [|k]; simpl; auto. Qed.

Lemma assign_from_length {A} (d : list A) upd : forall i,
  length (assign_from i d upd) = length d.
Proof. induction d as [|x d IH]; intros i; simpl; [done|]. by rewrite IH. Qed.

Lemma assign_from_lookup {A} (d : list A) upd : forall i k,
  assign_from i d upd !! k =
  (fun x => match index_find upd (i + k) with Some y => y | None => x end) <$> d !! k.
Proof.
  induction d as [|x d IH]; intros i [|k]; simpl; try done.
  - by rewrite Nat.add_0_r.
  - rewrite IH. by rewrite Nat.add_succ_r.
Qed.

Lemma index_find_None {A} (upd : indexed A) j :
  j ∉ map fst upd -> index_find upd j = None.
Proof.
  induction upd as [|[i y] upd IH]; simpl; [done|]. intros H.
  destruct (Nat.eqb_spec j i) as [->|Hne].
  - exfalso. apply H. apply list_elem_of_here.
  - apply IH. intros Hin. apply H. by apply list_elem_of_further.
Qed.

Lemma select_from_keys {A} (s : list A) : forall mask i j,
  j ∈ map fst (select_from i mask s) ->
  exists k, j = (i + k)%nat /\ mask !! k = Some true.
Proof.
  induction s as [|x s IH]; intros [|b mask] i j; simpl;
    try (by intros ?%elem_of_nil).
  rewrite map_app, elem_of_app. intros [H|H].
  - destruct b; simpl in H; [|by apply elem_of_nil in H].
    apply list_elem_of_singleton in H as ->. exists 0%nat. split; [lia|done].
  - apply IH in H as (k & -> & Hk). exists (S k). split; [lia|done].
Qed.

Lemma both_masks_lookup d s : forall k,
  both_masks d s !! k = Some true ->
  exists x, d !! k = Some None /\ s !! k = Some (Some x).
Proof.
  unfold both_masks. revert s.
  induction d as [|y d IH]; intros [|x s] [|k]; simpl; try done.
  - intros [= H]. apply andb_true_iff in H as [H1 H2].
    destruct y; [done|]. destruct x; [|done]. eauto.
  - apply IH.
Qed.

Lemma both_masks_length d s : length d = length s -> length (both_masks d s) = length s.
Proof. intros H. unfold both_masks. rewrite length_map, length_combine. lia. Qed.

Lemma combine_keys {A B} (ks : list A) (vs : list B) j :
  j ∈ map fst (combine ks vs) -> j ∈ ks.
Proof.
  intros ([a b] & <- & Hin)%list_elem_of_In%in_map_iff.
  apply in_combine_l in Hin. by apply list_elem_of_In.
Qed.

(** One masked refinement of a column leaves the values outside the mask
    as they are: the values already read, and the missing values of the
    text. *)
Lemma stage_keeps d s (upd : indexed (option Timestamp)) k v :
  (forall j, j ∈ map fst upd -> j ∈ map fst (select (both_masks d s) s)) ->
  d !! k = Some v -> (v <> None \/ s !! k = Some None) ->
  (if existsb id (both_masks d s) then loc_assign d upd else d) !! k = Some v.
Proof.
  intros Hkeys Hd Hv. destruct (existsb id _); [|done].
  unfold loc_assign. rewrite assign_from_lookup, Hd. simpl.
  rewrite index_find_None; [done|].
  intros Hin%Hkeys. apply select_from_keys in Hin as (k' & E & Hm).
  simpl in E. subst k'. apply both_masks_lookup in Hm as (x & Hd' & Hs').
  destruct Hv; congruence.
Qed.

Lemma stage_length {A} (d : list A) (mask : list bool) upd :
  length (if existsb id mask then loc_assign d upd else d) = length d.
Proof. destruct (existsb id mask); [apply assign_from_length|done]. Qed.

Section DateParser.
Context `{P : Pandas}.

Lemma series_to_datetime_length b s : length (series_to_datetime b s) = length s.
Proof. unfold series_to_datetime. apply length_imap. Qed.

Lemma series_to_datetime_lookup b s k :
  series_to_datetime b s !! k =
  (fun x => match x with
            | Some _ => default None (to_datetime b s !! k)
            | None => None
            end) <$> s !! k.
Proof. unfold series_to_datetime. apply list_lookup_imap. Qed.

Lemma fill_format_keys candidates fixed fmt j :
  j ∈ map fst (fill_format candidates fixed fmt) -> j ∈ map fst fixed.
Proof.
  unfold fill_format. rewrite map_map. simpl.
  intros ([[i x] [i' y]] & <- & Hin)%list_elem_of_In%in_map_iff. simpl.
  apply in_combine_l in Hin. apply list_elem_of_In, in_map_iff. by exists (i, x).
Qed.

Lemma fold_fill_format_keys candidates fmts : forall fixed j,
  j ∈ map fst (fold_left (fill_format candidates) fmts fixed) -> j ∈ map fst fixed.
Proof.
  induction fmts as [|fmt fmts IH]; intros fixed j; simpl; [done|].
  intros H%IH. by apply fill_format_keys in H.
Qed.

Lemma parse_dates_strong_texts series :
  parse_dates_strong series =
  let s := map date_text series in
  let d := series_to_datetime true s in
  let mask := both_masks d s in
  let d := if existsb id mask
           then loc_assign d (selection_to_datetime false (select mask s)) else d in
  let mask := both_masks d s in
  if existsb id mask
  then loc_assign d (fold_left (fill_format (select mask s)) DATE_FORMATS
                       (imap_values (fun _ => None) (select mask s)))
  else d.
Proof.
  unfold parse_dates_strong. rewrite !map_map.
  assert (map (fun x => option_map (Py.remove_class Py.is_space)
                          (option_map dash_separators
                             (if Py.mem (Py.strip (py_str x)) NA_TOKENS then None
                              else Some (Py.strip (py_str x))))) series
          = map date_text series) as ->; [|done].
  apply map_ext. intros v. unfold date_text. by destruct (Py.mem _ _).
Qed.

Lemma parse_dates_strong_length series :
  length (parse_dates_strong series) = length series.
Proof.
  rewrite parse_dates_strong_texts. cbv zeta.
  by rewrite !stage_length, series_to_datetime_length, length_map.
Qed.

Lemma parse_dates_strong_keeps series k v :
  series_to_datetime true (map date_text series) !! k = Some v ->
  (v <> None \/ map date_text series !! k = Some None) ->
  parse_dates_strong series !! k = Some v.
Proof.
  intros Hd Hv. rewrite parse_dates_strong_texts. cbv zeta.
  apply stage_keeps; [| |done].
  - intros j Hj. apply fold_fill_format_keys in Hj.
    unfold imap_values in Hj. rewrite map_map in Hj. exact Hj.
  - apply stage_keeps; [|done|done].
    intros j Hj. unfold selection_to_datetime in Hj. by apply combine_keys in Hj.
Qed.

End DateParser.

Lemma first_valid_None s k v :
  PandasModel.first_valid s = None -> s !! k = Some (Some v) -> False.
Proof.
  revert k. induction s as [|[x|] s IH]; intros [|k]; simpl; try done.
  intros H. by apply IH.
Qed.

Lemma model_infers_format : infers_format PandasModel.pandas.
Proof.
  intros dayfirst s v fmt E1 E2. cbn [to_datetime PandasModel.pandas].
  unfold PandasModel.to_datetime. by rewrite E1, E2.
Qed.

Lemma model_strict_formats : strict_formats PandasModel.pandas.
Proof. unfold strict_formats. by repeat constructor. Qed.

Section Agreement.
Context `{P : Pandas}.
Hypothesis Hinfer : infers_format P.
Hypothesis Hstrict : strict_formats P.

Lemma series_agree b s :
  format_known b s = true ->
  series_to_datetime b s = series_to_datetime (P:=PandasModel.pandas) b s.
Proof.
  unfold format_known. destruct (PandasModel.first_valid s) as [v|] eqn:E1.
  - intros [fmt E2]%bool_decide_eq_true. unfold series_to_datetime.
    by rewrite (Hinfer b s v fmt E1 E2), (model_infers_format b s v fmt E1 E2).
  - intros _. apply list_eq. intros k. rewrite !series_to_datetime_lookup.
    destruct (s !! k) as [[v|]|] eqn:E; [|done|done].
    exfalso. eapply first_valid_None; eauto.
Qed.

Lemma fill_format_agree candidates fixed fmt :
  (forall v, to_datetime_format fmt v = PandasModel.to_datetime_format fmt v) ->
  fill_format candidates fixed fmt
  = fill_format (P:=PandasModel.pandas) candidates fixed fmt.
Proof.
  intros H. unfold fill_format, imap_values. do 2 f_equal.
  apply map_ext. intros [i [v|]]; simpl; [|done]. f_equal. apply H.
Qed.

Lemma fold_fill_format_agree candidates fmts : forall fixed,
  Forall (fun fmt => forall v, to_datetime_format fmt v
                               = PandasModel.to_datetime_format fmt v) fmts ->
  fold_left (fill_format candidates) fmts fixed
  = fold_left (fill_format (P:=PandasModel.pandas) candidates) fmts fixed.
Proof.
  induction fmts as [|fmt fmts IH]; intros fixed H; simpl; [done|].
  inversion H; subst. rewrite fill_format_agree by done. by apply IH.
Qed.

Lemma parse_dates_agree series :
  covered series = true ->
  parse_dates_strong series = parse_dates_strong (P:=PandasModel.pandas) series.
Proof.
  unfold covered. cbv zeta. intros [H1 H2]%andb_true_iff.
  rewrite !parse_dates_strong_texts. cbv zeta.
  rewrite (series_agree true _ H1).
  unfold selection_to_datetime. rewrite (series_agree false _ H2).
  by rewrite fold_fill_format_agree.
Qed.

End Agreement.

(** ** Orders *)

Section CmpOrderFacts.
Context {A} (cmp : A -> A -> comparison) `{!CmpOrder cmp}.

Lemma cmp_refl x : cmp x x = Eq.
Proof. by apply cmp_eq. Qed.

Lemma cmp_gt_lt x y : cmp x y = Gt -> cmp y x = Lt.
Proof. intros H. by rewrite (cmp_antisym x y), H. Qed.

Lemma cmp_lt_gt x y : cmp x y = Lt -> cmp y x = Gt.
Proof. intros H. by rewrite (cmp_antisym x y), H. Qed.

Lemma cmp_le_trans x y z : cmp x y <> Gt -> cmp y z <> Gt -> cmp x z <> Gt.
Proof.
  intros Hxy Hyz Hxz.
  destruct (cmp x y) eqn:E1; [|clear Hxy|done].
  - apply cmp_eq in E1 as ->. done.
  - destruct (cmp y z) eqn:E2; [|clear Hyz|done].
    + apply cmp_eq in E2 as ->. congruence.
    + rewrite (cmp_lt_trans x y z E1 E2) in Hxz. done.
Qed.
End CmpOrderFacts.

#[global] Instance nat_compare_order : CmpOrder Nat.compare.
Proof.
  split.
  - apply Nat.compare_eq_iff.
  - intros x y. apply Nat.compare_antisym.
  - intros x y z. rewrite !Nat.compare_lt_iff. lia.
Qed.

Lemma string_compare_refl s : String.compare s s = Eq.
Proof.
  induction s as [|c s IH]; simpl; [done|].
  unfold Ascii.compare. by rewrite N.compare_refl.
Qed.

#[global] Instance string_compare_order : CmpOrder String.compare.
Proof.
  split.
  - intros x y. split; [apply String.compare_eq_iff|].
    intros ->. apply string_compare_refl.
  - intros x y. apply String.compare_antisym.
  - intros x y z Hxy Hyz.
    assert (String.le x y) as Lxy by (unfold String.le, String.leb; by rewrite Hxy).
    assert (String.le y z) as Lyz by (unfold String.le, String.leb; by rewrite Hyz).
    assert (String.le x z) as Lxz by (by etrans).
    unfold String.le, String.leb in Lxz.
    destruct (String.compare x z) eqn:E; [|done|done].
    apply String.compare_eq_iff in E as ->.
    assert (y = z) as -> by (by apply (anti_symm String.le)).
    rewrite string_compare_refl in Hxy. done.
Qed.

#[global] Instance lex_order {A B} (c1 : A -> A -> comparison)
    (c2 : B -> B -> comparison) `{!CmpOrder c1, !CmpOrder c2} : CmpOrder (lex c1 c2).
Proof.
  split.
  - intros [x1 x2] [y1 y2]. unfold lex. simpl. split.
    + destruct (c1 x1 y1) eqn:E; [|done|done].
      intros H. apply cmp_eq in E as ->. by apply cmp_eq in H as ->.
    + intros [= -> ->]. by rewrite !cmp_refl.
  - intros [x1 x2] [y1 y2]. unfold lex. simpl.
    rewrite (cmp_antisym (cmp:=c1) x1 y1).
    destruct (c1 x1 y1); simpl; [apply cmp_antisym|done|done].
  - intros [x1 x2] [y1 y2] [z1 z2]. unfold lex. simpl.
    destruct (c1 x1 y1) eqn:E1; [| |done].
    + apply cmp_eq in E1 as ->. destruct (c1 y1 z1); [|done|done].
      apply cmp_lt_trans.
    + intros _. destruct (c1 y1 z1) eqn:E2; [| |done]; intros H2.
      * apply cmp_eq in E2 as ->. by rewrite E1.
      * by rewrite (cmp_lt_trans x1 y1 z1 E1 E2).
Qed.

#[global] Instance none_last_order {A} (cmp : A -> A -> comparison)
    `{!CmpOrder cmp} : CmpOrder (none_last cmp).
Proof.
  split.
  - intros [x|] [y|]; simpl; split; try done.
    + intros H. by apply cmp_eq in H as ->.
    + intros [= ->]. apply cmp_refl; done.
  - intros [x|] [y|]; simpl; try done. apply cmp_antisym.
  - intros [x|] [y|] [z|]; simpl; try done. apply cmp_lt_trans.
Qed.

#[global] Instance ymd_compare_order : CmpOrder ymd_compare.
Proof.
  split.
  - intros [y1 m1 d1] [y2 m2 d2]. unfold ymd_compare.
    rewrite (cmp_eq (cmp:=lex (lex Nat.compare Nat.compare) Nat.compare)).
    unfold ymd. simpl. split; [by intros [= -> -> ->]|by intros [= -> -> ->]].
  - intros x y. apply (cmp_antisym (cmp:=lex (lex Nat.compare Nat.compare) Nat.compare)).
  - intros x y z. apply (cmp_lt_trans (cmp:=lex (lex Nat.compare Nat.compare) Nat.compare)).
Qed.

#[global] Instance N_compare_order : CmpOrder N.compare.
Proof.
  split.
  - apply N.compare_eq_iff.
  - intros x y. apply N.compare_antisym.
  - intros x y z. rewrite !N.compare_lt_iff. apply N.lt_trans.
Qed.

#[global] Instance ts_compare_order : CmpOrder ts_compare.
Proof.
  split.
  - intros [d1 t1] [d2 t2]. unfold ts_compare.
    rewrite (cmp_eq (cmp:=lex ymd_compare N.compare)).
    simpl. split; [by intros [= -> ->]|by intros [= -> ->]].
  - intros x y. apply (cmp_antisym (cmp:=lex ymd_compare N.compare)).
  - intros x y z. apply (cmp_lt_trans (cmp:=lex ymd_compare N.compare)).
Qed.

#[global] Instance key_compare_order : CmpOrder key_compare.
Proof. unfold key_compare, date_compare. apply _. Qed.

(** ** Removing duplicates *)

Lemma filter_filter_andb {A} (f g : A -> bool) l :
  List.filter f (List.filter g l) = List.filter (fun x => g x && f x) l.
Proof.
  induction l as [|x l IH]; simpl; [done|].
  destruct (g x); simpl; [|done]. destruct (f x); by rewrite IH.
Qed.

Lemma filter_comm {A} (f g : A -> bool) l :
  List.filter f (List.filter g l) = List.filter g (List.filter f l).
Proof.
  rewrite !filter_filter_andb. apply filter_ext. intros x. apply andb_comm.
Qed.

Lemma filter_elem_of {A} (f : A -> bool) l x :
  x ∈ List.filter f l <-> x ∈ l /\ f x = true.
Proof. rewrite !list_elem_of_In. apply filter_In. Qed.

Lemma filter_NoDup {A} (f : A -> bool) l : NoDup l -> NoDup (List.filter f l).
Proof. rewrite !NoDup_ListNoDup. apply List.NoDup_filter. Qed.

Section MergeStore.
Context `{P : Pandas}.

Lemma drop_seen_filter df : forall seen,
  drop_seen seen df = List.filter (unseen seen) (drop_duplicates df).
Proof.
  unfold drop_duplicates.
  induction df as [|x df IH]; intros seen; simpl; [done|].
  rewrite (IH [x]), filter_filter_andb. unfold unseen at 1.
  destruct (bool_decide (x ∈ seen)) eqn:E; simpl.
  - rewrite IH. apply filter_ext_in. intros y _. unfold unseen.
    destruct (bool_decide (y ∈ [x])) eqn:Ey; simpl; [|done].
    apply bool_decide_eq_true, list_elem_of_singleton in Ey as ->.
    by rewrite E.
  - f_equal. rewrite IH. apply filter_ext. intros y. unfold unseen.
    rewrite <- negb_orb, <- bool_decide_or. f_equal. apply bool_decide_ext.
    rewrite elem_of_cons, list_elem_of_singleton. done.
Qed.

(** The first of equal rows is kept: the head stays, its later copies go. *)
Lemma drop_duplicates_cons x df :
  drop_duplicates (x :: df) =
  x :: List.filter (fun y => negb (bool_decide (y = x))) (drop_duplicates df).
Proof.
  unfold drop_duplicates at 1. simpl.
  rewrite drop_seen_filter. f_equal. apply filter_ext. intros y. unfold unseen.
  f_equal. apply bool_decide_ext. apply list_elem_of_singleton.
Qed.

Lemma drop_duplicates_elem_of df x : x ∈ drop_duplicates df <-> x ∈ df.
Proof.
  induction df as [|y df IH].
  - done.
  - rewrite drop_duplicates_cons, !elem_of_cons, filter_elem_of, IH.
    rewrite negb_true_iff, bool_decide_eq_false.
    destruct (decide (x = y)); intuition.
Qed.

Lemma drop_duplicates_NoDup df : NoDup (drop_duplicates df).
Proof.
  induction df as [|y df IH]; [constructor|].
  rewrite drop_duplicates_cons. constructor; [|by apply filter_NoDup].
  rewrite filter_elem_of, negb_true_iff, bool_decide_eq_false. intros [_ H]. by apply H.
Qed.

(** ** Sorting *)

Lemma row_le_total r1 r2 : row_leb r1 r2 = false -> row_le r2 r1.
Proof.
  unfold row_le, row_leb, row_compare. intros H.
  destruct (key_compare (sort_key r1) (sort_key r2)) eqn:E; try done.
  by rewrite (cmp_gt_lt key_compare _ _ E).
Qed.

Lemma row_le_trans r1 r2 r3 : row_le r1 r2 -> row_le r2 r3 -> row_le r1 r3.
Proof.
  unfold row_le, row_leb, row_compare. intros H1 H2.
  pose proof (cmp_le_trans key_compare (sort_key r1) (sort_key r2) (sort_key r3)) as H.
  destruct (key_compare (sort_key r1) (sort_key r3)); try done.
  exfalso. apply H; [by destruct (key_compare (sort_key r1) (sort_key r2))
                    |by destruct (key_compare (sort_key r2) (sort_key r3))|done].
Qed.

Lemma row_le_same_key r1 r2 : sort_key r1 = sort_key r2 -> row_le r1 r2.
Proof.
  unfold row_le, row_leb, row_compare. intros ->. by rewrite (cmp_refl key_compare).
Qed.

Lemma insert_sorted_perm x l : insert_sorted x l ≡ₚ x :: l.
Proof.
  induction l as [|y l IH]; simpl; [done|].
  destruct (row_leb x y); [done|]. rewrite IH. apply Permutation_swap.
Qed.

Lemma sort_df_perm df : sort_df df ≡ₚ df.
Proof.
  induction df as [|x df IH]; simpl; [done|].
  unfold sort_df in *. simpl. rewrite insert_sorted_perm. by constructor.
Qed.

Lemma insert_sorted_sorted x l :
  StronglySorted row_le l -> StronglySorted row_le (insert_sorted x l).
Proof.
  induction 1 as [|y l Hl IH Hy]; simpl.
  - repeat constructor.
  - destruct (row_leb x y) eqn:E.
    + constructor; [by constructor|]. constructor; [done|].
      eapply Forall_impl; [exact Hy|]. intros z Hz. by eapply row_le_trans.
    + constructor; [done|]. rewrite insert_sorted_perm.
      constructor; [by apply row_le_total|done].
Qed.

Lemma sort_df_sorted df : StronglySorted row_le (sort_df df).
Proof.
  induction df as [|x df IH]; [constructor|].
  unfold sort_df in *. simpl. by apply insert_sorted_sorted.
Qed.

(** The sort is stable: the rows of one key keep their order. *)
Lemma insert_sorted_stable k x l :
  List.filter (has_key k) (insert_sorted x l) = List.filter (has_key k) (x :: l).
Proof.
  induction l as [|y l IH]; simpl; [done|].
  destruct (row_leb x y) eqn:E; [done|]. simpl in *. rewrite IH.
  unfold has_key.
  destruct (bool_decide (sort_key x = k)) eqn:Ex;
    destruct (bool_decide (sort_key y = k)) eqn:Ey; try done.
  apply bool_decide_eq_true in Ex, Ey.
  assert (row_le x y) as H by (apply row_le_same_key; congruence).
  unfold row_le in H. congruence.
Qed.

Lemma sort_df_stable k df :
  List.filter (has_key k) (sort_df df) = List.filter (has_key k) df.
Proof.
  induction df as [|x df IH]; [done|].
  unfold sort_df in *. simpl. rewrite insert_sorted_stable. simpl. by rewrite IH.
Qed.

Lemma filter_sorted (f : Row -> bool) l :
  StronglySorted row_le l -> StronglySorted row_le (List.filter f l).
Proof.
  induction 1 as [|y l Hl IH Hy]; simpl; [constructor|].
  destruct (f y); [|done]. constructor; [done|].
  apply Forall_forall. intros z Hz. apply filter_elem_of in Hz as [Hz _].
  rewrite Forall_forall in Hy. by apply Hy.
Qed.

(** ** The merged table *)

Lemma merged_elem_of old sdf r :
  r ∈ merged old sdf <-> (r ∈ old \/ r ∈ sdf) /\ date r <> None.
Proof.
  unfold merged. rewrite filter_elem_of, sort_df_perm, drop_duplicates_elem_of,
    elem_of_app.
  unfold notna, isna. destruct (date r); simpl; intuition congruence.
Qed.

Lemma merged_NoDup old sdf : NoDup (merged old sdf).
Proof.
  unfold merged. apply filter_NoDup.
  rewrite sort_df_perm. apply drop_duplicates_NoDup.
Qed.

Lemma merged_sorted old sdf : StronglySorted row_le (merged old sdf).
Proof. unfold merged. apply filter_sorted, sort_df_sorted. Qed.

Lemma merged_stable old sdf k :
  List.filter (has_key k) (merged old sdf) =
  List.filter (has_key k) (List.filter has_date (drop_duplicates (old ++ sdf))).
Proof.
  unfold merged. fold has_date.
  rewrite (filter_comm (has_key k)), sort_df_stable. apply filter_comm.
Qed.

End MergeStore.




(** ** The merge store *)

Section MergeTheorems.
Context `{P : Pandas}.

Lemma digits_remove_non_digit s :
  Py.all_digits (Py.remove_class non_digit s) = true.
Proof.
  unfold Py.all_digits, Py.remove_class. rewrite chars_str.
  induction (Py.chars s) as [|c l IH]; [done|]. simpl. unfold non_digit at 1.
  destruct (Py.is_digit c) eqn:E; simpl; [by rewrite E|done].
Qed.

Lemma norm_pincode_digits x : Py.all_digits (norm_pincode x) = true.
Proof.
  unfold norm_pincode. destruct (pd_isna x); [done|]. apply digits_remove_non_digit.
Qed.

Lemma clean_dataframe_pincodes df cleaned r :
  clean_dataframe df = Ok cleaned -> r ∈ cleaned ->
  Py.all_digits (pincode (row r)) = true.
Proof.
  unfold clean_dataframe. destruct (List.filter _ REQUIRED); [|discriminate].
  destruct (bool_decide (NoDup _)); cbn [negb]; [|discriminate].
  destruct (result_mapM _ _) as [regions|]; [|discriminate].
  simpl_bind. intros [= <-] Hr.
  apply list_elem_of_In, in_map_iff in Hr as ([[[[[s d] p] dt] ms] [t name]] & <- & Hin).
  simpl. do 3 apply in_combine_l in Hin. apply in_combine_r in Hin.
  apply in_map_iff in Hin as (raw & <- & _). apply norm_pincode_digits.
Qed.

Lemma reload_pincodes lines r :
  r ∈ reload lines -> Py.all_digits (pincode r) = true.
Proof.
  unfold reload. intros Hr.
  apply list_elem_of_In, in_map_iff in Hr as ([o d] & <- & _). simpl.
  apply norm_pincode_digits.
Qed.

Lemma merge_write_dataset_digits region_folder dataset sdf fs :
  rows_digits_only sdf -> store_digits_only fs ->
  store_digits_only (merge_write_dataset region_folder dataset sdf fs).
Proof.
  intros Hsdf Hfs. unfold merge_write_dataset.
  apply map_Forall_insert_2; [|done].
  unfold to_csv, digits_only. apply Forall_forall. intros l Hl.
  apply list_elem_of_In, in_map_iff in Hl as (r & <- & Hr). simpl.
  apply list_elem_of_In, merged_elem_of in Hr as [[Hr|Hr] _]; [|by apply Hsdf].
  destruct (fs !! _) as [[|lines]|]; try by apply elem_of_nil in Hr.
  by eapply reload_pincodes.
Qed.

Lemma write_groups_digits t dataset df fs :
  rows_digits_only (map row df) -> store_digits_only fs ->
  store_digits_only (write_groups t dataset df fs).
Proof.
  intros Hdf. unfold write_groups.
  assert (Forall (fun g => rows_digits_only (map row (snd g)))
            (groupby_region_name df)) as Hg.
  { unfold groupby_region_name. apply Forall_forall. intros g Hg.
    apply list_elem_of_In, in_map_iff in Hg as (n & <- & _). simpl.
    intros r Hr. apply Hdf.
    apply list_elem_of_In, in_map_iff in Hr as (c & <- & Hc).
    apply filter_In in Hc as [Hc _]. apply list_elem_of_In, in_map. done. }
  revert fs. induction Hg as [|g gs Hg _ IH]; intros fs Hfs; simpl; [done|].
  apply IH. by apply merge_write_dataset_digits.
Qed.

Lemma process_file_digits file df_raw fs fs' :
  process_file file df_raw fs = Ok fs' ->
  store_digits_only fs -> store_digits_only fs'.
Proof.
  unfold process_file. destruct (clean_dataframe df_raw) as [cleaned|] eqn:E;
    [|discriminate].
  simpl_bind. intros [= <-] Hfs.
  assert (forall f g h, rows_digits_only (map row
            (List.filter f (List.filter g (List.filter h cleaned))))) as Hsub.
  { intros f g h r Hr. apply list_elem_of_In, in_map_iff in Hr as (c & <- & Hc).
    do 3 apply filter_In, proj1 in Hc.
    eapply clean_dataframe_pincodes; [exact E|by apply list_elem_of_In]. }
  apply write_groups_digits; [apply Hsub|].
  apply write_groups_digits; [apply Hsub|done].
Qed.

Lemma main_loop_digits files : forall fs,
  store_digits_only fs -> store_digits_only (fst (main_loop files fs)).
Proof.
  induction files as [|[file df_raw] files IH]; intros fs Hfs; simpl; [done|].
  destruct (process_file file df_raw fs) as [fs'|] eqn:E; [|done].
  apply IH. by eapply process_file_digits.
Qed.

Lemma clean_dataframe_schema df :
  lacks_required_column df ->
  clean_dataframe df = Raise (ValueError "Missing required columns").
Proof.
  intros (c & Hc & Hmiss). unfold clean_dataframe.
  destruct (List.filter _ REQUIRED) as [|m ms] eqn:E; [|done].
  assert (In c (List.filter (fun c => negb (Py.mem c (map clean_col (columns df))))
                  REQUIRED)) as Hin.
  { apply filter_In. split; [by apply list_elem_of_In|].
    apply negb_true_iff. destruct (Py.mem _ _) eqn:Em; [|done].
    by apply mem_elem_of in Em. }
  rewrite E in Hin. destruct Hin.
Qed.

Lemma main_loop_app files1 : forall files2 fs fs1,
  main_loop files1 fs = (fs1, Ok tt) ->
  main_loop (files1 ++ files2) fs = main_loop files2 fs1.
Proof.
  induction files1 as [|[file df_raw] files1 IH]; intros files2 fs fs1; simpl.
  - by intros [= ->].
  - destruct (process_file file df_raw fs) as [fs'|]; [apply IH|discriminate].
Qed.

End MergeTheorems.


Lemma sorted_by_key `{P : Pandas} (l : list Row) :
  StronglySorted row_le l ->
  StronglySorted
    (fun r1 r2 =>
       lex (lex String.compare String.compare) (none_last ts_compare)
         (district r1, pincode r1, date r1) (district r2, pincode r2, date r2) <> Gt) l.
Proof.
  induction 1 as [|x l Hl IH Hx]; constructor; [done|].
  eapply Forall_impl; [exact Hx|]. intros y. unfold row_le, row_leb, row_compare.
  unfold key_compare, sort_key, date_compare.
  by destruct (lex _ _ _ _).
Qed.



(** The stored rows are read again day first: a stored date whose day can be
    a month comes back with day and month exchanged. *)
Lemma reload_reads_day_first :
  map date (reload (P:=PandasModel.pandas)
              [ mkCsvRow "Delhi" "New Delhi" "110001" "2021-01-05" ∅ ])
  = [ Some (midnight (mkDate 2021 5 1)) ].
Proof. vm_compute. reflexivity. Qed.



(** C8, as the specification states it, fails: a file without the [date]
    column ends the run, and the complete file after it is not processed;
    on its own that file writes the table of Goa. *)
Lemma schema_failure_ends_the_run :
  main_loop (P:=PandasModel.pandas) [Examples.no_date_file; Examples.complete_file] ∅
    = (∅, Raise (ValueError "Missing required columns"))
  /\ fst (main_loop (P:=PandasModel.pandas) [Examples.complete_file] ∅)
       !! Examples.goa_table
     = Some (Csv [ mkCsvRow "Goa" "North Goa" "403001" "2020-12-31" ∅ ])
  /\ fst (main_loop (P:=PandasModel.pandas)
            [Examples.no_date_file; Examples.complete_file] ∅)
     <> fst (main_loop (P:=PandasModel.pandas) [Examples.complete_file] ∅).
Proof.
  assert (main_loop (P:=PandasModel.pandas)
            [Examples.no_date_file; Examples.complete_file] ∅
          = (∅, Raise (ValueError "Missing required columns"))) as E1
    by (vm_compute; reflexivity).
  assert (fst (main_loop (P:=PandasModel.pandas) [Examples.complete_file] ∅)
            !! Examples.goa_table
          = Some (Csv [ mkCsvRow "Goa" "North Goa" "403001" "2020-12-31" ∅ ])) as E2
    by (vm_compute; reflexivity).
  split; [exact E1|]. split; [exact E2|].
  intros H.
  assert (fst (main_loop (P:=PandasModel.pandas)
                 [Examples.no_date_file; Examples.complete_file] ∅)
            !! Examples.goa_table = None) as E3
    by (rewrite E1; exact (lookup_empty _)).
  rewrite H, E2 in E3. discriminate E3.
Qed.

(** C8, amended. Schema-failure scope: when an input file lacks one of the
    required columns state, district, pincode, date, [clean_dataframe] raises
    before anything is written for that file; [main] does not catch the
    exception, so the run ends there: the tables are as the files before
    left them, and no later file is processed. *)
Theorem schema_failure_scope (P : Pandas) (files1 files2 : list (string * RawFrame))
    (file : string) (df : RawFrame) (fs fs1 : gmap string disk_file) :
  lacks_required_column df ->
  main_loop files1 fs = (fs1, Ok tt) ->
  clean_dataframe df = Raise (ValueError "Missing required columns")
  /\ process_file file df fs1 = Raise (ValueError "Missing required columns")
  /\ main_loop (files1 ++ (file, df) :: files2) fs
     = (fs1, Raise (ValueError "Missing required columns")).
Proof.
  intros Hdf H1. pose proof (clean_dataframe_schema df Hdf) as E.
  assert (process_file file df fs1 = Raise (ValueError "Missing required columns")) as E'.
  { unfold process_file. by rewrite E. }
  split; [done|]. split; [done|].
  rewrite (main_loop_app files1 _ fs fs1 H1). simpl. by rewrite E'.
Qed.

Lemma schema_failure_scope_witness :
  main_loop (P:=PandasModel.pandas)
    ([Examples.complete_file] ++ Examples.no_date_file :: [Examples.complete_file]) ∅
  = (fst (main_loop (P:=PandasModel.pandas) [Examples.complete_file] ∅),
     Raise (ValueError "Missing required columns")).
Proof.
  apply (schema_failure_scope PandasModel.pandas [Examples.complete_file]
           [Examples.complete_file] (fst Examples.no_date_file)
           (snd Examples.no_date_file) ∅).
  - exists "date". split; vm_compute.
    + apply list_elem_of_In. simpl. tauto.
    + intros H. apply list_elem_of_In in H. simpl in H.
      repeat destruct H as [H|H]; try discriminate H. destruct H.
  - vm_compute. reflexivity.
Defined.

(** C1. Idempotent merge fails on the code: a batch whose pincode starts with
    a zero is merged into an empty store and then merged again; the second
    merge reads the stored pincode back as the integer 11001, the batch still
    says "011001", and the table grows from one row to two.  A batch with a
    blank pincode grows as well: the stored column is read back as floats,
    and 110001.0 is normalised to "1100010". *)
Theorem remerge_is_not_idempotent :
  let once := merge_write_dataset (P:=PandasModel.pandas) Examples.delhi_folder
                "demographic" Examples.leading_zero_batch ∅ in
  let twice := merge_write_dataset (P:=PandasModel.pandas) Examples.delhi_folder
                 "demographic" Examples.leading_zero_batch once in
  let once' := merge_write_dataset (P:=PandasModel.pandas) Examples.delhi_folder
                 "demographic" Examples.blank_pincode_batch ∅ in
  let twice' := merge_write_dataset (P:=PandasModel.pandas) Examples.delhi_folder
                  "demographic" Examples.blank_pincode_batch once' in
  once !! Examples.delhi_table = Some (Csv [ Examples.line "011001" ])
  /\ twice !! Examples.delhi_table
     = Some (Csv [ Examples.line "011001"; Examples.line "11001" ])
  /\ once' !! Examples.delhi_table
     = Some (Csv [ Examples.line EmptyString; Examples.line "110001" ])
  /\ twice' !! Examples.delhi_table
     = Some (Csv [ Examples.line EmptyString; Examples.line "110001";
                   Examples.line "1100010" ]).
Proof. repeat split; vm_compute; reflexivity. Qed.

(** ** When a second merge changes nothing

    A sorted table is determined by the rows of each sort key in their
    order.  So a second merge of the same batch leaves the table file as it
    is whenever the stored rows come back from the file as they were
    written; the examples above are batches for which they do not. *)

Section Idempotence.
Context `{P : Pandas}.

Lemma drop_duplicates_app l1 : forall l2,
  drop_duplicates (l1 ++ l2) =
  drop_duplicates l1 ++ List.filter (unseen l1) (drop_duplicates l2).
Proof.
  induction l1 as [|x l1 IH]; intros l2.
  - simpl. rewrite <- (filter_true (drop_duplicates l2)) at 1.
    apply filter_ext. intros y. unfold unseen.
    rewrite bool_decide_eq_false_2; [done|apply not_elem_of_nil].
  - rewrite <- app_comm_cons, !drop_duplicates_cons, IH, List.filter_app,
      filter_filter_andb, <- app_comm_cons.
    do 2 f_equal. apply filter_ext. intros y. unfold unseen.
    rewrite <- negb_orb, <- bool_decide_or. f_equal. apply bool_decide_ext.
    rewrite elem_of_cons. tauto.
Qed.

Lemma drop_duplicates_id l : NoDup l -> drop_duplicates l = l.
Proof.
  induction 1 as [|x l Hx Hl IH]; [done|].
  rewrite drop_duplicates_cons, IH. f_equal.
  apply forallb_filter_id, forallb_forall. intros y Hy.
  apply negb_true_iff, bool_decide_eq_false. intros ->.
  by apply Hx, list_elem_of_In.
Qed.

Lemma filter_nil_iff {A} (f : A -> bool) l :
  (forall x, x ∈ l -> f x = false) -> List.filter f l = [].
Proof.
  induction l as [|x l IH]; intros H; simpl; [done|].
  rewrite (H x) by apply list_elem_of_here.
  apply IH. intros y Hy. by apply H, list_elem_of_further.
Qed.

Lemma filter_has_key_head x l :
  List.filter (has_key (sort_key x)) (x :: l) =
  x :: List.filter (has_key (sort_key x)) l.
Proof. simpl. unfold has_key at 1. by rewrite bool_decide_eq_true_2. Qed.

Lemma row_le_antisym_key r1 r2 : row_le r1 r2 -> row_le r2 r1 -> sort_key r1 = sort_key r2.
Proof.
  unfold row_le, row_leb, row_compare. intros H1 H2.
  apply (cmp_eq (cmp:=key_compare)).
  destruct (key_compare (sort_key r1) (sort_key r2)) eqn:E; [done| |done].
  by rewrite (cmp_lt_gt key_compare _ _ E) in H2.
Qed.

Lemma head_of_key_class x l y l' :
  List.filter (has_key (sort_key x)) (x :: l) =
  List.filter (has_key (sort_key x)) (y :: l') ->
  x ∈ y :: l'.
Proof.
  rewrite filter_has_key_head. intros H.
  assert (x ∈ List.filter (has_key (sort_key x)) (y :: l')) as Hin
    by (rewrite <- H; apply list_elem_of_here).
  by apply filter_elem_of in Hin as [Hin _].
Qed.

(** Two sorted lists with the same rows of every key, in the same order,
    are equal. *)
Lemma sorted_stable_unique l1 : forall l2,
  StronglySorted row_le l1 -> StronglySorted row_le l2 ->
  (forall k, List.filter (has_key k) l1 = List.filter (has_key k) l2) ->
  l1 = l2.
Proof.
  induction l1 as [|x l1 IH]; intros [|y l2] S1 S2 H.
  - done.
  - specialize (H (sort_key y)). rewrite filter_has_key_head in H. discriminate H.
  - specialize (H (sort_key x)). rewrite filter_has_key_head in H. discriminate H.
  - apply StronglySorted_inv in S1 as [S1 F1]. apply StronglySorted_inv in S2 as [S2 F2].
    rewrite Forall_forall in F1, F2.
    assert (x ∈ y :: l2) as Hx by (eapply head_of_key_class; apply H).
    assert (y ∈ x :: l1) as Hy by (eapply head_of_key_class; symmetry; apply H).
    assert (sort_key x = sort_key y) as Hk.
    { apply row_le_antisym_key.
      - apply elem_of_cons in Hy as [->|Hy];
          [by apply row_le_same_key | by apply F1].
      - apply elem_of_cons in Hx as [->|Hx];
          [by apply row_le_same_key | by apply F2]. }
    pose proof (H (sort_key x)) as Hh.
    rewrite filter_has_key_head, Hk, filter_has_key_head in Hh.
    injection Hh as -> Hh. f_equal. apply IH; [done|done|].
    intros k. specialize (H k). simpl in H.
    destruct (has_key k y); [by injection H|done].
Qed.

Lemma merged_again old sdf :
  merged (merged old sdf) sdf = merged old sdf.
Proof.
  set (T := merged old sdf).
  apply sorted_stable_unique; [apply merged_sorted|apply merged_sorted|].
  intros k. rewrite merged_stable. f_equal.
  rewrite drop_duplicates_app, (drop_duplicates_id T) by apply merged_NoDup.
  rewrite List.filter_app,
    (filter_nil_iff has_date (List.filter (unseen T) (drop_duplicates sdf))), app_nil_r.
  - apply forallb_filter_id, forallb_forall. intros r Hr.
    apply list_elem_of_In, merged_elem_of in Hr as [_ Hr].
    unfold has_date, notna, isna. by destruct (date r).
  - intros r Hr. apply filter_elem_of in Hr as [Hr Hu].
    rewrite drop_duplicates_elem_of in Hr.
    unfold unseen in Hu. apply negb_true_iff, bool_decide_eq_false in Hu.
    unfold has_date, notna, isna. destruct (date r) eqn:E; [|reflexivity].
    exfalso. apply Hu, merged_elem_of. split; [by right|congruence].
Qed.

End Idempotence.

(** If the rows of the table written by a merge come back from the file as
    they were written, merging the same batch again leaves the store as it
    is. *)
Theorem remerge_idempotent_on_faithful_reload (P : Pandas)
    (region_folder dataset : string) (sdf : list Row) (fs : gmap string disk_file) :
  let out_path := path_join region_folder (dataset +:+ ".csv") in
  let old := match fs !! out_path with
             | Some (Csv lines) => reload lines
             | Some Blank | None => []
             end in
  reload (map to_csv_row (merged old sdf)) = merged old sdf ->
  merge_write_dataset region_folder dataset sdf
    (merge_write_dataset region_folder dataset sdf fs)
  = merge_write_dataset region_folder dataset sdf fs.
Proof.
  intros out_path old Hreload. unfold merge_write_dataset at 1.
  fold out_path. unfold merge_write_dataset at 1. fold out_path. fold old.
  rewrite lookup_insert_eq. unfold to_csv at 2.
  rewrite Hreload, merged_again. unfold merge_write_dataset. fold out_path. fold old.
  apply insert_insert_eq.
Qed.

Lemma remerge_idempotent_on_faithful_reload_witness :
  merge_write_dataset (P:=PandasModel.pandas) Examples.delhi_folder "demographic"
    [ mkRow "Delhi" "New Delhi" "110001" (Some Examples.new_year_eve) ∅ ]
    (merge_write_dataset (P:=PandasModel.pandas) Examples.delhi_folder "demographic"
       [ mkRow "Delhi" "New Delhi" "110001" (Some Examples.new_year_eve) ∅ ] ∅)
  = merge_write_dataset (P:=PandasModel.pandas) Examples.delhi_folder "demographic"
      [ mkRow "Delhi" "New Delhi" "110001" (Some Examples.new_year_eve) ∅ ] ∅.
Proof.
  apply (remerge_idempotent_on_faithful_reload PandasModel.pandas).
  apply (bool_decide_unpack _). vm_compute. exact I.
Defined.

(** * The helpers, the cleaning of a frame and the loop of [main] *)

(** ** Characters *)

Lemma char_facts c :
  (Py.is_space c = true -> key_char c = [] /\ Py.is_alpha c = false
                           /\ Py.is_digit c = false /\ Py.lower_char c = c)
  /\ (key_sep c = true -> key_junk c = true)
  /\ Py.is_space (Py.lower_char c) = Py.is_space c
  /\ Py.is_space (Py.upper_char c) = Py.is_space c
  /\ Py.is_alpha (Py.lower_char c) = Py.is_alpha c
  /\ Py.is_alpha (Py.upper_char c) = Py.is_alpha c
  /\ Py.lower_char (Py.lower_char c) = Py.lower_char c
  /\ Py.upper_char (Py.upper_char c) = Py.upper_char c
  /\ Py.lower_char (Py.upper_char c) = Py.lower_char c
  /\ (Py.is_alpha c = false -> Py.lower_char c = c /\ Py.upper_char c = c)
  /\ Py.is_digit (Py.lower_char c) = Py.is_digit c
  /\ Py.is_digit (Py.upper_char c) = Py.is_digit c
  /\ (is_key_char c = true -> Py.lower_char c = c /\ Ascii.eqb c "&" = false
                              /\ key_junk c = false)
  /\ (Py.is_alpha c = true -> Py.is_digit c = false /\ Py.is_space c = false).
Proof.
  destruct c as [[] [] [] [] [] [] [] []]; vm_compute; repeat split; intros; congruence.
Qed.

(** ** Stripping *)

Lemma lstrip_decomp l :
  exists pre, l = pre ++ Py.lstrip_chars l /\ forallb Py.is_space pre = true.
Proof.
  induction l as [|c l (pre & E & Hpre)]; simpl.
  - by exists [].
  - destruct (Py.is_space c) eqn:Hc.
    + exists (c :: pre). simpl. rewrite Hc, Hpre. split; [by f_equal|done].
    + by exists [].
Qed.

Lemma lstrip_head_ok l : head_ok (Py.lstrip_chars l) = true.
Proof.
  induction l as [|c l IH]; simpl; [done|].
  destruct (Py.is_space c) eqn:Hc; [done|]. simpl. by rewrite Hc.
Qed.

Lemma lstrip_id l : head_ok l = true -> Py.lstrip_chars l = l.
Proof. destruct l as [|c l]; simpl; [done|]. by intros ->%negb_true_iff. Qed.

Lemma strip_decomp l :
  exists pre post, l = pre ++ Py.strip_chars l ++ post
    /\ forallb Py.is_space pre = true /\ forallb Py.is_space post = true.
Proof.
  unfold Py.strip_chars.
  destruct (lstrip_decomp l) as (pre & E1 & Hpre).
  destruct (lstrip_decomp (rev (Py.lstrip_chars l))) as (pre2 & E2 & Hpre2).
  exists pre, (rev pre2). split; [|split; [done|by rewrite forallb_rev]].
  rewrite <- rev_app_distr, <- E2, rev_involutive. done.
Qed.

Lemma strip_edges l :
  head_ok (Py.strip_chars l) = true /\ head_ok (rev (Py.strip_chars l)) = true.
Proof.
  unfold Py.strip_chars. split; [|rewrite rev_involutive; apply lstrip_head_ok].
  pose proof (lstrip_head_ok l) as Hm.
  destruct (lstrip_decomp (rev (Py.lstrip_chars l))) as (pre & E & _).
  destruct (Py.lstrip_chars (rev (Py.lstrip_chars l))) as [|x q] eqn:Eq; [done|].
  apply (f_equal (@rev ascii)) in E. rewrite rev_involutive, rev_app_distr in E.
  destruct (rev (x :: q)) as [|y q'] eqn:Er.
  { apply (f_equal (@length ascii)) in Er. rewrite length_rev in Er. done. }
  rewrite E in Hm. done.
Qed.

Lemma strip_id l :
  head_ok l = true -> head_ok (rev l) = true -> Py.strip_chars l = l.
Proof.
  intros H1 H2. unfold Py.strip_chars.
  by rewrite (lstrip_id l H1), (lstrip_id _ H2), rev_involutive.
Qed.

Lemma strip_strip l : Py.strip_chars (Py.strip_chars l) = Py.strip_chars l.
Proof. destruct (strip_edges l). by apply strip_id. Qed.

(** ** The normal form of [_key] *)

Lemma key_chars_spaces pre :
  forallb Py.is_space pre = true -> flat_map key_char pre = [].
Proof.
  induction pre as [|c pre IH]; simpl; [done|].
  intros [Hc Hp]%andb_true_iff. char_cases char_facts c. destruct (Hsp Hc) as (-> & _). by apply IH.
Qed.

Lemma key_chars_strip l :
  flat_map key_char (Py.strip_chars l) = flat_map key_char l.
Proof.
  destruct (strip_decomp l) as (pre & post & E & Hpre & Hpost).
  rewrite E at 2. rewrite !flat_map_app, (key_chars_spaces pre Hpre),
    (key_chars_spaces post Hpost), app_nil_r. done.
Qed.

Lemma filter_junk_sep m :
  List.filter (fun c => negb (key_junk c)) (List.filter (fun c => negb (key_sep c)) m)
  = List.filter (fun c => negb (key_junk c)) m.
Proof.
  rewrite filter_filter_andb. apply filter_ext. intros c. char_cases char_facts c.
  destruct (key_sep c); [by rewrite Hsep|done].
Qed.

Lemma filter_junk_amp m :
  List.filter (fun c => negb (key_junk c))
    (flat_map (fun x => if Ascii.eqb x "&" then Py.chars "and" else [x]) m)
  = flat_map key_char m.
Proof.
  induction m as [|c m IH]; [done|]. cbn [flat_map].
  rewrite List.filter_app, IH. f_equal. unfold key_char.
  destruct (Ascii.eqb c "&"); [done|]. simpl. unfold key_junk.
  rewrite negb_involutive. by destruct (Py.is_lower c || Py.is_digit c).
Qed.

Lemma key_normal_form s :
  _key s = Py.str (flat_map key_char (map Py.lower_char (Py.chars s))).
Proof.
  unfold _key, Py.lower, Py.strip, Py.replace_char, Py.remove_class.
  rewrite !chars_str, filter_junk_sep, filter_junk_amp, key_chars_strip. done.
Qed.

Lemma key_chars_alphabet m : forallb is_key_char (flat_map key_char m) = true.
Proof.
  induction m as [|c m IH]; simpl; [done|].
  rewrite forallb_app, IH, andb_true_r. unfold key_char.
  destruct (Ascii.eqb c "&"); [done|]. unfold is_key_char.
  destruct (Py.is_lower c || Py.is_digit c) eqn:E; simpl; [by rewrite E|done].
Qed.

Lemma key_chars_fixed k :
  forallb is_key_char k = true -> flat_map key_char (map Py.lower_char k) = k.
Proof.
  induction k as [|c k IH]; simpl; [done|].
  intros [Hc Hk]%andb_true_iff. rewrite (IH Hk). char_cases char_facts c.
  destruct (Hkc Hc) as (-> & Hamp & _). unfold key_char. rewrite Hamp.
  unfold is_key_char in Hc. by rewrite Hc.
Qed.

Lemma key_alphabet s : forallb is_key_char (Py.chars (_key s)) = true.
Proof. rewrite key_normal_form, chars_str. apply key_chars_alphabet. Qed.

Lemma key_strip s : _key (Py.strip s) = _key s.
Proof.
  rewrite !key_normal_form. unfold Py.strip. rewrite chars_str.
  destruct (strip_decomp (Py.chars s)) as (pre & post & E & Hpre & Hpost).
  rewrite E at 2. rewrite !map_app, !flat_map_app.
  assert (forall p, forallb Py.is_space p = true ->
            flat_map key_char (map Py.lower_char p) = []) as Hs.
  { intros p Hp. apply key_chars_spaces.
    induction p as [|c p IHp]; [done|]. simpl in *.
    apply andb_true_iff in Hp as [Hc Hp]. char_cases char_facts c.
    by rewrite Hspl, Hc, IHp. }
  by rewrite (Hs pre Hpre), (Hs post Hpost), app_nil_r.
Qed.

(** X1. [_key] works character by character on the text in lower case: an
    ampersand becomes "and", a lower-case letter or a digit is kept, every
    other character is dropped.  So a key holds lower-case letters and digits
    only, the key of a key is the key itself, and neither the blanks around
    the text nor the case of its letters change the key. *)
Theorem key_is_a_normal_form (s : string) :
  _key s = Py.str (flat_map key_char (map Py.lower_char (Py.chars s)))
  /\ forallb is_key_char (Py.chars (_key s)) = true
  /\ _key (_key s) = _key s
  /\ _key (Py.strip s) = _key s
  /\ _key (Py.lower s) = _key s.
Proof.
  split; [apply key_normal_form|]. split; [apply key_alphabet|].
  split.
  { rewrite !key_normal_form, !chars_str.
    by rewrite key_chars_fixed by apply key_chars_alphabet. }
  split; [apply key_strip|].
  rewrite !key_normal_form. unfold Py.lower. rewrite chars_str, map_map. do 2 f_equal.
  apply map_ext. intros c. char_cases char_facts c. done.
Qed.

(** ** Title case and single spaces *)

Lemma collapse_cons r c l :
  collapse r (c :: l) =
  if Py.is_space c then (if r then [] else [" "%char]) ++ collapse true l
  else c :: collapse false l.
Proof. done. Qed.

Lemma collapse_nil r : collapse r [] = [].
Proof. done. Qed.

#[global] Opaque collapse.

Lemma collapse_idem l :
  collapse true (collapse true l) = collapse true l
  /\ collapse false (collapse false l) = collapse false l.
Proof.
  induction l as [|c l [IH1 IH2]]; [done|]. rewrite !collapse_cons.
  destruct (Py.is_space c) eqn:Hc; simpl.
  - split; [done|]. rewrite collapse_cons. simpl. by rewrite IH1.
  - rewrite !collapse_cons, Hc. split; by rewrite IH2.
Qed.

Lemma title_idem l : forall b,
  Py.title_chars b (Py.title_chars b l) = Py.title_chars b l.
Proof.
  induction l as [|c l IH]; intros b; simpl; [done|]. char_cases char_facts c.
  destruct (Py.is_alpha c) eqn:Ha.
  - destruct b; rewrite ?Hal, ?Hau, ?Hll, ?Huu, IH; done.
  - by rewrite Ha, IH.
Qed.

Lemma title_char_space (b : bool) (c : ascii) :
  Py.is_space (if Py.is_alpha c then (if b then Py.lower_char c else Py.upper_char c) else c)
  = Py.is_space c.
Proof. char_cases char_facts c. destruct (Py.is_alpha c), b; done. Qed.

Lemma title_collapse l : forall b r,
  (r = true -> b = false) ->
  Py.title_chars b (collapse r l) = collapse r (Py.title_chars b l).
Proof.
  induction l as [|c l IH]; intros b r Hr; [done|].
  cbn [Py.title_chars]. rewrite !collapse_cons, title_char_space. char_cases char_facts c.
  destruct (Py.is_space c) eqn:Hc.
  - destruct (Hsp eq_refl) as (_ & Ha & _). rewrite Ha.
    destruct r; simpl.
    + rewrite (Hr eq_refl). by apply IH.
    + f_equal. by apply IH.
  - simpl. f_equal. apply IH. discriminate.
Qed.

Lemma title_snoc l : forall b c,
  exists c', Py.title_chars b (l ++ [c]) = Py.title_chars b l ++ [c']
             /\ Py.is_space c' = Py.is_space c.
Proof.
  induction l as [|x l IH]; intros b c; simpl.
  - eexists. split; [done|]. apply title_char_space.
  - destruct (IH (Py.is_alpha x) c) as (c' & -> & Hc'). by exists c'.
Qed.

Lemma collapse_snoc l : forall r c,
  Py.is_space c = false -> collapse r (l ++ [c]) = collapse r l ++ [c].
Proof.
  induction l as [|x l IH]; intros r c Hc; simpl; rewrite !collapse_cons.
  - by rewrite Hc.
  - destruct (Py.is_space x); rewrite IH by done; [|done]. by rewrite app_assoc.
Qed.

Lemma last_cases (l : list ascii) : l = [] \/ exists l0 c, l = l0 ++ [c].
Proof.
  destruct (rev l) as [|c r] eqn:E.
  - left. apply (f_equal (@rev ascii)) in E. by rewrite rev_involutive in E.
  - right. exists (rev r), c. apply (f_equal (@rev ascii)) in E.
    by rewrite rev_involutive in E.
Qed.

Lemma head_ok_rev_snoc l c : head_ok (rev (l ++ [c])) = negb (Py.is_space c).
Proof. by rewrite rev_app_distr. Qed.

Lemma title_edges l b :
  head_ok l = true -> head_ok (rev l) = true ->
  head_ok (Py.title_chars b l) = true /\ head_ok (rev (Py.title_chars b l)) = true.
Proof.
  intros H1 H2. split.
  - destruct l as [|c l]; [done|]. simpl in *. by rewrite title_char_space.
  - destruct (last_cases l) as [->|(l0 & c & ->)]; [done|].
    destruct (title_snoc l0 b c) as (c' & -> & Hc').
    rewrite head_ok_rev_snoc in *. by rewrite Hc'.
Qed.

Lemma collapse_edges l :
  head_ok l = true -> head_ok (rev l) = true ->
  head_ok (collapse false l) = true /\ head_ok (rev (collapse false l)) = true.
Proof.
  intros H1 H2. split.
  - destruct l as [|c l]; [done|]. simpl in *.
    apply negb_true_iff in H1. rewrite collapse_cons, H1. simpl. by rewrite H1.
  - destruct (last_cases l) as [->|(l0 & c & ->)]; [done|].
    rewrite head_ok_rev_snoc in H2. apply negb_true_iff in H2.
    rewrite collapse_snoc, head_ok_rev_snoc by done. by rewrite H2.
Qed.

Lemma title_text_eq l :
  title_text l = Py.title_chars false (collapse false (Py.strip_chars l)).
Proof. done. Qed.

Lemma title_text_edges l :
  head_ok (title_text l) = true /\ head_ok (rev (title_text l)) = true.
Proof.
  rewrite title_text_eq. destruct (strip_edges l) as [H1 H2].
  destruct (collapse_edges _ H1 H2) as [H3 H4]. by apply title_edges.
Qed.

Lemma title_text_idem l : title_text (title_text l) = title_text l.
Proof.
  destruct (title_text_edges l) as [H1 H2].
  rewrite (title_text_eq (title_text l)), (strip_id _ H1 H2), title_text_eq.
  rewrite <- title_collapse by done.
  rewrite (proj2 (collapse_idem _)). apply title_idem.
Qed.

Lemma norm_title_text x :
  norm_title x = if pd_isna x then EmptyString else Py.str (title_text (Py.chars (py_str x))).
Proof.
  unfold norm_title, Py.title, Py.sub_runs, Py.strip, title_text.
  by rewrite !chars_str.
Qed.

(** ** Texts of digits *)

Lemma digits_collapse m : forall r,
  forallb Py.is_digit m = true -> collapse r m = m.
Proof.
  induction m as [|c m IH]; intros r; simpl; [done|].
  intros [Hc Hm]%andb_true_iff. rewrite collapse_cons.
  destruct (digit_char c Hc) as (-> & _). by rewrite IH.
Qed.

Lemma digits_title m : forall b,
  forallb Py.is_digit m = true -> Py.title_chars b m = m.
Proof.
  induction m as [|c m IH]; intros b; simpl; [done|].
  intros [Hc Hm]%andb_true_iff. char_cases char_facts c.
  destruct (Py.is_alpha c) eqn:Ha; [destruct (Had eq_refl); congruence|].
  by rewrite IH.
Qed.

Lemma collapse_digits m :
  forallb Py.is_digit (collapse false m) = forallb Py.is_digit m.
Proof.
  induction m as [|c m IH]; simpl; [done|]. char_cases char_facts c. rewrite collapse_cons.
  destruct (Py.is_space c) eqn:Hc; simpl; [|by rewrite IH].
  by destruct (Hsp eq_refl) as (_ & _ & -> & _).
Qed.

Lemma title_digits m : forall b,
  forallb Py.is_digit (Py.title_chars b m) = forallb Py.is_digit m.
Proof.
  induction m as [|c m IH]; intros b; simpl; [done|]. rewrite IH. f_equal. char_cases char_facts c.
  destruct (Py.is_alpha c), b; done.
Qed.

Lemma title_lower m : forall b,
  map Py.lower_char (Py.title_chars b m) = map Py.lower_char m.
Proof.
  induction m as [|c m IH]; intros b; simpl; [done|]. rewrite IH. f_equal. char_cases char_facts c.
  destruct (Py.is_alpha c), b; done.
Qed.

Lemma collapse_key m : forall r,
  flat_map key_char (map Py.lower_char (collapse r m))
  = flat_map key_char (map Py.lower_char m).
Proof.
  induction m as [|c m IH]; intros r; simpl; [done|]. char_cases char_facts c. rewrite collapse_cons.
  destruct (Py.is_space c) eqn:Hc; simpl; [|by rewrite IH].
  destruct (Hsp eq_refl) as (Hk & _ & _ & ->). rewrite Hk. simpl.
  destruct r; simpl; by rewrite IH.
Qed.

Lemma strip_key l :
  flat_map key_char (map Py.lower_char (Py.strip_chars l))
  = flat_map key_char (map Py.lower_char l).
Proof.
  pose proof (key_strip (Py.str l)) as H.
  rewrite !key_normal_form in H. unfold Py.strip in H. rewrite !chars_str in H.
  apply (f_equal Py.chars) in H. by rewrite !chars_str in H.
Qed.

Lemma title_text_key l :
  flat_map key_char (map Py.lower_char (title_text l))
  = flat_map key_char (map Py.lower_char l).
Proof. rewrite title_text_eq. by rewrite title_lower, collapse_key, strip_key. Qed.

(** The keys of the resolver do not see [norm_title]. *)
Lemma key_title_text l : _key (Py.str (title_text l)) = _key (Py.str l).
Proof. by rewrite !key_normal_form, !chars_str, title_text_key. Qed.

Lemma state_key_title_text l :
  Spec.state_key (Py.str (title_text l)) = Spec.state_key (Py.str l).
Proof.
  unfold Spec.state_key, Py.strip. rewrite !chars_str.
  destruct (title_text_edges l) as [H1 H2]. rewrite (strip_id _ H1 H2).
  unfold Py.digits_at_least, Py.all_digits. rewrite !chars_str, !str_length.
  assert (forallb Py.is_digit (title_text l) = forallb Py.is_digit (Py.strip_chars l))
    as Hd by (rewrite title_text_eq; by rewrite title_digits, collapse_digits).
  destruct (forallb Py.is_digit (Py.strip_chars l)) eqn:E.
  - assert (title_text l = Py.strip_chars l) as ->; [|by rewrite E].
    rewrite title_text_eq. by rewrite digits_collapse, digits_title.
  - rewrite Hd. simpl. rewrite key_title_text.
    pose proof (key_strip (Py.str l)) as H.
    unfold Py.strip in H. by rewrite chars_str in H.
Qed.

Lemma district_key_title_text l :
  Spec.district_key (Py.str (title_text l)) = Spec.district_key (Py.str l).
Proof.
  unfold Spec.district_key.
  rewrite !key_strip.
  apply key_title_text.
Qed.

(** X2. [clean_dataframe] hands the resolver the state and the district
    after [norm_title]; for cells of ASCII text the resolver answers as it
    does on the texts of the cells themselves, a missing cell being the empty
    text: title case and the collapsing of white space change neither of the
    two keys, nor the test for a state of digits.  (Outside ASCII [str.title]
    can change the key: it writes the sharp s as "Ss".) *)
Theorem resolver_ignores_norm_title (state_cell district_cell : option string) :
  Py.ascii_text (cell_text state_cell) = true ->
  Py.ascii_text (cell_text district_cell) = true ->
  canonicalize_region (norm_title (of_raw state_cell)) (norm_title (of_raw district_cell))
  = canonicalize_region (cell_text state_cell) (cell_text district_cell).
Proof.
  intros _ _. rewrite !canonicalize_region_chain. unfold Spec.resolve. do 3 f_equal.
  - destruct state_cell as [s|]; [|done]. rewrite norm_title_text. simpl.
    rewrite state_key_title_text. by rewrite str_chars.
  - destruct district_cell as [d|]; [|done]. rewrite norm_title_text. simpl.
    rewrite district_key_title_text. by rewrite str_chars.
Qed.

Lemma resolver_ignores_norm_title_witness :
  canonicalize_region (norm_title (of_raw (Some "  tamil   NADU ")))
    (norm_title (of_raw None))
  = canonicalize_region (cell_text (Some "  tamil   NADU ")) (cell_text None).
Proof. apply resolver_ignores_norm_title; reflexivity. Defined.

Lemma digits_keep_digits l :
  forallb Py.is_digit l = true -> List.filter (fun c => negb (non_digit c)) l = l.
Proof.
  induction l as [|c l IH]; simpl; [done|].
  intros [Hc Hl]%andb_true_iff. unfold non_digit at 1. rewrite Hc. simpl.
  by rewrite IH.
Qed.

Lemma norm_title_idem x : norm_title (Str (norm_title x)) = norm_title x.
Proof.
  rewrite (norm_title_text (Str _)). simpl. rewrite norm_title_text.
  destruct (pd_isna x); [done|]. by rewrite chars_str, title_text_idem.
Qed.

Lemma norm_pincode_idem x : norm_pincode (Str (norm_pincode x)) = norm_pincode x.
Proof.
  pose proof (norm_pincode_digits x) as H.
  unfold norm_pincode at 1. simpl. rewrite (digits_strip _ H).
  unfold Py.remove_class. rewrite <- (str_chars (norm_pincode x)) at 2. f_equal.
  unfold Py.all_digits in H. by apply digits_keep_digits.
Qed.

(** X3. Cleaning a cleaned cell again, as the merge does with the cells
    read back from a table, returns the cell: [norm_pincode] is idempotent,
    and so is [norm_title] on ASCII text.  (Outside ASCII [str.title] is not:
    a letter whose title case ends in a combining mark starts a new word
    after it.) *)
Theorem renormalisation_is_stable (x : value) :
  (Py.ascii_text (py_str x) = true -> norm_title (Str (norm_title x)) = norm_title x)
  /\ norm_pincode (Str (norm_pincode x)) = norm_pincode x.
Proof.
  split; [intros _; apply norm_title_idem|apply norm_pincode_idem].
Qed.

Lemma renormalisation_is_stable_witness :
  norm_title (Str (norm_title (Str " new   delhi "))) = norm_title (Str " new   delhi ").
Proof.
  apply (proj1 (renormalisation_is_stable (Str " new   delhi "))). reflexivity.
Defined.

(** ** More on the resolver *)

Lemma district_resolves_spec ut d :
  district_resolves ut d = true -> canonicalize_region EmptyString d = Ok (UT, ut).
Proof.
  unfold district_resolves.
  destruct (canonicalize_region EmptyString d) as [[[] n]|]; try done.
  by intros ->%String.eqb_eq.
Qed.

Lemma key_has_no_underscore s : ~ In "_"%char (Py.chars (_key s)).
Proof.
  intros H. pose proof (key_alphabet s) as Ha.
  rewrite forallb_forall in Ha. apply Ha in H. discriminate H.
Qed.

(** X4. Every key of [UT_DISTRICT_MAP], given as the district of a row
    without a state, resolves to the union territory the table gives for it;
    and no text has the key "south_east_delhi", which holds underscores: that
    entry of the table is never the one that is found. *)
Theorem district_map_resolves :
  (forall d ut, (d, ut) ∈ UT_DISTRICT_MAP ->
                canonicalize_region EmptyString d = Ok (UT, ut))
  /\ (forall s, _key s <> "south_east_delhi").
Proof.
  assert (forall s, _key s <> "south_east_delhi") as Hdead.
  { intros s H. apply (key_has_no_underscore s). rewrite H. vm_compute. tauto. }
  split; [|exact Hdead].
  intros d ut Hd. apply district_resolves_spec.
  assert (forallb (fun du => district_resolves (snd du) (fst du)) UT_DISTRICT_MAP = true)
    as H by (vm_compute; reflexivity).
  rewrite forallb_forall in H. by apply list_elem_of_In, H in Hd.
Qed.

Lemma district_map_resolves_witness :
  canonicalize_region EmptyString "kargil" = Ok (UT, "Ladakh").
Proof.
  apply (proj1 district_map_resolves). apply list_elem_of_In. vm_compute. tauto.
Defined.

Lemma dict_in_alias_lookup k :
  dict_in k REGION_ALIASES = true -> Spec.alias_lookup k <> None.
Proof.
  intros H. apply dict_in_find in H as [v Hv]. unfold Spec.alias_lookup, Spec.typed.
  rewrite Hv. apply dict_find_key in Hv as [_ Hv].
  pose proof alias_values_canonical as Hc. rewrite Forall_forall in Hc.
  destruct (Hc v Hv) as [H|H]; apply mem_elem_of in H; rewrite H; [done|].
  by destruct (Py.mem v STATES_28).
Qed.

Lemma dict_in_exact_lookup k :
  dict_in k STATE_KEY_TO_NAME = true \/ dict_in k UT_KEY_TO_NAME = true ->
  Spec.exact_lookup k <> None.
Proof.
  unfold Spec.exact_lookup. intros [H|H]; apply dict_in_find in H as [v Hv].
  - by rewrite Hv.
  - rewrite Hv. by destruct (dict_find STATE_KEY_TO_NAME k).
Qed.

(** X5. When the key of the state is an alias or the key of a canonical
    name, the state decides alone: the district plays no part. *)
Theorem known_state_ignores_district (state_raw d1 d2 : string) :
  let sk := Spec.state_key state_raw in
  dict_in sk REGION_ALIASES = true \/ dict_in sk STATE_KEY_TO_NAME = true
    \/ dict_in sk UT_KEY_TO_NAME = true ->
  canonicalize_region state_raw d1 = canonicalize_region state_raw d2.
Proof.
  intros sk H. rewrite !canonicalize_region_chain. unfold Spec.resolve, Spec.chain.
  fold sk. cbn [Spec.first_hit].
  destruct (Spec.alias_lookup sk) eqn:Ea; [done|].
  destruct (Spec.exact_lookup sk) eqn:Ee; [done|].
  exfalso. destruct H as [H|H].
  - by apply dict_in_alias_lookup in H.
  - by apply dict_in_exact_lookup in H.
Qed.

Lemma known_state_ignores_district_witness :
  canonicalize_region "orissa" "New Delhi" = canonicalize_region "orissa" "Leh".
Proof.
  apply (known_state_ignores_district "orissa"). left. vm_compute. reflexivity.
Defined.

(** X6. When the key of the state is empty, only the district decides, by
    the district table, the "delhi" test, the aliases and the canonical
    names, in this order; the two fuzzy steps find nothing for an empty
    key. *)
Theorem empty_state_key_uses_district_only (state_raw district_raw : string) :
  Spec.state_key state_raw = EmptyString ->
  canonicalize_region state_raw district_raw =
  Ok (Spec.first_hit
        [ Spec.district_lookup (Spec.district_key district_raw);
          Spec.delhi_catch_all (Spec.district_key district_raw);
          Spec.alias_lookup (Spec.district_key district_raw);
          Spec.exact_lookup (Spec.district_key district_raw) ]).
Proof.
  intros H. rewrite canonicalize_region_chain. unfold Spec.resolve, Spec.chain.
  rewrite H.
  assert (Spec.alias_lookup EmptyString = None) as -> by (vm_compute; reflexivity).
  assert (Spec.exact_lookup EmptyString = None) as -> by (vm_compute; reflexivity).
  assert (Spec.fuzzy_lookup STATE STATE_KEY_TO_NAME EmptyString = None) as ->
    by (vm_compute; reflexivity).
  assert (Spec.fuzzy_lookup UT UT_KEY_TO_NAME EmptyString = None) as ->
    by (vm_compute; reflexivity).
  cbn [Spec.first_hit].
  destruct (Spec.district_lookup _); [done|]. destruct (Spec.delhi_catch_all _); [done|].
  destruct (Spec.alias_lookup _); [done|]. by destruct (Spec.exact_lookup _).
Qed.

Lemma empty_state_key_uses_district_only_witness :
  canonicalize_region "110001" "Gujrat" = Ok (UNKNOWN, EmptyString).
Proof.
  rewrite (empty_state_key_uses_district_only "110001" "Gujrat");
    vm_compute; reflexivity.
Defined.

(** ** Folder names *)

Lemma forallb_sub_runs (P cls : ascii -> bool) t l : forall b,
  forallb P t = true -> forallb P l = true ->
  forallb P (Py.sub_runs_chars cls t b l) = true.
Proof.
  induction l as [|c l IH]; intros b Ht; simpl; [done|].
  intros [Hc Hl]%andb_true_iff.
  destruct (cls c).
  - rewrite forallb_app, IH by done. destruct b; [done|]. by rewrite Ht.
  - simpl. by rewrite Hc, IH.
Qed.

Lemma safe_char_facts c :
  (bad_filename_char c = false ->
     safe_char c = true \/ c = " "%char)
  /\ (safe_char c = true -> c <> "/"%char /\ c <> "."%char /\ c <> " "%char
                            /\ c <> "\"%char).
Proof.
  destruct c as [[] [] [] [] [] [] [] []]; vm_compute; split; intros;
    try congruence; try (repeat split; congruence); try (by left); try (by right).
Qed.

Lemma safe_folder_chars l :
  forallb safe_char
    (flat_map (fun x => if Ascii.eqb x " " then Py.chars "_" else [x])
       (List.filter (fun c => negb (bad_filename_char c)) l)) = true.
Proof.
  induction l as [|c l IH]; [done|]. cbn [List.filter].
  destruct (bad_filename_char c) eqn:Hb; [done|]. cbn [negb flat_map].
  rewrite forallb_app, IH, andb_true_r.
  destruct (proj1 (safe_char_facts c) Hb) as [H| ->]; [|done].
  destruct (Ascii.eqb c " "); [done|]. simpl. by rewrite H.
Qed.

(** X7. [safe_folder_name] never returns the empty text, and what it
    returns holds letters, digits, underscores and hyphens only: no path
    separator, no dot and no space. *)
Theorem safe_folder_name_is_safe (name : string) :
  safe_folder_name name <> EmptyString
  /\ forallb safe_char (Py.chars (safe_folder_name name)) = true
  /\ (forall c, In c (Py.chars (safe_folder_name name)) ->
        c <> "/"%char /\ c <> "."%char /\ c <> " "%char /\ c <> "\"%char).
Proof.
  assert (forallb safe_char (Py.chars (safe_folder_name name)) = true) as Hs.
  { unfold safe_folder_name.
    destruct (String.eqb _ EmptyString); [done|].
    unfold Py.sub_runs, Py.replace_char at 1, Py.remove_class.
    rewrite !chars_str. apply forallb_sub_runs; [done|]. apply safe_folder_chars. }
  split; [|split; [done|]].
  - unfold safe_folder_name. destruct (String.eqb_spec
      (Py.sub_runs is_underscore "_"
         (Py.replace_char " " "_"
            (Py.remove_class bad_filename_char
               (Py.replace_char "&" "and" (Py.strip name))))) EmptyString); done.
  - intros c Hc. rewrite forallb_forall in Hs.
    by apply (proj2 (safe_char_facts c)), Hs.
Qed.

(** ** The folders of the regions *)

Lemma folders_checked :
  forallb (fun r1 =>
     forallb (fun r2 =>
        implb (String.eqb (folder_of r1) (folder_of r2)) (bool_decide (r1 = r2)))
       ALL_REGIONS
     && negb (String.eqb (folder_of r1) (get_output_folder UNKNOWN EmptyString))
     && Py.mem (folder_of r1) ensure_base_folders)
    ALL_REGIONS = true.
Proof. vm_compute. reflexivity. Qed.

Lemma folder_inj r1 r2 :
  r1 ∈ ALL_REGIONS -> r2 ∈ ALL_REGIONS ->
  get_output_folder (fst r1) (snd r1) = get_output_folder (fst r2) (snd r2) ->
  r1 = r2.
Proof.
  pose proof folders_checked as H. rewrite forallb_forall in H.
  intros H1 H2 E. apply list_elem_of_In, H in H1.
  apply andb_true_iff in H1 as [[H1 _]%andb_true_iff _].
  rewrite forallb_forall in H1. apply list_elem_of_In, H1 in H2.
  unfold folder_of in H2. rewrite E, String.eqb_refl in H2.
  by apply bool_decide_eq_true in H2.
Qed.

(** X8. The 36 regions have 36 folders: two regions never share the folder
    [get_output_folder] gives them, none has the folder of the unknown
    regions, and [ensure_base_folders] creates every one of them. *)
Theorem region_folders_are_distinct :
  (forall r1 r2, r1 ∈ ALL_REGIONS -> r2 ∈ ALL_REGIONS ->
                 get_output_folder (fst r1) (snd r1) = get_output_folder (fst r2) (snd r2) ->
                 r1 = r2)
  /\ (forall r n, r ∈ ALL_REGIONS ->
                  get_output_folder (fst r) (snd r) <> get_output_folder UNKNOWN n)
  /\ (forall r, r ∈ ALL_REGIONS ->
                get_output_folder (fst r) (snd r) ∈ ensure_base_folders).
Proof.
  pose proof folders_checked as H. rewrite forallb_forall in H.
  split; [exact folder_inj|split].
  - intros r n Hr E. apply list_elem_of_In, H in Hr.
    apply andb_true_iff in Hr as [[_ Hr]%andb_true_iff _].
    unfold folder_of in Hr. change (get_output_folder UNKNOWN n)
      with (get_output_folder UNKNOWN EmptyString) in E.
    by rewrite E, String.eqb_refl in Hr.
  - intros r Hr. apply list_elem_of_In, H in Hr.
    apply andb_true_iff in Hr as [_ Hr]. by apply mem_elem_of in Hr.
Qed.

Lemma region_folders_are_distinct_witness :
  get_output_folder STATE "Goa" <> get_output_folder UT "Delhi".
Proof.
  intros E.
  assert ((STATE, "Goa") = (UT, "Delhi")) as H; [|discriminate H].
  apply (proj1 region_folders_are_distinct (STATE, "Goa") (UT, "Delhi"));
    [apply list_elem_of_In; vm_compute; tauto
    |apply list_elem_of_In; vm_compute; tauto
    |exact E].
Defined.

(** ** [clean_dataframe] *)

Lemma result_mapM_Forall2 {A B} (f : A -> result B) l : forall ys,
  result_mapM f l = Ok ys -> Forall2 (fun x y => f x = Ok y) l ys.
Proof.
  induction l as [|x l IH]; simpl; intros ys.
  - intros [= <-]. constructor.
  - destruct (f x) as [y|] eqn:E; [|discriminate]. simpl_bind.
    destruct (result_mapM f l) as [ys'|]; [|discriminate]. simpl_bind.
    intros [= <-]. constructor; [done|]. by apply IH.
Qed.

Lemma result_mapM_total {A B} (f : A -> result B) l :
  (forall x, exists y, f x = Ok y) -> exists ys, result_mapM f l = Ok ys.
Proof.
  intros Hf. induction l as [|x l [ys IH]]; simpl; [eauto|].
  destruct (Hf x) as [y ->]. rewrite IH. simpl_bind. eauto.
Qed.

Lemma combine_Forall2 {A B} (Q : A -> B -> Prop) l1 l2 a b :
  Forall2 Q l1 l2 -> In (a, b) (combine l1 l2) -> Q a b.
Proof.
  induction 1 as [|x y l1 l2 Hxy _ IH]; simpl; [done|].
  intros [[= <- <-]|H]; [done|]. by apply IH.
Qed.

Lemma combine_drop_middle {A B C} (l1 : list A) : forall (l3 : list C) (l2 : list B) x z y,
  In ((x, z), y) (combine (combine l1 l3) l2) -> In (x, y) (combine l1 l2).
Proof.
  induction l1 as [|a l1 IH]; intros [|c l3] [|b l2] x z y; simpl; try done.
  intros [[= <- <- <-]|H]; [by left|]. right. by eapply IH.
Qed.

Section CleanFrame.
Context `{P : Pandas}.

Lemma lacks_required_column_dec df :
  List.filter (fun c => negb (Py.mem c (map clean_col (columns df)))) REQUIRED = []
  <-> ~ lacks_required_column df.
Proof.
  split.
  - intros E (c & Hc & Hmiss).
    assert (In c (List.filter (fun c => negb (Py.mem c (map clean_col (columns df))))
                    REQUIRED)) as Hin.
    { apply filter_In. split; [by apply list_elem_of_In|].
      apply negb_true_iff. destruct (Py.mem _ _) eqn:Em; [|done].
      by apply mem_elem_of in Em. }
    by rewrite E in Hin.
  - intros Hn. destruct (List.filter _ REQUIRED) as [|c l] eqn:E; [done|].
    exfalso. apply Hn. exists c.
    assert (In c (c :: l)) as Hin by (by left). rewrite <- E in Hin.
    apply filter_In in Hin as [Hin Hm]. split; [by apply list_elem_of_In|].
    intros Hc%mem_elem_of. by rewrite Hc in Hm.
Qed.

Lemma clean_dataframe_rows df cleaned :
  clean_dataframe df = Ok cleaned ->
  length cleaned = length (rows df)
  /\ (forall r, r ∈ cleaned ->
        canonicalize_region (state (row r)) (district (row r))
        = Ok (_region_type r, region_name_of r)
        /\ _region_name r <> Some EmptyString).
Proof.
  unfold clean_dataframe. destruct (List.filter _ REQUIRED); [|discriminate].
  destruct (bool_decide (NoDup _)); cbn [negb]; [|discriminate].
  destruct (result_mapM _ _) as [regions|] eqn:Em; [|discriminate].
  simpl_bind. intros [= <-].
  apply result_mapM_Forall2 in Em. split.
  - pose proof (Forall2_length _ _ _ Em) as Hlen.
    rewrite length_combine, !length_map in Hlen.
    rewrite length_map, !length_combine, parse_dates_strong_length, !length_map.
    unfold region in *. lia.
  - intros r Hr.
    apply list_elem_of_In, in_map_iff in Hr as ([[[[[s d] p] dt] ms] [t name]] & <- & Hin).
    do 3 apply combine_drop_middle in Hin.
    apply (combine_Forall2 _ _ _ _ _ Em) in Hin. simpl in Hin.
    unfold region_name_of. simpl. rewrite Hin.
    destruct (String.eqb_spec name EmptyString) as [->|Hne]; [done|].
    split; [done|congruence].
Qed.

Lemma clean_dataframe_total df :
  ~ lacks_required_column df -> NoDup (map clean_col (columns df)) ->
  exists cleaned, clean_dataframe df = Ok cleaned.
Proof.
  intros Hn%lacks_required_column_dec Hd. unfold clean_dataframe. rewrite Hn.
  rewrite (bool_decide_eq_true_2 _ Hd). cbn [negb].
  destruct (result_mapM_total
              (fun sd : string * string => canonicalize_region (fst sd) (snd sd))
              (combine
                 (map (fun r => norm_title (of_raw (cell_of (map clean_col (columns df))
                                                      "state" r))) (rows df))
                 (map (fun r => norm_title (of_raw (cell_of (map clean_col (columns df))
                                                      "district" r))) (rows df))))
    as [regions ->].
  { intros [s d]. rewrite canonicalize_region_chain. eauto. }
  simpl_bind. eauto.
Qed.

Lemma clean_row_region r :
  canonicalize_region (state (row r)) (district (row r))
    = Ok (_region_type r, region_name_of r) ->
  _region_name r <> Some EmptyString ->
  match _region_name r with
  | Some n => (_region_type r = STATE /\ n ∈ STATES_28)
              \/ (_region_type r = UT /\ n ∈ UTS_8)
  | None => True
  end.
Proof.
  intros H Hne. pose proof (resolve_in_range (state (row r)) (district (row r))) as Hr.
  rewrite canonicalize_region_chain in H. injection H as H. rewrite H in Hr.
  unfold region_name_of in *. destruct (_region_name r) as [n|] eqn:En; [|done].
  simpl in Hr. destruct (_region_type r); [by left|by right|]. by subst n.
Qed.

End CleanFrame.

(** ** The counters *)

Lemma filter_length_le {A} (f : A -> bool) l : (length (List.filter f l) <= length l)%nat.
Proof. induction l as [|x l IH]; simpl; [done|]. destruct (f x); simpl; lia. Qed.

Lemma filter_split_length {A} (f g : A -> bool) l :
  (forall x, In x l -> xorb (f x) (g x) = true) ->
  (length (List.filter f l) + length (List.filter g l) = length l)%nat.
Proof.
  induction l as [|x l IH]; intros H; simpl; [done|].
  pose proof (H x (or_introl eq_refl)) as Hx.
  assert (forall y, In y l -> xorb (f y) (g y) = true) as Hl by (intros y Hy; apply H; by right).
  specialize (IH Hl). destruct (f x), (g x); simpl in *; try discriminate; lia.
Qed.

Section CounterFacts.
Context `{P : Pandas}.

Lemma mapped_rows_split cleaned df :
  clean_dataframe df = Ok cleaned ->
  (length (state_rows cleaned) + length (ut_rows cleaned)
   = length (mapped_rows cleaned))%nat.
Proof.
  intros Hc. unfold state_rows, ut_rows. apply filter_split_length.
  intros r Hr. unfold mapped_rows, valid_date_rows in Hr.
  apply filter_In in Hr as [Hr Hname]. apply filter_In in Hr as [Hr _].
  destruct (proj2 (clean_dataframe_rows df cleaned Hc) r) as [Hreg Hne];
    [by apply list_elem_of_In|].
  pose proof (clean_row_region r Hreg Hne) as H.
  unfold name_isin, STATES_28_SET, UTS_8_SET.
  destruct (_region_name r) as [n|]; [|done].
  destruct H as [[-> Hn]|[-> Hn]]; apply mem_elem_of in Hn; rewrite Hn; done.
Qed.

Lemma file_counts_accounted df c :
  file_counts df = Ok c -> accounted c /\ TOTAL_READ c = len (rows df).
Proof.
  unfold file_counts. destruct (clean_dataframe df) as [cleaned|] eqn:Hc; [|discriminate].
  simpl_bind. intros [= <-].
  pose proof (mapped_rows_split cleaned df Hc) as Hsplit.
  pose proof (proj1 (clean_dataframe_rows df cleaned Hc)) as Hlen.
  pose proof (filter_length_le (fun r => notna (date (row r))) cleaned) as H1.
  pose proof (filter_length_le (fun r => notna (_region_name r)) (valid_date_rows cleaned))
    as H2.
  unfold accounted, total_accounted, len. simpl.
  fold (valid_date_rows cleaned) in H1. fold (mapped_rows cleaned) in H2.
  repeat split; lia.
Qed.

Lemma add_counts_accounted g c : accounted g -> accounted c -> accounted (add_counts g c).
Proof. unfold accounted, total_accounted, add_counts. simpl. lia. Qed.

Lemma run_counts_accounted files : forall g g',
  accounted g -> run_counts files g = Ok g' -> accounted g'.
Proof.
  induction files as [|[file df] files IH]; intros g g' Hg; simpl.
  - by intros [= <-].
  - destruct (file_counts df) as [c|] eqn:Hc; [|discriminate]. simpl_bind.
    apply IH, add_counts_accounted; [done|]. by apply (file_counts_accounted df).
Qed.

Lemma process_file_eq file df fs :
  process_file file df fs =
  (cleaned ← clean_dataframe df;
   Ok (write_groups UT (infer_dataset file) (ut_rows cleaned)
         (write_groups STATE (infer_dataset file) (state_rows cleaned) fs))).
Proof. done. Qed.

Lemma run_counts_main_loop files : forall fs g,
  (exists fs', main_loop files fs = (fs', Ok tt)) <-> (exists g', run_counts files g = Ok g').
Proof.
  induction files as [|[file df] files IH]; intros fs g; simpl; [split; eauto|].
  rewrite process_file_eq. unfold file_counts.
  destruct (clean_dataframe df) as [cleaned|]; simpl_bind.
  - apply IH.
  - split; intros [x H]; discriminate.
Qed.

End CounterFacts.

(** X9. The counters of a run that reaches its end: the rows written for
    states and union territories and the rows omitted for their date or their
    region add up to the rows read, which are the rows of the input files; no
    row is ever counted as mapped but not allowed; no counter of omitted rows
    is negative. *)
Theorem counters_account_for_every_record (P : Pandas)
    (files : list (string * RawFrame)) (g : Counts) :
  run_counts files no_counts = Ok g ->
  total_accounted g = TOTAL_READ g
  /\ OMIT_MAPPED_NOT_ALLOWED g = 0%Z
  /\ (0 <= OMIT_INVALID_DATE g)%Z
  /\ (0 <= OMIT_UNMAPPED_REGION g)%Z
  /\ VALID_DATE g = (STATE_WRITTEN g + UT_WRITTEN g + OMIT_UNMAPPED_REGION g)%Z
  /\ TOTAL_READ g = fold_right Z.add 0%Z (map (fun f => len (rows (snd f))) files).
Proof.
  intros H.
  assert (accounted no_counts) as H0 by (unfold accounted, total_accounted; simpl; lia).
  destruct (run_counts_accounted files no_counts g H0 H) as (H1 & H2 & H3 & H4 & _ & _ & H5).
  repeat (split; [done|]).
  assert (forall files g0 g, run_counts files g0 = Ok g ->
            TOTAL_READ g = (TOTAL_READ g0
              + fold_right Z.add 0 (map (fun f => len (rows (snd f))) files))%Z) as Ht.
  { clear. induction files as [|[file df] files IH]; intros g0 g; simpl.
    - intros [= <-]. lia.
    - destruct (file_counts df) as [c|] eqn:Hc; [|discriminate]. simpl_bind.
      intros Hr. apply IH in Hr. apply file_counts_accounted in Hc as [_ Hc].
      rewrite Hr. simpl. lia. }
  rewrite (Ht files no_counts g H). simpl. lia.
Qed.

Lemma counters_account_for_every_record_witness :
  total_accounted (mkCounts 2 1 1 0 1 0 0) = 2%Z.
Proof.
  assert (run_counts (P:=PandasModel.pandas)
            [Examples.complete_file; no_pincode_date_file] no_counts
          = Ok (mkCounts 2 1 1 0 1 0 0)) as H by (vm_compute; reflexivity).
  exact (proj1 (counters_account_for_every_record PandasModel.pandas _ _ H)).
Defined.

(** ** The tables one file writes *)

Lemma chars_append a b : Py.chars (a +:+ b) = Py.chars a ++ Py.chars b.
Proof. induction a as [|c a IH]; simpl; [done|]. by rewrite <- IH. Qed.

Lemma append_inv_tail a b t : a +:+ t = b +:+ t -> a = b.
Proof.
  intros H. apply (f_equal Py.chars) in H. rewrite !chars_append in H.
  apply app_inv_tail in H. by rewrite <- (str_chars a), <- (str_chars b), H.
Qed.

Lemma path_join_inv_folder a b name : path_join a name = path_join b name -> a = b.
Proof. unfold path_join. apply append_inv_tail. Qed.

(** Two regions have two tables. *)

Lemma region_table_inj dataset r1 r2 :
  r1 ∈ ALL_REGIONS -> r2 ∈ ALL_REGIONS ->
  region_table dataset (fst r1) (snd r1) = region_table dataset (fst r2) (snd r2) ->
  r1 = r2.
Proof.
  intros H1 H2 E. apply path_join_inv_folder in E.
  by apply folder_inj.
Qed.

Lemma state_region n : n ∈ STATES_28 -> (STATE, n) ∈ ALL_REGIONS.
Proof.
  intros H. unfold ALL_REGIONS. apply elem_of_app. left.
  apply list_elem_of_In, in_map. by apply list_elem_of_In.
Qed.

Lemma ut_region n : n ∈ UTS_8 -> (UT, n) ∈ ALL_REGIONS.
Proof.
  intros H. unfold ALL_REGIONS. apply elem_of_app. right.
  apply list_elem_of_In, in_map. by apply list_elem_of_In.
Qed.

Lemma all_regions_inv t n :
  (t, n) ∈ ALL_REGIONS -> (t = STATE /\ n ∈ STATES_28) \/ (t = UT /\ n ∈ UTS_8).
Proof.
  unfold ALL_REGIONS. intros [H|H]%elem_of_app;
    apply list_elem_of_In, in_map_iff in H as (x & [= <- <-] & Hx);
    apply list_elem_of_In in Hx; auto.
Qed.

(** *** The names of the groups *)

Lemma insert_name_elem x l y : y ∈ insert_name x l <-> y = x \/ y ∈ l.
Proof.
  induction l as [|z l IH]; simpl.
  - rewrite list_elem_of_singleton, elem_of_nil. tauto.
  - destruct (String.compare x z) eqn:E.
    + apply String.compare_eq_iff in E as ->. rewrite elem_of_cons. tauto.
    + rewrite !elem_of_cons. tauto.
    + rewrite !elem_of_cons, IH. tauto.
Qed.

Lemma insert_name_sorted x l :
  StronglySorted str_lt l -> StronglySorted str_lt (insert_name x l).
Proof.
  induction 1 as [|z l Hl IH Hz]; simpl; [repeat constructor|].
  destruct (String.compare x z) eqn:E.
  - by constructor.
  - constructor; [by constructor|]. constructor; [done|].
    eapply Forall_impl; [exact Hz|]. intros y Hy.
    by apply (cmp_lt_trans (cmp:=String.compare) x z y).
  - constructor; [done|]. apply Forall_forall. intros y Hy.
    apply insert_name_elem in Hy as [->|Hy].
    + by apply (cmp_gt_lt String.compare).
    + rewrite Forall_forall in Hz. by apply Hz.
Qed.

Lemma sorted_lt_NoDup l : StronglySorted str_lt l -> NoDup l.
Proof.
  induction 1 as [|z l Hl IH Hz]; constructor; [|done].
  intros Hin. rewrite Forall_forall in Hz. specialize (Hz z Hin).
  unfold str_lt in Hz. by rewrite string_compare_refl in Hz.
Qed.

Section Routing.
Context `{P : Pandas}.

Lemma group_names_sorted df : StronglySorted str_lt (group_names df).
Proof.
  induction df as [|r df IH]; simpl; [constructor|].
  destruct (_region_name r); [by apply insert_name_sorted|done].
Qed.

Lemma group_names_elem df n :
  n ∈ group_names df <-> exists r, r ∈ df /\ _region_name r = Some n.
Proof.
  induction df as [|r df IH]; simpl.
  - split; [by intros ?%elem_of_nil|]. by intros (r & ?%elem_of_nil & _).
  - destruct (_region_name r) as [m|] eqn:E.
    + rewrite insert_name_elem, IH. split.
      * intros [->|(r' & Hr' & Hn)]; [exists r|exists r'];
          (split; [|done]); [apply list_elem_of_here|by apply list_elem_of_further].
      * intros (r' & [->|Hr']%elem_of_cons & Hn); [left; congruence|right; eauto].
    + rewrite IH. split.
      * intros (r' & Hr' & Hn). exists r'. split; [by apply list_elem_of_further|done].
      * intros (r' & [->|Hr']%elem_of_cons & Hn); [congruence|eauto].
Qed.

Lemma groupby_eq df :
  groupby_region_name df = map (fun n => (n, List.filter (named n) df)) (group_names df).
Proof. done. Qed.

Lemma merge_write_dataset_eq t n dataset sdf fs :
  merge_write_dataset (get_output_folder t n) dataset sdf fs
  = <[ region_table dataset t n :=
         to_csv (merged (old_rows (fs !! region_table dataset t n)) sdf) ]> fs.
Proof. done. Qed.

(** Writing the groups of some names leaves the other paths as they were,
    and gives every name its table. *)
Lemma write_names_other t dataset df names : forall fs p,
  (forall n, n ∈ names -> region_table dataset t n <> p) ->
  fold_left (fun fs g =>
               merge_write_dataset (get_output_folder t (fst g)) dataset
                 (map row (snd g)) fs)
    (map (fun n => (n, List.filter (named n) df)) names) fs !! p = fs !! p.
Proof.
  induction names as [|n names IH]; intros fs p Hp; simpl; [done|].
  rewrite IH by (intros m Hm; apply Hp; by apply list_elem_of_further).
  rewrite merge_write_dataset_eq, lookup_insert_ne; [done|].
  apply Hp, list_elem_of_here.
Qed.

Lemma write_names_hit t dataset df names : forall fs n,
  NoDup (map (region_table dataset t) names) -> n ∈ names ->
  fold_left (fun fs g =>
               merge_write_dataset (get_output_folder t (fst g)) dataset
                 (map row (snd g)) fs)
    (map (fun n => (n, List.filter (named n) df)) names) fs
    !! region_table dataset t n
  = Some (to_csv (merged (old_rows (fs !! region_table dataset t n))
                    (map row (List.filter (named n) df)))).
Proof.
  induction names as [|m names IH]; intros fs n Hnd Hn; simpl.
  { by apply elem_of_nil in Hn. }
  simpl in Hnd. apply NoDup_cons in Hnd as [Hm Hnd].
  destruct (decide (region_table dataset t n = region_table dataset t m)) as [E|E].
  - rewrite write_names_other.
    + rewrite merge_write_dataset_eq, <- E, lookup_insert_eq.
      assert (n = m) as <-; [|done].
      apply elem_of_cons in Hn as [Hn|Hn]; [done|]. exfalso. apply Hm.
      rewrite <- E. apply list_elem_of_In, in_map. by apply list_elem_of_In.
    + intros k Hk Ek. apply Hm. rewrite <- E, <- Ek.
      apply list_elem_of_In, in_map. by apply list_elem_of_In.
  - apply elem_of_cons in Hn as [->|Hn]; [done|].
    rewrite (IH _ n Hnd Hn), merge_write_dataset_eq, lookup_insert_ne by done. done.
Qed.

Lemma named_nil df n : n ∉ group_names df -> List.filter (named n) df = [].
Proof.
  intros Hn. apply filter_nil_iff. intros r Hr. unfold named.
  apply bool_decide_eq_false. intros E. apply Hn, group_names_elem. eauto.
Qed.

Lemma named_not_nil df n : n ∈ group_names df -> List.filter (named n) df <> [].
Proof.
  intros (r & Hr & E)%group_names_elem H.
  assert (r ∈ List.filter (named n) df) as Hin.
  { apply filter_elem_of. split; [done|]. by apply bool_decide_eq_true. }
  rewrite H in Hin. by apply elem_of_nil in Hin.
Qed.

(** One call of [write_groups] on rows whose names are regions of type [t] *)
Lemma write_groups_lookup t dataset df fs :
  (forall r n, r ∈ df -> _region_name r = Some n -> (t, n) ∈ ALL_REGIONS) ->
  (forall n, (t, n) ∈ ALL_REGIONS ->
     write_groups t dataset df fs !! region_table dataset t n =
     match List.filter (named n) df with
     | [] => fs !! region_table dataset t n
     | (_ :: _) as g =>
         Some (to_csv (merged (old_rows (fs !! region_table dataset t n)) (map row g)))
     end)
  /\ (forall p, (forall n, (t, n) ∈ ALL_REGIONS -> region_table dataset t n <> p) ->
        write_groups t dataset df fs !! p = fs !! p).
Proof.
  intros Hdf. unfold write_groups. rewrite groupby_eq.
  assert (forall n, n ∈ group_names df -> (t, n) ∈ ALL_REGIONS) as Hnames.
  { intros n (r & Hr & E)%group_names_elem. eauto. }
  split.
  - intros n Hn. destruct (decide (n ∈ group_names df)) as [Hin|Hout].
    + rewrite write_names_hit; [|..|done].
      * pose proof (named_not_nil df n Hin). by destruct (List.filter (named n) df).
      * apply (NoDup_fmap_2_strong (region_table dataset t)).
        -- intros x y Hx Hy E.
           assert ((t, x) = (t, y)) as [= ->]; [|done].
           apply (region_table_inj dataset (t, x) (t, y)); auto.
        -- apply sorted_lt_NoDup, group_names_sorted.
    + rewrite (named_nil df n Hout). apply write_names_other.
      intros m Hm E. apply Hout.
      assert ((t, m) = (t, n)) as [= ->]; [|done].
      apply (region_table_inj dataset (t, m) (t, n)); auto.
  - intros p Hp. apply write_names_other. intros n Hn. by apply Hp, Hnames.
Qed.

Lemma state_rows_regions df r n :
  r ∈ state_rows df -> _region_name r = Some n -> (STATE, n) ∈ ALL_REGIONS.
Proof.
  intros Hr E. apply filter_elem_of in Hr as [_ Hr].
  apply andb_true_iff in Hr as [_ Hr]. unfold name_isin in Hr. rewrite E in Hr.
  by apply state_region, mem_elem_of.
Qed.

Lemma ut_rows_regions df r n :
  r ∈ ut_rows df -> _region_name r = Some n -> (UT, n) ∈ ALL_REGIONS.
Proof.
  intros Hr E. apply filter_elem_of in Hr as [_ Hr].
  apply andb_true_iff in Hr as [_ Hr]. unfold name_isin in Hr. rewrite E in Hr.
  by apply ut_region, mem_elem_of.
Qed.

Lemma tables_differ dataset t n t' n' :
  (t, n) ∈ ALL_REGIONS -> (t', n') ∈ ALL_REGIONS -> t <> t' ->
  region_table dataset t' n' <> region_table dataset t n.
Proof.
  intros H1 H2 Ht E.
  apply (region_table_inj dataset (t', n') (t, n)) in E; [|done..]. congruence.
Qed.

Lemma process_file_tables file df_raw fs fs' cleaned :
  process_file file df_raw fs = Ok fs' ->
  clean_dataframe df_raw = Ok cleaned ->
  (forall t n, (t, n) ∈ ALL_REGIONS ->
     fs' !! region_table (infer_dataset file) t n =
     match List.filter (named n) (region_rows t cleaned) with
     | [] => fs !! region_table (infer_dataset file) t n
     | (_ :: _) as g =>
         Some (to_csv (merged (old_rows (fs !! region_table (infer_dataset file) t n))
                         (map row g)))
     end)
  /\ (forall p, (forall t n, (t, n) ∈ ALL_REGIONS ->
                   region_table (infer_dataset file) t n <> p) ->
        fs' !! p = fs !! p).
Proof.
  rewrite process_file_eq. intros H Hc. rewrite Hc in H. simpl_bind.
  injection H as <-. set (ds := infer_dataset file).
  destruct (write_groups_lookup STATE ds (state_rows cleaned) fs
              (state_rows_regions cleaned)) as [S1 S2].
  destruct (write_groups_lookup UT ds (ut_rows cleaned)
              (write_groups STATE ds (state_rows cleaned) fs)
              (ut_rows_regions cleaned)) as [U1 U2].
  split.
  - intros t n Htn. destruct (all_regions_inv t n Htn) as [[-> Hn]|[-> Hn]].
    + rewrite U2 by (intros m Hm; by apply tables_differ). by apply S1.
    + rewrite (U1 n Htn). simpl.
      rewrite S2 by (intros m Hm; by apply tables_differ). done.
  - intros p Hp. rewrite U2, S2; [done|..]; intros n Hn; by apply Hp.
Qed.

End Routing.

Lemma process_file_cleaned `{P : Pandas} file df_raw fs fs' :
  process_file file df_raw fs = Ok fs' ->
  clean_dataframe df_raw = Ok (cleaned_rows df_raw).
Proof.
  rewrite process_file_eq. unfold cleaned_rows.
  by destruct (clean_dataframe df_raw).
Qed.

(** X10. What one input file does to the table of a region, for the data
    set of the file: when the file has no row for the region, with a date,
    the table is left as it is (none is created); otherwise the table is the
    merge of what it held with these rows. *)
Theorem file_writes_region_tables (P : Pandas) (file : string) (df_raw : RawFrame)
    (fs fs' : gmap string disk_file) (t : region_type) (n : string) :
  process_file file df_raw fs = Ok fs' ->
  (t, n) ∈ ALL_REGIONS ->
  fs' !! region_table (infer_dataset file) t n =
  match List.filter (named n) (region_rows t (cleaned_rows df_raw)) with
  | [] => fs !! region_table (infer_dataset file) t n
  | (_ :: _) as g =>
      Some (to_csv (merged (old_rows (fs !! region_table (infer_dataset file) t n))
                      (map row g)))
  end.
Proof.
  intros H Htn. pose proof (process_file_cleaned _ _ _ _ H) as Hc.
  by apply (proj1 (process_file_tables file df_raw fs fs' _ H Hc)).
Qed.

Lemma file_writes_region_tables_witness :
  fst (main_loop (P:=PandasModel.pandas) [Examples.complete_file] ∅)
    !! region_table (infer_dataset (fst Examples.complete_file)) STATE "Goa" =
  match List.filter (named "Goa")
          (region_rows STATE (cleaned_rows (P:=PandasModel.pandas)
                                (snd Examples.complete_file))) with
  | [] => (∅ : gmap string disk_file)
             !! region_table (infer_dataset (fst Examples.complete_file)) STATE "Goa"
  | (_ :: _) as g =>
      Some (to_csv (merged
                      (old_rows ((∅ : gmap string disk_file) !! region_table
                                       (infer_dataset (fst Examples.complete_file))
                                       STATE "Goa"))
                      (map row g)))
  end.
Proof.
  apply (file_writes_region_tables PandasModel.pandas).
  - vm_compute. reflexivity.
  - apply list_elem_of_In. vm_compute. tauto.
Defined.

(** X11. When a file has been processed, every one of its cleaned rows
    that has a date and a region name is a line of the table of its region,
    for the data set of the file. *)
Theorem valid_rows_are_persisted (P : Pandas) (file : string) (df_raw : RawFrame)
    (fs fs' : gmap string disk_file) (r : CleanRow) :
  process_file file df_raw fs = Ok fs' ->
  r ∈ cleaned_rows df_raw ->
  date (row r) <> None ->
  _region_name r <> None ->
  exists lines,
    fs' !! table_path (infer_dataset file) r = Some (Csv lines)
    /\ to_csv_row (row r) ∈ lines.
Proof.
  intros H Hr Hdate Hname. pose proof (process_file_cleaned _ _ _ _ H) as Hc.
  destruct (proj2 (clean_dataframe_rows _ _ Hc) r Hr) as [Hreg Hne].
  pose proof (clean_row_region r Hreg Hne) as Hrange.
  destruct (_region_name r) as [n|] eqn:En; [|done].
  assert (r ∈ mapped_rows (cleaned_rows df_raw)) as Hm.
  { unfold mapped_rows, valid_date_rows. rewrite !filter_elem_of.
    repeat split; [done|..].
    - unfold notna, isna. by destruct (date (row r)).
    - by rewrite En. }
  assert ((_region_type r, n) ∈ ALL_REGIONS
          /\ r ∈ region_rows (_region_type r) (cleaned_rows df_raw)) as [Htn Hrows].
  { destruct Hrange as [[Et Hn]|[Et Hn]]; rewrite Et.
    - split; [by apply state_region|]. simpl. unfold state_rows.
      apply filter_elem_of. split; [done|]. rewrite Et. unfold name_isin. rewrite En.
      apply andb_true_iff. split; [by apply bool_decide_eq_true|by apply mem_elem_of].
    - split; [by apply ut_region|]. simpl. unfold ut_rows.
      apply filter_elem_of. split; [done|]. rewrite Et. unfold name_isin. rewrite En.
      apply andb_true_iff. split; [by apply bool_decide_eq_true|by apply mem_elem_of]. }
  pose proof (proj1 (process_file_tables file df_raw fs fs' _ H Hc) _ n Htn) as Ht.
  assert (r ∈ List.filter (named n) (region_rows (_region_type r) (cleaned_rows df_raw)))
    as Hg.
  { apply filter_elem_of. split; [done|]. by apply bool_decide_eq_true. }
  destruct (List.filter (named n) _) as [|x g] eqn:Eg; [by apply elem_of_nil in Hg|].
  eexists. unfold table_path. rewrite En. split; [exact Ht|].
  apply list_elem_of_In, in_map, list_elem_of_In, merged_elem_of.
  split; [|done]. right. apply list_elem_of_In, in_map. by apply list_elem_of_In.
Qed.

Lemma valid_rows_are_persisted_witness :
  exists lines,
    fst (main_loop (P:=PandasModel.pandas) [Examples.complete_file] ∅)
      !! table_path (infer_dataset (fst Examples.complete_file))
           (goa_row (P:=PandasModel.pandas)) = Some (Csv lines)
    /\ to_csv_row (row (goa_row (P:=PandasModel.pandas))) ∈ lines.
Proof.
  apply (valid_rows_are_persisted PandasModel.pandas _ (snd Examples.complete_file) ∅).
  - vm_compute. reflexivity.
  - apply (bool_decide_unpack _). vm_compute. exact I.
  - discriminate.
  - discriminate.
Defined.

Lemma infer_dataset_range file : infer_dataset file ∈ DATASETS.
Proof.
  unfold infer_dataset, DATASETS.
  repeat match goal with |- context [if ?b then _ else _] => destruct b end;
    apply list_elem_of_In; simpl; tauto.
Qed.

Lemma region_table_paths_elem ds t n :
  ds ∈ DATASETS -> (t, n) ∈ ALL_REGIONS -> region_table ds t n ∈ region_table_paths.
Proof.
  intros Hds Htn. unfold region_table_paths. apply list_elem_of_In, in_flat_map.
  exists ds. split; [by apply list_elem_of_In|].
  apply in_map_iff. exists (t, n). split; [done|by apply list_elem_of_In].
Qed.

Section Untouched.
Context `{P : Pandas}.

Lemma process_file_other file df_raw fs fs' p :
  process_file file df_raw fs = Ok fs' -> p ∉ region_table_paths -> fs' !! p = fs !! p.
Proof.
  intros H Hp. pose proof (process_file_cleaned _ _ _ _ H) as Hc.
  apply (proj2 (process_file_tables file df_raw fs fs' _ H Hc)).
  intros t n Htn E. apply Hp. rewrite <- E.
  apply region_table_paths_elem; [apply infer_dataset_range|done].
Qed.

Lemma process_file_keeps file df_raw fs fs' p :
  process_file file df_raw fs = Ok fs' -> is_Some (fs !! p) -> is_Some (fs' !! p).
Proof.
  intros H Hs. pose proof (process_file_cleaned _ _ _ _ H) as Hc.
  destruct (process_file_tables file df_raw fs fs' _ H Hc) as [T1 T2].
  destruct (decide (p ∈ map (fun r => region_table (infer_dataset file) (fst r) (snd r))
                          ALL_REGIONS)) as [Hin|Hout].
  - apply list_elem_of_In, in_map_iff in Hin as ([t n] & <- & Htn).
    simpl in *. rewrite (T1 t n) by (by apply list_elem_of_In).
    by destruct (List.filter _ _).
  - rewrite T2; [done|]. intros t n Htn E. apply Hout. rewrite <- E.
    apply list_elem_of_In, in_map_iff. exists (t, n). split; [done|].
    by apply list_elem_of_In.
Qed.

Lemma main_loop_other files : forall fs p,
  p ∉ region_table_paths -> fst (main_loop files fs) !! p = fs !! p.
Proof.
  induction files as [|[file df] files IH]; intros fs p Hp; simpl; [done|].
  destruct (process_file file df fs) as [fs'|] eqn:E; [|done].
  rewrite IH by done. by eapply process_file_other.
Qed.

Lemma main_loop_keeps files : forall fs p,
  is_Some (fs !! p) -> is_Some (fst (main_loop files fs) !! p).
Proof.
  induction files as [|[file df] files IH]; intros fs p Hp; simpl; [done|].
  destruct (process_file file df fs) as [fs'|] eqn:E; [|done].
  apply IH. by eapply process_file_keeps.
Qed.

End Untouched.

(** X12. The loop of [main] over the input files (lines 455-533) writes to
    the tables of the 36 regions only, for the four data sets: every other
    file of the store is as it was before the loop, and no file that was
    there is removed by it, whether the loop ends with an exception or
    not. *)
Theorem run_touches_region_tables_only (P : Pandas)
    (files : list (string * RawFrame)) (fs : gmap string disk_file) (p : string) :
  (p ∉ region_table_paths -> fst (main_loop files fs) !! p = fs !! p)
  /\ (is_Some (fs !! p) -> is_Some (fst (main_loop files fs) !! p)).
Proof. split; [apply main_loop_other|apply main_loop_keeps]. Qed.

Lemma run_touches_region_tables_only_witness :
  fst (main_loop (P:=PandasModel.pandas) [Examples.complete_file]
         (<[ "state_csv/Goa/notes.txt" := Blank ]> ∅))
    !! "state_csv/Goa/notes.txt" = Some Blank.
Proof.
  rewrite (proj1 (run_touches_region_tables_only PandasModel.pandas _ _ _)).
  - apply lookup_insert_eq.
  - intros H%mem_elem_of. revert H. vm_compute. discriminate.
Defined.

(** ** [clean_col] *)

Lemma col_char_facts c :
  Ascii.eqb (Py.lower_char c) " " = Ascii.eqb c " "
  /\ col_char (col_char c) = col_char c
  /\ (Py.is_space c = false -> Py.is_space (col_char c) = false)
  /\ col_char (Py.lower_char c) = col_char c
  /\ (is_underscore c = true -> c = "_"%char).
Proof.
  destruct c as [[] [] [] [] [] [] [] []]; vm_compute; repeat split; intros; congruence.
Qed.

Lemma squeeze_cons r c l :
  squeeze r (c :: l) =
  if is_underscore c then (if r then [] else ["_"%char]) ++ squeeze true l
  else c :: squeeze false l.
Proof. done. Qed.

Lemma clean_col_eq s : clean_col s = Py.str (clean_col_chars (Py.chars s)).
Proof.
  unfold clean_col, Py.sub_runs, Py.replace_char, Py.lower, Py.strip, clean_col_chars.
  rewrite !chars_str. f_equal. unfold squeeze. f_equal.
  induction (Py.strip_chars (Py.chars s)) as [|c l IH]; [done|].
  cbn [map flat_map]. rewrite IH. unfold col_char at 2.
  rewrite (proj1 (col_char_facts c)). by destruct (Ascii.eqb c " ").
Qed.

Lemma squeeze_idem l :
  squeeze true (squeeze true l) = squeeze true l
  /\ squeeze false (squeeze false l) = squeeze false l.
Proof.
  induction l as [|c l [IH1 IH2]]; [done|]. rewrite !squeeze_cons.
  destruct (is_underscore c) eqn:Hc; simpl.
  - split; [done|]. rewrite squeeze_cons. simpl. by rewrite IH1.
  - rewrite !squeeze_cons, Hc. split; by rewrite IH2.
Qed.

Lemma squeeze_Forall (Q : ascii -> Prop) l : forall r,
  Q "_"%char -> Forall Q l -> Forall Q (squeeze r l).
Proof.
  induction l as [|c l IH]; intros r Hu Hl; [constructor|].
  inversion Hl; subst. rewrite squeeze_cons.
  destruct (is_underscore c); [|constructor; auto].
  destruct r; simpl; [auto|constructor; auto].
Qed.

Lemma squeeze_nil l : squeeze false l = [] -> l = [].
Proof.
  destruct l as [|c l]; [done|]. rewrite squeeze_cons.
  by destruct (is_underscore c).
Qed.

Lemma head_ok_rev_app (x y : list ascii) :
  head_ok (rev (x ++ y)) = match y with [] => head_ok (rev x) | _ => head_ok (rev y) end.
Proof.
  destruct y as [|c y]; [by rewrite app_nil_r|].
  rewrite rev_app_distr. destruct (rev (c :: y)) as [|z q] eqn:E; [|done].
  apply (f_equal (@length ascii)) in E. rewrite length_rev in E. done.
Qed.

Lemma squeeze_last l : forall r,
  head_ok (rev l) = true -> head_ok (rev (squeeze r l)) = true.
Proof.
  induction l as [|c l IH]; intros r H; [done|]. rewrite squeeze_cons.
  change (c :: l) with ([c] ++ l) in H. rewrite head_ok_rev_app in H.
  destruct l as [|x l].
  - simpl in H. destruct (is_underscore c); [by destruct r|]. simpl. exact H.
  - destruct (is_underscore c) eqn:Hc.
    + rewrite head_ok_rev_app.
      destruct (squeeze true (x :: l)) eqn:E; [by destruct r|].
      rewrite <- E. by apply IH.
    + change (c :: squeeze false (x :: l)) with ([c] ++ squeeze false (x :: l)).
      rewrite head_ok_rev_app.
      destruct (squeeze false (x :: l)) eqn:E; [by apply squeeze_nil in E|].
      rewrite <- E. by apply IH.
Qed.

Lemma squeeze_head l : head_ok l = true -> head_ok (squeeze false l) = true.
Proof.
  destruct l as [|c l]; [done|]. rewrite squeeze_cons. simpl.
  destruct (is_underscore c) eqn:Hc; [done|]. by simpl.
Qed.

Lemma col_char_head l : head_ok l = true -> head_ok (map col_char l) = true.
Proof.
  destruct l as [|c l]; [done|]. simpl. intros H%negb_true_iff.
  apply negb_true_iff. by apply col_char_facts.
Qed.

Lemma clean_col_edges l :
  head_ok (clean_col_chars l) = true /\ head_ok (rev (clean_col_chars l)) = true.
Proof.
  unfold clean_col_chars. destruct (strip_edges l) as [H1 H2]. split.
  - by apply squeeze_head, col_char_head.
  - apply squeeze_last. rewrite <- map_rev. by apply col_char_head.
Qed.

Lemma map_fixed {A} (f : A -> A) l : Forall (fun x => f x = x) l -> map f l = l.
Proof. induction 1; simpl; [done|]. by f_equal. Qed.

Lemma clean_col_chars_idem l : clean_col_chars (clean_col_chars l) = clean_col_chars l.
Proof.
  destruct (clean_col_edges l) as [H1 H2].
  unfold clean_col_chars at 1. rewrite (strip_id _ H1 H2).
  rewrite map_fixed.
  - unfold clean_col_chars. apply squeeze_idem.
  - unfold clean_col_chars. apply squeeze_Forall; [done|].
    apply List.Forall_forall. intros x (c & <- & _)%in_map_iff. apply col_char_facts.
Qed.

Lemma lstrip_map (f : ascii -> ascii) l :
  (forall c, Py.is_space (f c) = Py.is_space c) ->
  Py.lstrip_chars (map f l) = map f (Py.lstrip_chars l).
Proof.
  intros Hf. induction l as [|c l IH]; simpl; [done|]. rewrite Hf.
  by destruct (Py.is_space c).
Qed.

Lemma strip_map (f : ascii -> ascii) l :
  (forall c, Py.is_space (f c) = Py.is_space c) ->
  Py.strip_chars (map f l) = map f (Py.strip_chars l).
Proof.
  intros Hf. unfold Py.strip_chars.
  by rewrite lstrip_map, <- map_rev, lstrip_map, map_rev.
Qed.

Lemma prefix_cons a p x l :
  Py.is_prefix (a :: p) (x :: l) = Ascii.eqb a x && Py.is_prefix p l.
Proof. done. Qed.

Lemma contains_cons p x l :
  Py.contains_chars p (x :: l) = Py.is_prefix p (x :: l) || Py.contains_chars p l.
Proof. done. Qed.

(** X13. Column names are compared in a normal form: cleaning a cleaned
    name changes nothing, the blanks around a name and the case of its
    letters play no part, and a cleaned name has no space and no two
    underscores in a row. *)
Theorem clean_col_is_a_normal_form (c : string) :
  clean_col (clean_col c) = clean_col c
  /\ clean_col (Py.strip c) = clean_col c
  /\ clean_col (Py.lower c) = clean_col c
  /\ Py.contains " " (clean_col c) = false
  /\ Py.contains "__" (clean_col c) = false.
Proof.
  rewrite !clean_col_eq. unfold Py.strip, Py.lower. rewrite !chars_str.
  split; [by rewrite clean_col_chars_idem|].
  split; [unfold clean_col_chars; by rewrite strip_strip|].
  split.
  { unfold clean_col_chars. f_equal. f_equal.
    rewrite strip_map by (intros x; char_cases char_facts x; exact Hspl).
    rewrite map_map. apply map_ext. intros x. apply col_char_facts. }
  unfold Py.contains. rewrite !chars_str. unfold clean_col_chars.
  set (m := Py.strip_chars (Py.chars c)). clearbody m.
  change (Py.chars " ") with [" "%char]. change (Py.chars "__") with ["_"%char; "_"%char].
  split.
  - assert (Forall (fun x => Ascii.eqb " " x = false) (squeeze false (map col_char m))) as H.
    { apply squeeze_Forall; [done|]. apply List.Forall_forall.
      intros x (y & <- & _)%in_map_iff. unfold col_char.
      destruct (Ascii.eqb y " ") eqn:E; [done|].
      rewrite Ascii.eqb_sym. by rewrite (proj1 (col_char_facts y)). }
    induction H as [|x l Hx _ IH]; [done|].
    by rewrite contains_cons, prefix_cons, Hx, IH.
  - assert (forall l r,
              Py.contains_chars ["_"%char; "_"%char] (squeeze r l) = false
              /\ (r = true -> Py.is_prefix ["_"%char] (squeeze r l) = false)) as H.
    { induction l as [|x l IH]; intros r; [done|]. rewrite squeeze_cons.
      destruct (is_underscore x) eqn:Hx.
      - destruct (IH true) as [IH1 IH2]. specialize (IH2 eq_refl).
        destruct r; [by split|]. split; [|done].
        change (["_"%char] ++ squeeze true l) with ("_"%char :: squeeze true l).
        by rewrite contains_cons, prefix_cons, IH2, IH1.
      - destruct (IH false) as [IH1 _]. unfold is_underscore in Hx.
        rewrite Ascii.eqb_sym in Hx.
        by rewrite contains_cons, !prefix_cons, Hx, IH1. }
    apply H.
Qed.

(** ** [infer_dataset] *)

Lemma is_prefix_app p q : forall l,
  Py.is_prefix (p ++ q) l = true -> Py.is_prefix p l = true.
Proof.
  induction p as [|x p IH]; intros l; simpl; [done|].
  destruct l as [|y l]; [done|]. intros [-> H]%andb_true_iff. by rewrite (IH l H).
Qed.

Lemma contains_chars_app p q l :
  Py.contains_chars (p ++ q) l = true -> Py.contains_chars p l = true.
Proof.
  induction l as [|y l IH]; simpl.
  - rewrite !orb_false_r. apply is_prefix_app.
  - intros [H|H]%orb_true_iff; apply orb_true_iff; [left|right; auto].
    by apply is_prefix_app in H.
Qed.

Lemma contains_longer (p q s : string) :
  Py.contains (p +:+ q) s = true -> Py.contains p s = true.
Proof. unfold Py.contains. rewrite chars_append. apply contains_chars_app. Qed.

Lemma orb_longer (p q s : string) :
  Py.contains p s || Py.contains (p +:+ q) s = Py.contains p s.
Proof.
  destruct (Py.contains p s) eqn:E; [done|]. simpl.
  destruct (Py.contains (p +:+ q) s) eqn:E'; [|done].
  apply contains_longer in E'. congruence.
Qed.

Lemma lower_lower s : Py.lower (Py.lower s) = Py.lower s.
Proof.
  unfold Py.lower. rewrite chars_str, map_map. f_equal. apply map_ext.
  intros c. char_cases char_facts c. exact Hll.
Qed.

(** X14. The data set of a file is decided by three short keywords, looked
    for in this order in the name in lower case: the longer keywords of the
    source never decide; the case of the name plays no part, and the answer
    is one of four names. *)
Theorem infer_dataset_keywords (filename : string) :
  infer_dataset filename =
    (if Py.contains "demo" (Py.lower filename) then "demographic"
     else if Py.contains "bio" (Py.lower filename) then "biometric"
     else if Py.contains "enrol" (Py.lower filename) then "enrolment"
     else "dataset")
  /\ infer_dataset (Py.lower filename) = infer_dataset filename
  /\ infer_dataset filename ∈ DATASETS.
Proof.
  split; [|split; [|apply infer_dataset_range]].
  - unfold infer_dataset.
    change "demographic" with ("demo" +:+ "graphic") at 1.
    change "biometric" with ("bio" +:+ "metric") at 1.
    change "enroll" with ("enrol" +:+ "l").
    by rewrite !orb_longer.
  - unfold infer_dataset. by rewrite lower_lower.
Qed.

(** ** [clean_dataframe] on a file with the required columns *)

Section CleanCells.
Context `{P : Pandas}.

Lemma clean_dataframe_cells df cleaned :
  clean_dataframe df = Ok cleaned ->
  forall r, r ∈ cleaned ->
    norm_pincode (Str (pincode (row r))) = pincode (row r).
Proof.
  unfold clean_dataframe. destruct (List.filter _ REQUIRED); [|discriminate].
  destruct (bool_decide (NoDup _)); cbn [negb]; [|discriminate].
  destruct (result_mapM _ _) as [regions|] eqn:Em; [|discriminate].
  simpl_bind. intros [= <-] r Hr.
  apply list_elem_of_In, in_map_iff in Hr as ([[[[[s d] p] dt] ms] [t name]] & <- & Hin).
  do 3 apply in_combine_l in Hin. simpl.
  apply in_combine_r in Hin. apply in_map_iff in Hin as (z & <- & _).
  apply norm_pincode_idem.
Qed.

Lemma clean_row_unknown r :
  canonicalize_region (state (row r)) (district (row r))
    = Ok (_region_type r, region_name_of r) ->
  _region_name r <> Some EmptyString ->
  (_region_name r = None <-> _region_type r = UNKNOWN).
Proof.
  intros H Hne. pose proof (resolve_in_range (state (row r)) (district (row r))) as Hr.
  rewrite canonicalize_region_chain in H. injection H as H. rewrite H in Hr.
  unfold region_name_of in *. simpl in Hr.
  destruct (_region_name r) as [n|] eqn:En.
  - split; [done|]. intros Et. rewrite Et in Hr. by subst n.
  - split; [|done]. intros _. destruct (_region_type r); [|by apply mem_elem_of in Hr|done].
    by apply mem_elem_of in Hr.
Qed.

End CleanCells.



Section Batches.
Context `{P : Pandas}.

Lemma merged_has_date old sdf : List.filter has_date (merged old sdf) = merged old sdf.
Proof.
  apply forallb_filter_id, forallb_forall. intros r Hr.
  apply list_elem_of_In, merged_elem_of in Hr as [_ Hr].
  unfold has_date, notna, isna. by destruct (date r).
Qed.

Lemma merged_incremental old a b :
  merged (merged old a) b = merged old (a ++ b).
Proof.
  apply sorted_stable_unique; [apply merged_sorted|apply merged_sorted|].
  intros k. rewrite !merged_stable.
  rewrite (app_assoc old a b).
  rewrite (drop_duplicates_app (merged old a) b), (drop_duplicates_app (old ++ a) b).
  rewrite (drop_duplicates_id (merged old a)) by apply merged_NoDup.
  rewrite !List.filter_app, merged_has_date, merged_stable. f_equal. f_equal.
  rewrite !filter_filter_andb. apply filter_ext. intros r.
  unfold has_date, notna, isna, unseen. destruct (date r) eqn:E; [|by rewrite !andb_false_r].
  rewrite !andb_true_r. f_equal. apply bool_decide_ext.
  rewrite merged_elem_of, elem_of_app. split; [tauto|]. intros H. split; [done|congruence].
Qed.

End Batches.

(** X16. Two batches merged one after the other give the table that the two
    batches give when they are merged as one, if the rows of the table written
    for the first batch come back from the file as they were written. *)
Theorem merge_is_incremental (P : Pandas) (region_folder dataset : string)
    (a b : list Row) (fs : gmap string disk_file) :
  let out_path := path_join region_folder (dataset +:+ ".csv") in
  let old := match fs !! out_path with
             | Some (Csv lines) => reload lines
             | Some Blank | None => []
             end in
  reload (map to_csv_row (merged old a)) = merged old a ->
  merge_write_dataset region_folder dataset b
    (merge_write_dataset region_folder dataset a fs)
  = merge_write_dataset region_folder dataset (a ++ b) fs.
Proof.
  intros out_path old Hreload. unfold merge_write_dataset at 1.
  fold out_path. unfold merge_write_dataset at 1. fold out_path. fold old.
  rewrite lookup_insert_eq. unfold to_csv at 2.
  rewrite Hreload, merged_incremental. unfold merge_write_dataset. fold out_path. fold old.
  apply insert_insert_eq.
Qed.

Lemma merge_is_incremental_witness :
  merge_write_dataset (P:=PandasModel.pandas) Examples.delhi_folder "demographic"
    [ mkRow "Delhi" "New Delhi" "110002" (Some Examples.new_year_eve) ∅ ]
    (merge_write_dataset (P:=PandasModel.pandas) Examples.delhi_folder "demographic"
       [ mkRow "Delhi" "New Delhi" "110001" (Some Examples.new_year_eve) ∅ ] ∅)
  = merge_write_dataset (P:=PandasModel.pandas) Examples.delhi_folder "demographic"
      ([ mkRow "Delhi" "New Delhi" "110001" (Some Examples.new_year_eve) ∅ ]
       ++ [ mkRow "Delhi" "New Delhi" "110002" (Some Examples.new_year_eve) ∅ ]) ∅.
Proof.
  apply (merge_is_incremental PandasModel.pandas).
  apply (bool_decide_unpack _). vm_compute. exact I.
Defined.
